(** * Garment-remixing network analysis: the graph pipeline of
    [improved_network.py]

    A shallow embedding of [create_taxonomy], of the row loop of
    [create_network_graph] and of [build_graph], with the properties the
    specification states about them.

    Conventions of the embedding.
    - A Python [str] is a [string]; a character is its code point, so the
      model covers text over code points 0..255 (ASCII and Latin-1).
    - A Python [int] is a [Z].
    - A Python [float] is an IEEE 754 double ([spec_float] of the Standard
      Library, in [Module Binary64]): the averages, the similarity and the
      sizes of the drawings are computed with the rounding of every operation,
      and a division of integers whose quotient is out of the range of the
      doubles raises [OverflowError]. The widths of the edges and the average
      degree, which no operation rounds before the last one, are exact
      rationals ([Qc]); so is the similarity formula without rounding, which is
      kept for comparison.
    - A [dict] whose iteration order the code relies on (the taxonomy, the
      node table of the graph) is an insertion-ordered association list with
      unique keys ([dict]); the [defaultdict]s that are only looked up are
      [gmap]s; a [set] is a [gset].
    - [print] calls inside the loops are recorded as events.
    - A raised exception is a [Raise] result. *)

From Stdlib Require Import ZArith QArith Qcanon String Ascii List Lia.
From Stdlib Require Import Floats.SpecFloat DecimalString.
From stdpp Require Import base option list numbers strings gmap sets fin_maps sorting.

#[local] Set Warnings "-clear-no-such-hyp".

Local Open Scope string_scope.
Local Open Scope list_scope.
Local Open Scope Z_scope.

(** ** Python strings *)

Module PyStr.

(** Code point of a character. *)
Definition ord (c : ascii) : Z := Z.of_nat (nat_of_ascii c).

(** [str.isspace] on one character, for code points below 256. *)
Definition isspace (c : ascii) : bool :=
  let n := ord c in
  ((9 <=? n) && (n <=? 13)) || ((28 <=? n) && (n <=? 32))
  || (n =? 133) || (n =? 160).

(** [s.lstrip()] *)
Fixpoint lstrip (s : string) : string :=
  match s with
  | String c s' => if isspace c then lstrip s' else s
  | EmptyString => EmptyString
  end.

(** [s.rstrip()] *)
Fixpoint rstrip (s : string) : string :=
  match s with
  | EmptyString => EmptyString
  | String c s' =>
      match rstrip s' with
      | EmptyString => if isspace c then EmptyString else String c EmptyString
      | r => String c r
      end
  end.

(** [s.strip()] *)
Definition strip (s : string) : string := rstrip (lstrip s).

(** [s.split(sep)] for a one-character separator: never the empty list. *)
Fixpoint split (sep : ascii) (s : string) : list string :=
  match s with
  | EmptyString => [EmptyString]
  | String c s' =>
      if Ascii.eqb c sep then EmptyString :: split sep s'
      else match split sep s' with
           | w :: ws => String c w :: ws
           | [] => [String c EmptyString]
           end
  end.

(** [c in s] for a one-character [c]. *)
Fixpoint contains (c : ascii) (s : string) : bool :=
  match s with
  | EmptyString => false
  | String c' s' => Ascii.eqb c' c || contains c s'
  end.

(** [s[n:]] *)
Fixpoint drop (n : nat) (s : string) : string :=
  match n, s with
  | O, _ => s
  | S n', String _ s' => drop n' s'
  | S _, EmptyString => EmptyString
  end.

(** [s[0]] as a one-character string; [None] is [IndexError]. *)
Definition first (s : string) : option string :=
  match s with
  | String c _ => Some (String c EmptyString)
  | EmptyString => None
  end.

(** *** [int(s)]

    CPython maps every non-ASCII white space to a blank, skips the
    characters of C's [isspace] at both ends, reads an optional sign and
    then decimal digits, where single underscores may separate digits.
    (The cap on the number of digits of recent CPython versions is not
    modelled.) [None] is [ValueError]. *)

Definition int_space (c : ascii) : bool :=
  let n := ord c in
  ((9 <=? n) && (n <=? 13)) || (n =? 32) || (n =? 133) || (n =? 160).

Fixpoint int_lstrip (s : string) : string :=
  match s with
  | String c s' => if int_space c then int_lstrip s' else s
  | EmptyString => EmptyString
  end.

Fixpoint int_rstrip (s : string) : string :=
  match s with
  | EmptyString => EmptyString
  | String c s' =>
      match int_rstrip s' with
      | EmptyString => if int_space c then EmptyString else String c EmptyString
      | r => String c r
      end
  end.

Definition digit (c : ascii) : option Z :=
  let n := ord c in
  if (48 <=? n) && (n <=? 57) then Some (n - 48) else None.

(** Digits after the first one; [us] tells that the previous character
    was an underscore. *)
Fixpoint int_digits (acc : Z) (us : bool) (s : string) : option Z :=
  match s with
  | EmptyString => if us then None else Some acc
  | String c s' =>
      if Ascii.eqb c "_" then (if us then None else int_digits acc true s')
      else match digit c with
           | Some d => int_digits (10 * acc + d) false s'
           | None => None
           end
  end.

Definition int_unsigned (s : string) : option Z :=
  match s with
  | String c s' =>
      match digit c with
      | Some d => int_digits d false s'
      | None => None
      end
  | EmptyString => None
  end.

Definition int (s : string) : option Z :=
  match int_rstrip (int_lstrip s) with
  | String "+" r => int_unsigned r
  | String "-" r => Z.opp <$> int_unsigned r
  | t => int_unsigned t
  end.

End PyStr.

(** ** Python dictionaries

    An insertion-ordered association list; [dict_set] is [d[k] = v]: a key
    that is present keeps its place and gets the new value, a new key goes to
    the end. *)

Section Dict.
Context {K V : Type} `{EqDecision K}.

Definition dict := list (K * V).

Fixpoint dict_get (k : K) (d : dict) : option V :=
  match d with
  | [] => None
  | (k', v) :: d' => if decide (k = k') then Some v else dict_get k d'
  end.

Fixpoint dict_set (k : K) (v : V) (d : dict) : dict :=
  match d with
  | [] => [(k, v)]
  | (k', v') :: d' =>
      if decide (k = k') then (k, v) :: d' else (k', v') :: dict_set k v d'
  end.

(** [list(d)], [d.keys()] *)
Definition dict_keys (d : dict) : list K := map fst d.

End Dict.

Arguments dict : clear implicits.

(** ** Results of code that may raise *)

Inductive exn :=
| NetworkXPointlessConcept    (* nx.is_connected on the null graph *)
| OverflowError               (* an integer division whose result is no double *)
| ZeroDivisionError
| KeyError
| IndexError
| AttributeError              (* a method of [None]; also raised by a library call *)
| TypeError.                  (* [int(None)] *)

Inductive Result (A : Type) :=
| Ok (a : A)
| Raise (e : exn).
Arguments Ok {A} a.
Arguments Raise {A} e.

#[global] Instance Result_bind : MBind Result :=
  λ A B f r, match r with Ok a => f a | Raise e => Raise e end.

(** ** The rows of the file *)

(** A complete row of [csv.DictReader]: a text in each of the seven columns.
    Rows that lack a column or a value are the subject of [read_row] below. A
    file that cannot be opened or decoded makes [create_network_graph] return
    four [None]s; that path is outside the model. *)
Record Row := {
  row_post_number : string;         (* row["post number"] *)
  row_caption : string;             (* row["caption"] *)
  row_url : string;                 (* row["url"] *)
  row_likes : string;               (* row["likes"] *)
  row_number_of_hashtags : string;  (* row["number of hashtags"] *)
  row_types_of_patterns : string;   (* row["types of patterns"] *)
  row_taxonomy : string             (* row["taxonomy"] *)
}.

(** ** Console output of the loops (the [print] calls) *)

Inductive Event :=
| WarnLine (line : string)
    (* create_taxonomy: "Warning: Could not parse line: {line}" *)
| ProcessingPost (post_num : Z) (cluster_str : string) (likes : Z)
    (* "Processing post {post_num}: clusters=..., likes=..." *)
| TaxonomyParsed (taxonomy : dict Z string)
    (* "Taxonomy parsed: {taxonomy}" *)
| WarnCluster (part : string) (post_num : Z)
    (* "Warning: Could not parse cluster '{part}' for post {post_num}" *)
| WarnRow (shown : Z) (literal : string)
    (* line 108: "Warning: Error processing row {post_num or row_count}:
       invalid literal for int() with base 10: {literal!r}" *)
| RowData (row : Row).
    (* line 109: "Row data: {dict(row)}" *)

(** ** [create_taxonomy] *)

(** The newline character, ['\n']. *)
Definition newline : ascii := ascii_of_nat 10.

(** The body of [for line in lines]: the accumulator is [output] and what
    has been printed so far. *)
Definition taxonomy_line (acc : dict Z string * list Event) (line : string)
  : dict Z string * list Event :=
  let '(output, printed) := acc in
  let line := PyStr.strip line in
  if negb (String.eqb line "") && (4 <? Z.of_nat (String.length line)) then
    match PyStr.first line ≫= PyStr.int with
    | Some number =>
        let mod_ := PyStr.strip (PyStr.drop 4 line) in
        (dict_set number mod_ output, printed)
    | None => (output, printed ++ [WarnLine line])
    end
  else (output, printed).

Definition taxonomy_lines (taxonomy_str : string) : list string :=
  PyStr.split newline (PyStr.strip taxonomy_str).

(** [create_taxonomy] with its console output. *)
Definition create_taxonomy_io (taxonomy_str : string) : dict Z string * list Event :=
  fold_left taxonomy_line (taxonomy_lines taxonomy_str) ([], []).

Definition create_taxonomy (taxonomy_str : string) : dict Z string :=
  fst (create_taxonomy_io taxonomy_str).

(** ** [create_network_graph]: the row loop *)

(** A value of [post_data]. *)
Record Post := {
  post_caption : string;
  post_url : string;
  post_likes : Z;
  post_hashtags : Z;
  post_clusters : list Z
}.

(** A value of [cluster_stats]; [empty_stats] is the default of the
    [defaultdict]. *)
Record Stats := {
  stats_likes : list Z;
  stats_hashtags : list Z;
  stats_posts : list Z
}.

Definition empty_stats : Stats :=
  {| stats_likes := []; stats_hashtags := []; stats_posts := [] |}.

(** The variables of the loop. [last_post_num] is the local [post_num],
    which keeps the value of the last row that set it. *)
Record Ingest := {
  taxonomy : dict Z string;
  posts_by_cluster : gmap Z (list Z);
  cluster_stats : gmap Z Stats;
  post_data : gmap Z Post;
  row_count : Z;
  last_post_num : option Z;
  printed : list Event
}.

Definition ingest_init : Ingest :=
  {| taxonomy := []; posts_by_cluster := ∅; cluster_stats := ∅; post_data := ∅;
     row_count := 0; last_post_num := None; printed := [] |}.

Definition say (e : Event) (st : Ingest) : Ingest :=
  {| taxonomy := taxonomy st; posts_by_cluster := posts_by_cluster st;
     cluster_stats := cluster_stats st; post_data := post_data st;
     row_count := row_count st; last_post_num := last_post_num st;
     printed := printed st ++ [e] |}.

(** The handler [except (ValueError, KeyError)] of the row. *)
Definition row_error (row : Row) (literal : string) (st : Ingest) : Ingest :=
  say (RowData row) (say (WarnRow (default (row_count st) (last_post_num st)) literal) st).

(** [clusters.append(int(part.strip()))] for each part, with the warning for
    a part that is not an integer. *)
Fixpoint parse_parts (post_num : Z) (parts : list string) : list Z * list Event :=
  match parts with
  | [] => ([], [])
  | part :: rest =>
      let '(cs, ws) := parse_parts post_num rest in
      match PyStr.int (PyStr.strip part) with
      | Some c => (c :: cs, ws)
      | None => (cs, WarnCluster (PyStr.strip part) post_num :: ws)
      end
  end.

(** One round of [for cluster in clusters]. *)
Definition add_to_cluster (post_num likes hashtags_count : Z) (st : Ingest) (cluster : Z)
  : Ingest :=
  let stats := default empty_stats (cluster_stats st !! cluster) in
  {| taxonomy := taxonomy st;
     posts_by_cluster :=
       <[cluster := default [] (posts_by_cluster st !! cluster) ++ [post_num]]>
         (posts_by_cluster st);
     cluster_stats :=
       <[cluster := {| stats_likes := stats_likes stats ++ [likes];
                       stats_hashtags := stats_hashtags stats ++ [hashtags_count];
                       stats_posts := stats_posts stats ++ [post_num] |}]>
         (cluster_stats st);
     post_data := post_data st;
     row_count := row_count st; last_post_num := last_post_num st;
     printed := printed st |}.

(** Lines 98-105: store the resolved clusters, then update the statistics. *)
Definition record_clusters (post_num likes hashtags_count : Z) (clusters : list Z)
    (st : Ingest) : Ingest :=
  let st :=
    {| taxonomy := taxonomy st; posts_by_cluster := posts_by_cluster st;
       cluster_stats := cluster_stats st;
       post_data :=
         alter (λ p, {| post_caption := post_caption p; post_url := post_url p;
                        post_likes := post_likes p; post_hashtags := post_hashtags p;
                        post_clusters := clusters |}) post_num (post_data st);
       row_count := row_count st; last_post_num := last_post_num st;
       printed := printed st |} in
  fold_left (add_to_cluster post_num likes hashtags_count) clusters st.

(** Lines 69-80: store the post, and parse the taxonomy on post number 1. *)
Definition store_post (row : Row) (post_num likes hashtags_count : Z) (st : Ingest)
  : Ingest :=
  let st :=
    {| taxonomy := taxonomy st; posts_by_cluster := posts_by_cluster st;
       cluster_stats := cluster_stats st;
       post_data :=
         <[post_num := {| post_caption := row_caption row; post_url := row_url row;
                          post_likes := likes; post_hashtags := hashtags_count;
                          post_clusters := [] |}]> (post_data st);
       row_count := row_count st; last_post_num := last_post_num st;
       printed := printed st |} in
  if post_num =? 1 then
    let '(tax, warnings) := create_taxonomy_io (row_taxonomy row) in
    {| taxonomy := tax; posts_by_cluster := posts_by_cluster st;
       cluster_stats := cluster_stats st; post_data := post_data st;
       row_count := row_count st; last_post_num := last_post_num st;
       printed := printed st ++ warnings ++ [TaxonomyParsed tax] |}
  else st.

(** The body of [for row in reader]. *)
Definition ingest_row (st : Ingest) (row : Row) : Ingest :=
  let st :=
    {| taxonomy := taxonomy st; posts_by_cluster := posts_by_cluster st;
       cluster_stats := cluster_stats st; post_data := post_data st;
       row_count := row_count st + 1; last_post_num := last_post_num st;
       printed := printed st |} in
  match PyStr.int (row_post_number row) with
  | None => row_error row (row_post_number row) st
  | Some post_num =>
      let st :=
        {| taxonomy := taxonomy st; posts_by_cluster := posts_by_cluster st;
           cluster_stats := cluster_stats st; post_data := post_data st;
           row_count := row_count st; last_post_num := Some post_num;
           printed := printed st |} in
      let cluster_str := PyStr.strip (row_types_of_patterns row) in
      match PyStr.int (row_likes row) with
      | None => row_error row (row_likes row) st
      | Some likes =>
          match PyStr.int (row_number_of_hashtags row) with
          | None => row_error row (row_number_of_hashtags row) st
          | Some hashtags_count =>
              let st := say (ProcessingPost post_num cluster_str likes) st in
              let st := store_post row post_num likes hashtags_count st in
              if PyStr.contains "," cluster_str then
                let '(clusters, warnings) :=
                  parse_parts post_num (PyStr.split "," cluster_str) in
                let st := fold_left (λ s w, say w s) warnings st in
                record_clusters post_num likes hashtags_count clusters st
              else
                match PyStr.int cluster_str with
                | Some c => record_clusters post_num likes hashtags_count [c] st
                | None => say (WarnCluster cluster_str post_num) st   (* continue *)
                end
          end
      end
  end.

(** The loop over the rows of the file, from the empty containers. *)
Definition create_network_graph (rows : list Row) : Ingest :=
  fold_left ingest_row rows ingest_init.

(** ** [create_network_graph] on rows that are not complete

    [csv.DictReader] gives every row the columns of the header; a row that
    is shorter than the header has [None] in the columns it does not reach. A
    column that the header lacks makes [row[...]] raise [KeyError], which the
    handler of line 107 takes; a [None] makes [int] raise [TypeError] and
    [.strip()] raise [AttributeError], which only the handler of line 119
    takes: the function then returns four [None]s. This part follows the
    four containers only, not the console. *)

(** The accumulators after the rounds of [for cluster in clusters]. *)
Definition append_all {A} (x : A) (clusters : list Z) (m : gmap Z (list A)) : gmap Z (list A) :=
  fold_left (λ m c, <[c := default [] (m !! c) ++ [x]]> m) clusters m.

(** One round of the statistics update of lines 103-105, and the statistics
    after the rounds of [for cluster in clusters]. *)
Definition extend_stats (post_num likes hashtags_count : Z) (stats : Stats) : Stats :=
  {| stats_likes := stats_likes stats ++ [likes];
     stats_hashtags := stats_hashtags stats ++ [hashtags_count];
     stats_posts := stats_posts stats ++ [post_num] |}.

Definition append_stats (post_num likes hashtags_count : Z) (clusters : list Z)
    (m : gmap Z Stats) : gmap Z Stats :=
  fold_left
    (λ m c, <[c := extend_stats post_num likes hashtags_count (default empty_stats (m !! c))]> m)
    clusters m.

Inductive Cell :=
| NoColumn            (* the header lacks the column *)
| NoValue             (* [None]: the row is short *)
| Text (s : string).

Record RawRow := {
  cell_post_number : Cell;
  cell_caption : Cell;
  cell_url : Cell;
  cell_likes : Cell;
  cell_number_of_hashtags : Cell;
  cell_types_of_patterns : Cell;
  cell_taxonomy : Cell
}.

(** A value of [post_data], whose caption and url may be [None]. *)
Record RawPost := {
  raw_caption : option string;
  raw_url : option string;
  raw_likes : Z;
  raw_hashtags : Z;
  raw_clusters : list Z
}.

Definition RawContainers : Type :=
  dict Z string * gmap Z (list Z) * gmap Z Stats * gmap Z RawPost.

(** What an expression of the row body gives: a value, an exception for the
    handler of line 107, or an exception that only line 119 catches. *)
Inductive Step (A : Type) :=
| Value (a : A)
| Handled             (* [ValueError] or [KeyError] *)
| Fatal (e : exn).    (* [TypeError] or [AttributeError] *)
Arguments Value {A} a.
Arguments Handled {A}.
Arguments Fatal {A} e.

#[global] Instance Step_bind : MBind Step :=
  λ A B f s, match s with Value a => f a | Handled => Handled | Fatal e => Fatal e end.

(** [int(row[column])] *)
Definition cell_int (c : Cell) : Step Z :=
  match c with
  | NoColumn => Handled
  | NoValue => Fatal TypeError
  | Text s => match PyStr.int s with Some n => Value n | None => Handled end
  end.

(** [row[column]] when a method of the string is called next ([.strip()],
    also inside [create_taxonomy]). *)
Definition cell_text (c : Cell) : Step string :=
  match c with
  | NoColumn => Handled
  | NoValue => Fatal AttributeError
  | Text s => Value s
  end.

(** [row[column]] when the value is only stored. *)
Definition cell_value (c : Cell) : Step (option string) :=
  match c with
  | NoColumn => Handled
  | NoValue => Value None
  | Text s => Value (Some s)
  end.

(** Lines 61-64 *)
Definition row_fields (raw : RawRow) : Step (Z * string * Z * Z) :=
  post_num ← cell_int (cell_post_number raw);
  types ← cell_text (cell_types_of_patterns raw);
  likes ← cell_int (cell_likes raw);
  hashtags_count ← cell_int (cell_number_of_hashtags raw);
  Value (post_num, PyStr.strip types, likes, hashtags_count).

(** Lines 83-96: the clusters of the row, [None] at the [continue]. *)
Definition parse_clusters (post_num : Z) (cluster_str : string) : option (list Z) :=
  if PyStr.contains "," cluster_str
  then Some (parse_parts post_num (PyStr.split "," cluster_str)).1
  else (λ c, [c]) <$> PyStr.int cluster_str.

(** The body of [for row in reader]: the containers after the row, or the
    exception that leaves the loop. *)
Definition read_row (cs : RawContainers) (raw : RawRow) : Result RawContainers :=
  let '(tax, pbc, stats, pd) := cs in
  match
    '(post_num, cluster_str, likes, hashtags_count) ← row_fields raw;
    caption ← cell_value (cell_caption raw);
    url ← cell_value (cell_url raw);
    Value (post_num, cluster_str, likes, hashtags_count, caption, url)
  with
  | Fatal e => Raise e
  | Handled => Ok cs
  | Value (post_num, cluster_str, likes, hashtags_count, caption, url) =>
      let post clusters :=
        {| raw_caption := caption; raw_url := url; raw_likes := likes;
           raw_hashtags := hashtags_count; raw_clusters := clusters |} in
      let stored := <[post_num := post []]> pd in                    (* line 69 *)
      match
        if post_num =? 1
        then taxonomy_str ← cell_text (cell_taxonomy raw);
             Value (create_taxonomy taxonomy_str)                    (* line 79 *)
        else Value tax
      with
      | Fatal e => Raise e
      | Handled => Ok (tax, pbc, stats, stored)
      | Value tax =>
          match parse_clusters post_num cluster_str with
          | None => Ok (tax, pbc, stats, stored)                     (* line 96 *)
          | Some clusters =>
              Ok (tax,
                  append_all post_num clusters pbc,
                  append_stats post_num likes hashtags_count clusters stats,
                  <[post_num := post clusters]> stored)              (* line 98 *)
          end
      end
  end.

(** What [create_network_graph] returns for the rows of the reader: the four
    containers, or [None] for the four [None]s of line 121. *)
Definition read_file (raws : list RawRow) : option RawContainers :=
  match fold_left (λ acc raw, cs ← acc; read_row cs raw) raws (Ok ([], ∅, ∅, ∅)) with
  | Ok cs => Some cs
  | Raise _ => None
  end.

(** ** Floating point numbers

    A Python [float] is an IEEE 754 double precision number: the
    specification of the Standard Library ([spec_float], round to nearest,
    ties to even) with 53 bits of precision. Every operation rounds once. *)

Module Binary64.

Definition prec : Z := 53.
Definition emax : Z := 1024.

(** [0.0]. The integer [0] that an average falls back to is represented by
    it: the two are the same number in every comparison, subtraction and
    division of the program. *)
Definition zero : spec_float := S754_zero false.

(** [float(n)]: used for the literals [1], [7], [10], ... of the program,
    which a double represents exactly. *)
Definition of_int (n : Z) : spec_float := binary_normalize prec emax n 0 false.

Definition sub : spec_float → spec_float → spec_float := SFsub prec emax.
Definition div : spec_float → spec_float → spec_float := SFdiv prec emax.

Definition add : spec_float → spec_float → spec_float := SFadd prec emax.
Definition mul : spec_float → spec_float → spec_float := SFmul prec emax.

(** [x > y], [x < y] and [x <= y] *)
Definition gtb (x y : spec_float) : bool := SFltb y x.
Definition ltb (x y : spec_float) : bool := SFltb x y.
Definition leb (x y : spec_float) : bool := SFleb x y.

(** [min(a, b)] and [max(a, b)]: the first argument unless the second is
    strictly smaller, respectively larger. *)
Definition min2 (a b : spec_float) : spec_float := if ltb b a then b else a.
Definition max2 (a b : spec_float) : spec_float := if gtb b a then b else a.

(** An integer as a mantissa that is not rounded. *)
Definition exact (n : Z) : spec_float :=
  match n with
  | 0 => S754_zero false
  | Z.pos m => S754_finite false m 0
  | Z.neg m => S754_finite true m 0
  end.

(** [a / b] on integers: the quotient of the two integers, rounded once.
    CPython raises [OverflowError] (integer division result too large for a
    float) when the rounded quotient is out of range, and
    [ZeroDivisionError] for a zero divisor. *)
Definition true_div (a b : Z) : Result spec_float :=
  if b =? 0 then Raise ZeroDivisionError
  else
    match div (exact a) (exact b) with
    | S754_infinity _ => Raise OverflowError
    | quotient => Ok quotient
    end.

(** [max(a, b, c)]: the first of the largest. *)
Definition max_of_three (a b c : spec_float) : spec_float :=
  let m := if gtb b a then b else a in
  if gtb c m then c else m.

(** Line 194-195: [1 - abs(avg1 - avg2) / max(avg1, avg2, 1)]. *)
Definition similarity (avg1 avg2 : spec_float) : spec_float :=
  let max_avg := max_of_three avg1 avg2 (of_int 1) in
  sub (of_int 1) (div (SFabs (sub avg1 avg2)) max_avg).

(** The literal [0.7]: the double nearest to 7/10. *)
Definition threshold : spec_float := div (of_int 7) (of_int 10).

End Binary64.

(** ** The graph ([nx.Graph])

    The node table keeps the insertion order of the nodes. An undirected
    edge is stored once, under its endpoints in increasing order, so there
    is at most one attribute record per pair of nodes. Every attribute of an
    edge is optional: [add_edge] on a pair that has an edge updates the
    attributes it is given and keeps the others, as networkx does. *)

Record NodeAttr := {
  label : string;
  posts_count : Z;
  total_likes : Z;
  avg_likes : spec_float;
  total_hashtags : Z;
  avg_hashtags : spec_float;
  posts : list Z
}.

Record EdgeAttr := {
  weight : option Qc;              (* an integer or [0.5] *)
  shared_posts : option (list Z);
  similarity : option spec_float;
  edge_type : option string
}.

Definition no_attr : EdgeAttr :=
  {| weight := None; shared_posts := None; similarity := None; edge_type := None |}.

(** [old.update(new)] *)
Definition attr_update (old new : EdgeAttr) : EdgeAttr :=
  {| weight := weight new ∪ weight old;
     shared_posts := shared_posts new ∪ shared_posts old;
     similarity := similarity new ∪ similarity old;
     edge_type := edge_type new ∪ edge_type old |}.

Record Graph := {
  nodes : dict Z NodeAttr;
  adj : gmap (Z * Z) EdgeAttr
}.

Definition empty_graph : Graph := {| nodes := []; adj := ∅ |}.

Definition edge_key (u v : Z) : Z * Z := (Z.min u v, Z.max u v).

(** [G.add_node(n, **attr)] with all seven attributes given. *)
Definition add_node (n : Z) (attr : NodeAttr) (G : Graph) : Graph :=
  {| nodes := dict_set n attr (nodes G); adj := adj G |}.

(** [G.add_edge(u, v, **attr)] between two nodes of the graph. *)
Definition add_edge (u v : Z) (attr : EdgeAttr) (G : Graph) : Graph :=
  {| nodes := nodes G;
     adj := <[edge_key u v := attr_update (default no_attr (adj G !! edge_key u v)) attr]>
              (adj G) |}.

(** [G.has_edge(u, v)] *)
Definition has_edge (G : Graph) (u v : Z) : bool :=
  bool_decide (is_Some (adj G !! edge_key u v)).

(** [list(G.nodes())] *)
Definition node_list (G : Graph) : list Z := dict_keys (nodes G).

(** [G.number_of_nodes()], [G.number_of_edges()] *)
Definition number_of_nodes (G : Graph) : nat := length (nodes G).
Definition number_of_edges (G : Graph) : nat := size (adj G).

(** [G.nodes[c]['avg_likes']], read for nodes of the graph only. *)
Definition node_avg_likes (G : Graph) (c : Z) : spec_float :=
  from_option avg_likes Binary64.zero (dict_get c (nodes G)).

(** *** [nx.is_connected]

    networkx raises [NetworkXPointlessConcept] on the null graph; otherwise
    it counts the nodes reached from the first node and compares with the
    number of nodes. The search is modelled as rounds that add the
    neighbours of everything seen so far, one round per node at most. *)

Definition neighbors (G : Graph) (v : Z) : list Z :=
  filter (λ w, has_edge G v w = true) (node_list G).

Definition expand (G : Graph) (seen : gset Z) : gset Z :=
  seen ∪ list_to_set (flat_map (neighbors G) (elements seen)).

Fixpoint reach (G : Graph) (rounds : nat) (seen : gset Z) : gset Z :=
  match rounds with
  | O => seen
  | S r => reach G r (expand G seen)
  end.

Definition is_connected (G : Graph) : Result bool :=
  match node_list G with
  | [] => Raise NetworkXPointlessConcept
  | source :: _ =>
      Ok (bool_decide (size (reach G (number_of_nodes G) {[source]}) = number_of_nodes G))
  end.

(** ** Numbers without rounding

    The quotient and the similarity formula on exact rationals: what the
    program would compute if no operation rounded. The average degree of the
    statistics, which is a quotient of two small integers, is kept in this
    form. *)

(** [a / b] on integers, not rounded. *)
Definition true_div (a b : Z) : Qc := (Qc_of_Z a / Qc_of_Z b)%Qc.

(** [x > y] *)
Definition Qc_gtb (x y : Qc) : bool :=
  match (x ?= y)%Qc with Gt => true | _ => false end.

(** [abs(x)] *)
Definition Qc_abs (x : Qc) : Qc := if Qc_gtb 0%Qc x then (- x)%Qc else x.

(** [max(a, b, c)]: the first of the largest. *)
Definition max3 (a b c : Qc) : Qc :=
  let m := if Qc_gtb b a then b else a in
  if Qc_gtb c m then c else m.

(** The threshold and the similarity of line 195, not rounded. *)
Definition similarity_threshold : Qc := Q2Qc (7 # 10).

Definition similarity_of (avg1 avg2 : Qc) : Qc :=
  let max_avg := max3 avg1 avg2 1%Qc in
  (1 - Qc_abs (avg1 - avg2) / max_avg)%Qc.

(** [sum(l)] *)
Definition sum (l : list Z) : Z := fold_left Z.add l 0.

(** [len(l)] *)
Definition len {A} (l : list A) : Z := Z.of_nat (length l).

(** ** [build_graph] *)

(** [for i, c1 in enumerate(clusters): for c2 in clusters[i+1:]: G = body c1 c2 G] *)
Fixpoint for_pairs (body : Z → Z → Graph → Graph) (clusters : list Z) (G : Graph) : Graph :=
  match clusters with
  | [] => G
  | cluster1 :: rest =>
      for_pairs body rest (fold_left (λ G cluster2, body cluster1 cluster2 G) rest G)
  end.

Section BuildGraph.
Variable taxonomy : dict Z string.
Variable posts_by_cluster : gmap Z (list Z).
Variable cluster_stats : gmap Z Stats.

(** [posts_by_cluster[c]], [cluster_stats[c]] (both are [defaultdict]s). *)
Definition posts_of (c : Z) : list Z := default [] (posts_by_cluster !! c).
Definition stats_of (c : Z) : Stats := default empty_stats (cluster_stats !! c).

(** Lines 137-161: one round of the node loop. A division that raises
    ends the loop and [build_graph]. *)
Definition node_step (G : Graph) (entry : Z * string) : Result Graph :=
  let '(cluster_id, cluster_name) := entry in
  if bool_decide (is_Some (posts_by_cluster !! cluster_id)) then
    let posts := posts_of cluster_id in
    let stats := stats_of cluster_id in
    let total_likes := sum (stats_likes stats) in
    avg_likes ←
      match stats_likes stats with
      | [] => Ok Binary64.zero
      | _ => Binary64.true_div total_likes (len (stats_likes stats))
      end;
    let total_hashtags := sum (stats_hashtags stats) in
    avg_hashtags ←
      match stats_hashtags stats with
      | [] => Ok Binary64.zero
      | _ => Binary64.true_div total_hashtags (len (stats_hashtags stats))
      end;
    Ok (add_node cluster_id
          {| label := cluster_name; posts_count := len posts;
             total_likes := total_likes; avg_likes := avg_likes;
             total_hashtags := total_hashtags; avg_hashtags := avg_hashtags;
             posts := posts |} G)
  else Ok G.

Definition add_nodes : Result Graph :=
  fold_left (λ G entry, G ← G; node_step G entry) taxonomy (Ok empty_graph).

(** Lines 170-179: the body of the pair loop for shared posts. *)
Definition shared_step (cluster1 cluster2 : Z) (G : Graph) : Graph :=
  let posts1 : gset Z := list_to_set (posts_of cluster1) in
  let posts2 : gset Z := list_to_set (posts_of cluster2) in
  let shared := posts1 ∩ posts2 in
  if bool_decide (shared ≠ ∅) then
    add_edge cluster1 cluster2
      {| weight := Some (Qc_of_Z (Z.of_nat (size shared)));
         shared_posts := Some (elements shared);
         similarity := None; edge_type := None |} G
  else G.

(** Lines 189-201: the body of the pair loop of the repair pass. *)
Definition similarity_step (cluster1 cluster2 : Z) (G : Graph) : Graph :=
  if negb (has_edge G cluster1 cluster2) then
    let avg1 := node_avg_likes G cluster1 in
    let avg2 := node_avg_likes G cluster2 in
    let similarity_ := Binary64.similarity avg1 avg2 in
    if Binary64.gtb similarity_ Binary64.threshold then
      add_edge cluster1 cluster2
        {| weight := Some (Q2Qc (1 # 2)); shared_posts := None;
           similarity := Some similarity_; edge_type := Some "similarity" |} G
    else G
  else G.

(** Lines 187-201; [clusters] is the node list taken at line 166. *)
Definition similarity_pass (clusters : list Z) (G : Graph) : Graph :=
  for_pairs similarity_step clusters G.

(** Line 182: [not nx.is_connected(G) and len(G.nodes()) > 1]; the left
    operand is evaluated first. *)
Definition needs_repair (G : Graph) : Result bool :=
  match is_connected G with
  | Raise e => Raise e
  | Ok connected => Ok (negb connected && (1 <? len (node_list G)))
  end.

(** Lines 166-205, from the graph of the node loop on. *)
Definition link_nodes (G : Graph) : Result Graph :=
  let clusters := node_list G in
  let G := for_pairs shared_step clusters G in
  match needs_repair G with
  | Raise e => Raise e
  | Ok repair =>
      let G := if repair then similarity_pass clusters G else G in
      (* line 204 prints nx.is_connected(G) again *)
      match is_connected G with
      | Raise e => Raise e
      | Ok _ => Ok G
      end
  end.

Definition build_graph : Result Graph :=
  G ← add_nodes; link_nodes G.

End BuildGraph.

(** [main], lines 191-197: the graph of a file. *)
Definition analyse (rows : list Row) : Result Graph :=
  let st := create_network_graph rows in
  build_graph (taxonomy st) (posts_by_cluster st) (cluster_stats st).

(** ** Formatting *)

(** [str(n)] and [f"{n}"] for an integer. *)
Definition py_str (n : Z) : string := NilZero.string_of_int (Z.to_int n).

(** [s[:n]] *)
Fixpoint str_take (n : nat) (s : string) : string :=
  match n, s with
  | S n', String c s' => String c (str_take n' s')
  | _, _ => EmptyString
  end.

(** ['%02x' % k]: lower-case hexadecimal digits, filled with zeros to two
    characters; a negative number gets a minus sign, which counts for the
    width. *)
Definition hex_digit (d : Z) : ascii :=
  match d with
  | 10 => "a" | 11 => "b" | 12 => "c" | 13 => "d" | 14 => "e" | 15 => "f"
  | _ => ascii_of_nat (48 + Z.to_nat d)
  end%char.

Fixpoint hex_digits (fuel : nat) (n : Z) (acc : string) : string :=
  match fuel with
  | O => acc
  | S fuel' =>
      let acc := String (hex_digit (n mod 16)) acc in
      if n / 16 =? 0 then acc else hex_digits fuel' (n / 16) acc
  end.

Definition format_02x (k : Z) : string :=
  let digits := hex_digits (S (Z.to_nat (Z.log2 (Z.abs k)))) (Z.abs k) "" in
  if k <? 0 then String "-" digits
  else if (String.length digits <? 2)%nat then String "0" digits else digits.

(** ** [generate_colors]

    The hue is a double; [colorsys.hsv_to_rgb] is the function of CPython's
    standard library, evaluated in binary64. [None] stands for an exception
    ([int] of an infinity or of a NaN). The conversions of integers to doubles
    are exact for integers below 2^53. *)

Module Colors.

Definition mul : spec_float → spec_float → spec_float := Binary64.mul.

(** A decimal literal [n/d], rounded to the nearest double. *)
Definition literal (n d : Z) : spec_float := Binary64.div (Binary64.of_int n) (Binary64.of_int d).

(** [int(x)] for a double: truncation towards zero. *)
Definition trunc (x : spec_float) : option Z :=
  match x with
  | S754_zero _ => Some 0
  | S754_finite sign m e =>
      let magnitude := if 0 <=? e then Z.pos m * 2 ^ e else Z.pos m / 2 ^ (- e) in
      Some (if sign then - magnitude else magnitude)
  | S754_infinity _ | S754_nan => None
  end.

Definition hsv_to_rgb (h s v : spec_float) : option (spec_float * spec_float * spec_float) :=
  let one := Binary64.of_int 1 in
  let six := Binary64.of_int 6 in
  if SFeqb s (Binary64.of_int 0) then Some (v, v, v)
  else
    i ← trunc (mul h six);
    let f := Binary64.sub (mul h six) (Binary64.of_int i) in
    let p := mul v (Binary64.sub one s) in
    let q := mul v (Binary64.sub one (mul s f)) in
    let t := mul v (Binary64.sub one (mul s (Binary64.sub one f))) in
    match i mod 6 with
    | 0 => Some (v, t, p)
    | 1 => Some (q, v, p)
    | 2 => Some (p, v, t)
    | 3 => Some (p, q, v)
    | 4 => Some (t, p, v)
    | 5 => Some (v, p, q)
    | _ => None
    end.

(** The body of the loop of [generate_colors]. *)
Definition color (n i : nat) : option string :=
  let hue := Binary64.div (Binary64.of_int (Z.of_nat i)) (Binary64.of_int (Z.of_nat n)) in
  '(r, g, b) ← hsv_to_rgb hue (literal 7 10) (literal 9 10);
  let scale := Binary64.of_int 255 in
  r ← trunc (mul r scale);
  g ← trunc (mul g scale);
  b ← trunc (mul b scale);
  Some (String "#" (format_02x r +:+ format_02x g +:+ format_02x b)).

Definition generate_colors (n : nat) : option (list string) :=
  mapM (color n) (seq 0 n).

End Colors.

(** ** [create_pyvis_network]

    What the function hands to pyvis: for every node its id, label, size and
    colour, for every edge its width and colour; then [net.show]. The hover
    titles, which are texts made of the same attributes and cannot raise, and
    the physics options are not modelled. What [net.show(output_file)] does
    depends on the installed pyvis (no version is pinned; pyvis 0.3.2 raises
    [AttributeError] outside a notebook): it is an input of the model, [None]
    when the call returns and the exception when it raises. *)

(** [min(a, b)] and [max(a, b)] on exact numbers (the widths of the edges:
    integers, [0.5] and their doubles and halves, which no operation
    rounds). *)
Definition min2 (a b : Qc) : Qc := if Qc_gtb a b then b else a.
Definition max2 (a b : Qc) : Qc := if Qc_gtb b a then b else a.

Record PyvisNode := {
  pv_id : Z;
  pv_label : string;
  pv_size : spec_float;
  pv_color : string
}.

Record PyvisEdge := {
  pv_width : Qc;
  pv_edge_color : string
}.

Record PyvisNetwork := {
  pv_nodes : list PyvisNode;
  pv_edges : gmap (Z * Z) PyvisEdge
}.

(** The rounds of a loop that collects a value per element, until one of
    them raises. *)
Fixpoint for_each {A B} (f : A → Result B) (l : list A) : Result (list B) :=
  match l with
  | [] => Ok []
  | x :: l => y ← f x; ys ← for_each f l; Ok (y :: ys)
  end.

(** Lines 237-253, for the node at position [i]. *)
Definition pyvis_node (colors : list string) (i : nat) (node : Z * NodeAttr)
  : Result PyvisNode :=
  let '(node_id, node_data) := node in
  quotient ← Binary64.true_div (total_likes node_data) 100;
  let size :=
    Binary64.max2 (Binary64.of_int 10) (Binary64.min2 (Binary64.of_int 50) quotient) in
  match colors !! (i `mod` length colors)%nat with
  | None => Raise IndexError
  | Some color =>
      Ok {| pv_id := node_id;
            pv_label := py_str node_id +:+ ": " +:+ str_take 20 (label node_data) +:+ "...";
            pv_size := size;
            pv_color := color |}
  end.

(** Lines 257-283, for one edge; [edge_data['weight']] fails without a
    weight. *)
Definition pyvis_edge (edge_data : EdgeAttr) : option PyvisEdge :=
  weight_ ← weight edge_data;
  let width := max2 1%Qc (min2 (Qc_of_Z 10) (weight_ * Qc_of_Z 2)%Qc) in
  Some
    match shared_posts edge_data, similarity edge_data with
    | Some _, _ => {| pv_width := width; pv_edge_color := "darkblue" |}
    | None, Some _ =>
        {| pv_width := max2 1%Qc (width * Q2Qc (1 # 2))%Qc; pv_edge_color := "lightgray" |}
    | None, None => {| pv_width := width; pv_edge_color := "gray" |}
    end.

(** The edge loop: every edge is drawn, or the first one without a weight
    raises. *)
Definition pyvis_edges (G : Graph) : option (gmap (Z * Z) PyvisEdge) :=
  if bool_decide (map_Forall (λ _ e, is_Some (weight e)) (adj G))
  then Some (omap pyvis_edge (adj G))
  else None.

(** [generate_colors] raises when [int] is given an infinity or a NaN; the
    model names that exception [OverflowError] in both cases. *)
Definition create_pyvis_network (show : option exn) (G : Graph) : Result PyvisNetwork :=
  colors ←
    match Colors.generate_colors (number_of_nodes G) with
    | Some colors => Ok colors
    | None => Raise OverflowError
    end;
  drawn_nodes ← for_each (λ '(i, node), pyvis_node colors i node) (imap pair (nodes G));
  drawn_edges ←
    match pyvis_edges G with
    | Some drawn => Ok drawn
    | None => Raise KeyError
    end;
  match show with
  | Some e => Raise e                                  (* line 286 *)
  | None => Ok {| pv_nodes := drawn_nodes; pv_edges := drawn_edges |}
  end.

(** ** [create_matplotlib_visualization]

    What the function computes for the drawing calls: the size and the
    colour-map argument of every node, the width and colour of every edge, the
    labels and the legend. The positions of lines 305-327 are arithmetic on
    doubles between -1 and 1 and are not modelled. The calls of matplotlib
    and networkx are inputs of the model, [None] when they return and the
    exception when they raise: [plt.figure] at line 295, and the drawing
    calls from line 355 on as one. *)

Record StaticPlot := {
  sp_node_sizes : list spec_float;
  sp_node_colors : list spec_float;     (* the arguments of [plt.cm.Blues] *)
  sp_edges : gmap (Z * Z) (Qc * string);
  sp_labels : list (Z * string);
  sp_legend : list string
}.

Inductive Drawing :=
| NoNodesToDisplay                 (* line 302, then [return] *)
| Drawn (plot : StaticPlot).

(** Lines 333-338, for one node: its size, then its colour. *)
Definition static_node (node_data : NodeAttr) : Result (spec_float * spec_float) :=
  quotient ← Binary64.true_div (total_likes node_data) 5;
  let size :=
    Binary64.max2 (Binary64.of_int 300) (Binary64.min2 (Binary64.of_int 2000) quotient) in
  let post_count := posts_count node_data in
  share ← Binary64.true_div post_count 20;
  let intensity := Binary64.min2 (Binary64.of_int 1) share in
  Ok (size,
      Binary64.add (Colors.literal 3 10) (Binary64.mul (Colors.literal 7 10) intensity)).

(** Lines 344-352 *)
Definition static_edge (edge_data : EdgeAttr) : option (Qc * string) :=
  weight_ ← weight edge_data;
  let width := max2 1%Qc (min2 (Qc_of_Z 8) (weight_ * Qc_of_Z 2)%Qc) in
  Some (width,
        match shared_posts edge_data with
        | Some _ => "darkblue"
        | None => "lightgray"
        end).

(** Line 365 *)
Definition static_label (node : Z * NodeAttr) : Z * string :=
  let '(node_id, node_data) := node in
  (node_id,
   py_str node_id +:+ String newline (str_take 12 (label node_data)) +:+ "..."
   +:+ String newline ("(" +:+ py_str (posts_count node_data) +:+ " posts)")).

(** Line 378 *)
Definition legend_line (node_id : Z) (node_data : NodeAttr) : string :=
  "Cluster " +:+ py_str node_id +:+ ": " +:+ label node_data +:+ " ("
  +:+ py_str (posts_count node_data) +:+ " posts, "
  +:+ py_str (total_likes node_data) +:+ " likes)".

(** [sorted(G.nodes())] *)
Definition sorted_nodes (G : Graph) : list Z := merge_sort Z.le (node_list G).

Definition create_matplotlib_visualization (figure draw : option exn) (G : Graph)
  : Result Drawing :=
  match figure with
  | Some e => Raise e                                              (* line 295 *)
  | None =>
      if (number_of_nodes G =? 0)%nat then Ok NoNodesToDisplay
      else
        drawn_nodes ← for_each (λ node : Z * NodeAttr, static_node node.2) (nodes G);
        if bool_decide (map_Forall (λ _ e, is_Some (weight e)) (adj G))
        then
          match draw with
          | Some e => Raise e                                      (* lines 355-383 *)
          | None =>
              Ok (Drawn
                {| sp_node_sizes := drawn_nodes.*1;
                   sp_node_colors := drawn_nodes.*2;
                   sp_edges := omap static_edge (adj G);
                   sp_labels := static_label <$> nodes G;
                   sp_legend :=
                     omap (λ node_id, legend_line node_id <$> dict_get node_id (nodes G))
                       (sorted_nodes G) |})
          end
        else Raise KeyError
  end.

(** ** [print_graph_statistics]: the numbers it prints *)

Record Statistics := {
  st_nodes : nat;
  st_edges : nat;
  st_connected : bool;
  st_average_degree : option Qc;
  st_details : list (Z * string * Z * Z * spec_float)
    (* node, label, posts, total likes, average likes *)
}.

(** The degree of a node: its neighbours, a loop counting twice. *)
Definition degree (G : Graph) (v : Z) : Z :=
  len (neighbors G v) + (if has_edge G v v then 1 else 0).

Definition print_graph_statistics (G : Graph) : Result Statistics :=
  match is_connected G with          (* line 396 *)
  | Raise e => Raise e
  | Ok connected_ =>
      Ok {| st_nodes := number_of_nodes G;
            st_edges := number_of_edges G;
            st_connected := connected_;
            st_average_degree :=
              if (0 <? number_of_nodes G)%nat
              then Some (true_div (sum (degree G <$> node_list G))
                                  (Z.of_nat (number_of_nodes G)))
              else None;
            st_details :=
              omap (λ node_id,
                      (λ d, (node_id, label d, posts_count d, total_likes d, avg_likes d))
                        <$> dict_get node_id (nodes G))
                (sorted_nodes G) |}
  end.

(** ** [main], from the rows of the file on

    The three library calls whose outcome is an input. *)

Record Libraries := {
  net_show : option exn;       (* [net.show(output_file)], line 286 *)
  plt_figure : option exn;     (* [plt.figure(...)], line 295 *)
  plt_draw : option exn        (* the drawing calls, lines 355-383 *)
}.

Inductive Outcome :=
| Uncaught (e : exn)          (* an exception leaves [main] *)
| NoValidClusters             (* the warning of line 429, then [return] *)
| Complete (stats : Statistics) (net : PyvisNetwork) (plot : Drawing).

Definition main (libraries : Libraries) (rows : list Row) : Outcome :=
  match analyse rows with
  | Raise e => Uncaught e
  | Ok G =>
      if (number_of_nodes G =? 0)%nat then NoValidClusters
      else
        match print_graph_statistics G with
        | Raise e => Uncaught e
        | Ok stats =>
            match create_pyvis_network (net_show libraries) G with
            | Raise e => Uncaught e
            | Ok net =>
                match
                  create_matplotlib_visualization (plt_figure libraries)
                    (plt_draw libraries) G
                with
                | Raise e => Uncaught e
                | Ok plot => Complete stats net plot
                end
            end
        end
  end.

(** * [instadata.py]: collecting the posts of a hashtag

    What the function reads from outside is an input of the model: the
    environment variable, whether the session file loads, the posts that
    Instagram returns for the hashtag, and the clock. Times are in
    microseconds, the resolution of [datetime]. What it does outside is a
    value of the result: the pictures it downloads and the CSV file it writes
    (its header and rows, before CSV quoting). The lines it prints and the
    failures of the network are not modelled. *)

Module Instadata.

Definition NUM_POSTS : Z := 7.
Definition MAX_DAYS : Z := 5.

Record IgPost := {
  ig_caption : option string;      (* [post.caption], [None] without a caption *)
  ig_date : Z;                     (* [post.date] *)
  ig_shortcode : string;
  ig_url : string
}.

Record World := {
  env_username : option string;            (* [os.getenv("IG_USERNAME")] *)
  session_file : bool;                     (* [load_session_from_file] finds the file *)
  hashtag_posts : option (list IgPost);    (* [None]: [QueryReturnedNotFoundException] *)
  now : Z                                  (* [datetime.datetime.now()] *)
}.

Inductive error :=
| ValueError       (* line 17 *)
| RuntimeError.    (* line 24 *)

(** A row of [data]: post number, caption, url. *)
Definition Entry : Type := Z * string * string.

Record Effects := {
  downloaded : list (string * string);            (* [download_pic]: image name, url *)
  csv : option (list string * list Entry)         (* the file written: header, rows *)
}.

(** [not username] *)
Definition falsy (username : option string) : bool :=
  match username with
  | None => true
  | Some name => bool_decide (name = "")
  end.

(** [timedelta.days]: whole days, rounded down. *)
Definition days (delta : Z) : Z := delta `div` 86400000000.

(** The loop of lines 45-61, from the state [total_num_posts], [data] and
    the pictures downloaded so far. *)
Fixpoint collect (query : string) (num_posts max_days current_date : Z)
    (posts : list IgPost) (total_num_posts : Z) (data : list Entry)
    (pictures : list (string * string)) : list Entry * list (string * string) :=
  match posts with
  | [] => (data, pictures)
  | post :: posts =>
      match ig_caption post with
      | None =>                                                      (* continue *)
          collect query num_posts max_days current_date posts total_num_posts data pictures
      | Some caption =>
          if days (current_date - ig_date post) >? max_days
          then (data, pictures)                                      (* break *)
          else
            let total_num_posts := total_num_posts + 1 in
            let url := "instagram.com/p/" +:+ ig_shortcode post in
            let image_name := query +:+ "_" +:+ py_str total_num_posts +:+ ".jpg" in
            let pictures := pictures ++ [(image_name, ig_url post)] in
            let data := data ++ [(total_num_posts, caption, url)] in
            if total_num_posts >=? num_posts
            then (data, pictures)                                    (* break *)
            else collect query num_posts max_days current_date posts total_num_posts
                   data pictures
      end
  end.

Definition header : list string := ["post number"; "caption"; "url"].

Definition get_hashtags_posts (world : World) (query : string) (num_posts max_days : Z)
  : error + list Entry * Effects :=
  if falsy (env_username world) then inl ValueError
  else if negb (session_file world) then inl RuntimeError
  else
    match hashtag_posts world with
    | None => inr ([], {| downloaded := []; csv := None |})          (* line 34 *)
    | Some posts =>
        let '(data, pictures) :=
          collect query num_posts max_days (now world) posts 0 [] [] in
        inr (data, {| downloaded := pictures; csv := Some (header, data) |})
    end.

End Instadata.

(** * Vocabulary of the properties *)

(** What one line of the taxonomy text contributes: a line that, trimmed,
    is longer than 4 characters and starts with a digit gives the pair of
    that digit and the trimmed rest of the line from its fifth character on. *)
Definition entry_of (raw : string) : option (Z * string) :=
  let line := PyStr.strip raw in
  match line with
  | String c _ =>
      if 4 <? Z.of_nat (String.length line)
      then (λ number, (number, PyStr.strip (PyStr.drop 4 line))) <$> PyStr.digit c
      else None
  | EmptyString => None
  end.

(** The lines [create_taxonomy] warns about: longer than 4 characters once
    trimmed, with a first character that is not a digit. *)
Definition warned (raw : string) : bool :=
  let line := PyStr.strip raw in
  match line with
  | String c _ =>
      (4 <? Z.of_nat (String.length line)) && bool_decide (PyStr.digit c = None)
  | EmptyString => false
  end.

(** The three integer fields of a row, when all of them parse. *)
Definition row_numbers (row : Row) : option (Z * Z * Z) :=
  post_num ← PyStr.int (row_post_number row);
  likes ← PyStr.int (row_likes row);
  hashtags_count ← PyStr.int (row_number_of_hashtags row);
  Some (post_num, likes, hashtags_count).

(** The category list a row resolves to; [None] when the field has no
    comma and is not an integer. *)
Definition row_clusters (row : Row) : option (list Z) :=
  let cluster_str := PyStr.strip (row_types_of_patterns row) in
  if PyStr.contains "," cluster_str
  then Some (omap (λ part, PyStr.int (PyStr.strip part)) (PyStr.split "," cluster_str))
  else (λ c, [c]) <$> PyStr.int cluster_str.

(** The first integer field of a row that [int] rejects, in the order of
    lines 61-64. *)
Definition rejected_field (row : Row) : string :=
  match PyStr.int (row_post_number row), PyStr.int (row_likes row) with
  | None, _ => row_post_number row
  | Some _, None => row_likes row
  | Some _, Some _ => row_number_of_hashtags row
  end.

(** The record stored in [post_data] for a row whose integer fields parse. *)
Definition stored_post (row : Row) : option (Z * Post) :=
  '(post_num, likes, hashtags_count) ← row_numbers row;
  Some (post_num,
        {| post_caption := row_caption row; post_url := row_url row;
           post_likes := likes; post_hashtags := hashtags_count;
           post_clusters := default [] (row_clusters row) |}).

(** What a row appends to the accumulator of category [c]: nothing unless
    the row parses, else the value [f] picks from its integer fields, once
    for each occurrence of [c] in its category list. *)
Definition appended (f : Z * Z * Z → Z) (c : Z) (row : Row) : list Z :=
  match row_numbers row, row_clusters row with
  | Some numbers, Some clusters => replicate (length (filter (λ x, x = c) clusters)) (f numbers)
  | _, _ => []
  end.

Definition the_post : Z * Z * Z → Z := λ '(post_num, _, _), post_num.
Definition the_likes : Z * Z * Z → Z := λ '(_, likes, _), likes.
Definition the_hashtags : Z * Z * Z → Z := λ '(_, _, hashtags_count), hashtags_count.

(** A row on which the taxonomy is parsed: its integer fields parse and
    its post number is 1. *)
Definition parses_taxonomy (row : Row) : bool :=
  match row_numbers row with
  | Some (post_num, _, _) => post_num =? 1
  | None => false
  end.

(** The taxonomies printed by the loop, one for each call of
    [create_taxonomy]. *)
Definition taxonomy_events (events : list Event) : list (dict Z string) :=
  omap (λ e, match e with TaxonomyParsed t => Some t | _ => None end) events.

(** ** Vocabulary of the graph properties *)

(** [sum(values) / len(values) if values else 0] *)
Definition average (values : list Z) : Result spec_float :=
  match values with
  | [] => Ok Binary64.zero
  | _ => Binary64.true_div (sum values) (len values)
  end.

(** The average when it is a double; the value is not used otherwise. *)
Definition average_value (values : list Z) : spec_float :=
  match average values with
  | Ok quotient => quotient
  | Raise _ => Binary64.zero
  end.

(** The two averages of a category are doubles: the node loop passes the
    category. *)
Definition representable (cluster_stats : gmap Z Stats) (c : Z) : Prop :=
  (∃ x, average (stats_likes (stats_of cluster_stats c)) = Ok x)
  ∧ (∃ x, average (stats_hashtags (stats_of cluster_stats c)) = Ok x).

(** The attributes [build_graph] gives to the node of category [c]. *)
Definition node_attr (posts_by_cluster : gmap Z (list Z)) (cluster_stats : gmap Z Stats)
    (c : Z) (name : string) : NodeAttr :=
  let stats := stats_of cluster_stats c in
  {| label := name; posts_count := len (posts_of posts_by_cluster c);
     total_likes := sum (stats_likes stats);
     avg_likes := average_value (stats_likes stats);
     total_hashtags := sum (stats_hashtags stats);
     avg_hashtags := average_value (stats_hashtags stats);
     posts := posts_of posts_by_cluster c |}.

(** The node a taxonomy entry gives rise to, if its category has posts. *)
Definition taxonomy_node (posts_by_cluster : gmap Z (list Z)) (cluster_stats : gmap Z Stats)
    (entry : Z * string) : option (Z * NodeAttr) :=
  if bool_decide (is_Some (posts_by_cluster !! entry.1))
  then Some (entry.1, node_attr posts_by_cluster cluster_stats entry.1 entry.2)
  else None.

(** The graph after the node loop, when no division raises. *)
Definition node_graph (taxonomy : dict Z string) (posts_by_cluster : gmap Z (list Z))
    (cluster_stats : gmap Z Stats) : Graph :=
  {| nodes :=
       fold_left (λ d e, dict_set e.1 e.2 d)
         (omap (taxonomy_node posts_by_cluster cluster_stats) taxonomy) [];
     adj := ∅ |}.

(** The graph after line 179: nodes and shared-post edges; the null graph
    when the node loop raised. *)
Definition direct_graph (taxonomy : dict Z string) (posts_by_cluster : gmap Z (list Z))
    (cluster_stats : gmap Z Stats) : Graph :=
  match add_nodes taxonomy posts_by_cluster cluster_stats with
  | Ok G => for_pairs (shared_step posts_by_cluster) (node_list G) G
  | Raise _ => empty_graph
  end.

(** [u] comes before [v] in the list. *)
Definition before (l : list Z) (u v : Z) : Prop :=
  ∃ l1 l2, l = l1 ++ u :: l2 ∧ v ∈ l2.

(** Two nodes joined by an edge; a graph is connected when every node is
    reached from every other one along edges. *)
Definition edge_rel (G : Graph) (u v : Z) : Prop :=
  u ∈ node_list G ∧ v ∈ node_list G ∧ has_edge G u v = true.

Definition connected (G : Graph) : Prop :=
  ∀ u v, u ∈ node_list G → v ∈ node_list G → rtc (edge_rel G) u v.

(** The nodes as a set. *)
Definition node_set (G : Graph) : gset Z := list_to_set (node_list G).

(** The two kinds of edges. *)
Definition shared_edge (e : EdgeAttr) : Prop :=
  is_Some (shared_posts e) ∧ similarity e = None ∧ edge_type e = None.

Definition similarity_edge (e : EdgeAttr) : Prop :=
  shared_posts e = None ∧ is_Some (similarity e) ∧ edge_type e = Some "similarity".

(** The posts two categories share. *)
Definition shared_of (posts_by_cluster : gmap Z (list Z)) (c1 c2 : Z) : gset Z :=
  list_to_set (posts_of posts_by_cluster c1) ∩ list_to_set (posts_of posts_by_cluster c2).

(** The attributes of the edge for shared posts, and of a similarity edge. *)
Definition shared_attr (shared : gset Z) : EdgeAttr :=
  {| weight := Some (Qc_of_Z (Z.of_nat (size shared)));
     shared_posts := Some (elements shared);
     similarity := None; edge_type := None |}.

Definition similarity_attr (score : spec_float) : EdgeAttr :=
  {| weight := Some (Q2Qc (1 # 2)); shared_posts := None;
     similarity := Some score; edge_type := Some "similarity" |}.

(** [avg_likes] of a node, read from a node table. *)
Definition avg_of (table : dict Z NodeAttr) (c : Z) : spec_float :=
  from_option avg_likes Binary64.zero (dict_get c table).

(** What the two loop bodies store for their pair, given what was there. *)
Definition shared_upd (posts_by_cluster : gmap Z (list Z)) (table : dict Z NodeAttr)
    (c1 c2 : Z) (old : option EdgeAttr) : option EdgeAttr :=
  let shared := shared_of posts_by_cluster c1 c2 in
  if bool_decide (shared ≠ ∅)
  then Some (attr_update (default no_attr old) (shared_attr shared))
  else old.

Definition similarity_upd (table : dict Z NodeAttr) (c1 c2 : Z) (old : option EdgeAttr)
  : option EdgeAttr :=
  match old with
  | Some e => Some e
  | None =>
      let score := Binary64.similarity (avg_of table c1) (avg_of table c2) in
      if Binary64.gtb score Binary64.threshold then Some (similarity_attr score) else None
  end.

(** Two edges with the same attributes, the shared posts listed in any
    order. *)
Definition same_edge (e1 e2 : EdgeAttr) : Prop :=
  weight e1 = weight e2 ∧ similarity e1 = similarity e2 ∧ edge_type e1 = edge_type e2
  ∧ option_Forall2 Permutation (shared_posts e1) (shared_posts e2).

(** ** Vocabulary of the further properties *)

(** The four containers [create_network_graph] returns. *)
Definition Containers : Type :=
  dict Z string * gmap Z (list Z) * gmap Z Stats * gmap Z Post.

Definition containers (st : Ingest) : Containers :=
  (taxonomy st, posts_by_cluster st, cluster_stats st, post_data st).

(** What a row does to the four containers. *)
Definition store_row (cs : Containers) (row : Row) : Containers :=
  let '(tax, pbc, stats, pd) := cs in
  match row_numbers row with
  | None => cs
  | Some (post_num, likes, hashtags_count) =>
      (if post_num =? 1 then create_taxonomy (row_taxonomy row) else tax,
       match row_clusters row with
       | Some clusters => append_all post_num clusters pbc
       | None => pbc
       end,
       match row_clusters row with
       | Some clusters => append_stats post_num likes hashtags_count clusters stats
       | None => stats
       end,
       <[post_num := {| post_caption := row_caption row; post_url := row_url row;
                        post_likes := likes; post_hashtags := hashtags_count;
                        post_clusters := default [] (row_clusters row) |}]> pd)
  end.

(** A complete row as the reader gives it, and complete containers among
    the others. *)
Definition raw_of (row : Row) : RawRow :=
  {| cell_post_number := Text (row_post_number row);
     cell_caption := Text (row_caption row);
     cell_url := Text (row_url row);
     cell_likes := Text (row_likes row);
     cell_number_of_hashtags := Text (row_number_of_hashtags row);
     cell_types_of_patterns := Text (row_types_of_patterns row);
     cell_taxonomy := Text (row_taxonomy row) |}.

Definition raw_post (p : Post) : RawPost :=
  {| raw_caption := Some (post_caption p); raw_url := Some (post_url p);
     raw_likes := post_likes p; raw_hashtags := post_hashtags p;
     raw_clusters := post_clusters p |}.

Definition raw_containers (cs : Containers) : RawContainers :=
  let '(tax, pbc, stats, pd) := cs in (tax, pbc, stats, raw_post <$> pd).

(** The handler of line 107 takes the row at lines 61-64; the row is
    short there. *)
Definition handled (raw : RawRow) : bool :=
  match row_fields raw with
  | Handled => true
  | _ => false
  end.

Definition short (raw : RawRow) : bool :=
  match row_fields raw with
  | Fatal _ => true
  | _ => false
  end.

(** The accumulators of a category are in step: a post list that is not
    empty, the same list in the statistics, and one like count and one
    hashtag count for each of its entries. *)
Definition in_step (posts_by_cluster : gmap Z (list Z)) (cluster_stats : gmap Z Stats)
    (c : Z) : Prop :=
  match posts_by_cluster !! c, cluster_stats !! c with
  | Some l, Some stats =>
      l ≠ [] ∧ stats_posts stats = l
      ∧ length (stats_likes stats) = length l
      ∧ length (stats_hashtags stats) = length l
  | None, None => True
  | _, _ => False
  end.

(** The post records and the accumulators agree, over the containers. *)
Definition records_agree (cs : Containers) : Prop :=
  let '(_, pbc, _, pd) := cs in
  (∀ p r c, pd !! p = Some r → c ∈ post_clusters r → p ∈ default [] (pbc !! c))
  ∧ (∀ c p, p ∈ default [] (pbc !! c) → is_Some (pd !! p)).

(** A well-formed colour: ["#"] and six characters. *)
Definition hex_color (c : string) : Prop :=
  String.length c = 7%nat ∧ String.get 0 c = Some "#"%char.

(** The node the interactive visualization draws for a node of the graph,
    given its colour. *)
Definition drawn_node (node : Z * NodeAttr) (color : string) : PyvisNode :=
  {| pv_id := node.1;
     pv_label := py_str node.1 +:+ ": " +:+ str_take 20 (label node.2) +:+ "...";
     pv_size :=
       Binary64.max2 (Binary64.of_int 10)
         (Binary64.min2 (Binary64.of_int 50)
            (match Binary64.true_div (total_likes node.2) 100 with
             | Ok quotient => quotient
             | Raise _ => Binary64.zero
             end));
     pv_color := color |}.

(** The divisions of the two visualizations return for a node: that of
    line 237, and those of lines 333 and 337. *)
Definition fits_pyvis (n : NodeAttr) : Prop :=
  ∃ quotient, Binary64.true_div (total_likes n) 100 = Ok quotient.

Definition fits_static (n : NodeAttr) : Prop :=
  (∃ quotient, Binary64.true_div (total_likes n) 5 = Ok quotient)
  ∧ (∃ share, Binary64.true_div (posts_count n) 20 = Ok share).

(** [low <= x <= high] on doubles. *)
Definition between (low high : Z) (x : spec_float) : Prop :=
  Binary64.leb (Binary64.of_int low) x = true ∧ Binary64.leb x (Binary64.of_int high) = true.

(** ** Sample inputs *)

Definition sample_row (post_number types_of_patterns likes hashtags taxonomy_text : string)
  : Row :=
  {| row_post_number := post_number; row_caption := "caption " +:+ post_number;
     row_url := "https://example.org/p/" +:+ post_number; row_likes := likes;
     row_number_of_hashtags := hashtags; row_types_of_patterns := types_of_patterns;
     row_taxonomy := taxonomy_text |}.

(** A row whose single category value is not an integer. *)
Definition malformed_single : Row := sample_row "5" "x" "10" "2" "".

(** Two rows with post number 1 and different taxonomy texts. *)
Definition two_first_posts : list Row :=
  [sample_row "1" "1" "10" "2" "1. - Tops"; sample_row "1" "1" "30" "4" "1. - Skirts"].

(** The scenario of the specification: post 1 in categories 1 and 2, post 2
    in category 2, post 3 in category 3. *)
Definition scenario_taxonomy : string :=
  "1. - A" +:+ String newline ("2. - B" +:+ String newline "3. - C").

Definition scenario_rows : list Row :=
  [sample_row "1" "1,2" "100" "5" scenario_taxonomy;
   sample_row "2" "2" "50" "3" "";
   sample_row "3" "3" "10" "1" ""].

Definition scenario_state : Ingest := create_network_graph scenario_rows.

Definition scenario_node (c : Z) (name : string) : NodeAttr :=
  node_attr (posts_by_cluster scenario_state) (cluster_stats scenario_state) c name.

(** Two categories without a common post and with average likes 100
    and 90. *)
Definition similar_rows : list Row :=
  [sample_row "1" "1" "100" "5" scenario_taxonomy; sample_row "2" "2" "90" "3" ""].

Definition similar_state : Ingest := create_network_graph similar_rows.

(** A post with 10^400 likes in category 1. *)
Definition overflow_rows : list Row :=
  [sample_row "1" "1" (py_str (10 ^ 400)) "0" scenario_taxonomy].

(** A post whose category field is no number: a taxonomy and no category
    with posts. *)
Definition no_category_rows : list Row :=
  [sample_row "1" "none" "10" "2" scenario_taxonomy].

(** Likes 25, 26, 26 in category 1 and 36, 37, 37 in category 2: averages
    77/3 and 110/3, whose similarity without rounding is exactly 7/10. *)
Definition boundary_rows : list Row :=
  [sample_row "1" "1" "25" "1" scenario_taxonomy;
   sample_row "2" "1" "26" "1" "";
   sample_row "3" "1" "26" "1" "";
   sample_row "4" "2" "36" "1" "";
   sample_row "5" "2" "37" "1" "";
   sample_row "6" "2" "37" "1" ""].

(** Post 7 on two rows of category 2, the first of which lists the
    category twice. *)
Definition doubled_rows : list Row :=
  [sample_row "1" "1" "10" "1" scenario_taxonomy;
   sample_row "7" "2,2" "20" "2" "";
   sample_row "7" "2" "30" "3" ""].

(** A file in which post 7 appears on two rows, both in category 2. *)
Definition repeated_rows : list Row :=
  [sample_row "1" "2" "10" "1" scenario_taxonomy;
   sample_row "7" "2" "20" "2" "";
   sample_row "7" "2" "30" "3" ""].

(** Post 7 on two rows, in category 2 and then in category 3. *)
Definition moved_rows : list Row :=
  [sample_row "1" "1" "10" "1" scenario_taxonomy;
   sample_row "7" "2" "20" "2" "";
   sample_row "7" "3" "30" "3" ""].

(** A file whose third row has a post number that is not an integer. *)
Definition unnumbered_rows : list Row :=
  [sample_row "1" "1" "10" "1" scenario_taxonomy; sample_row "8" "2" "20" "2" ""].

Definition unnumbered_row : Row := sample_row "nine" "2" "20" "2" "".

(** The taxonomy of the scenario as a dictionary, and with its entries in
    the opposite order. *)
Definition scenario_dict : dict Z string := [(1, "A"); (2, "B"); (3, "C")].
Definition scenario_dict_reversed : dict Z string := [(3, "C"); (2, "B"); (1, "A")].

(** The graph of a file after the loop for shared posts. *)
Definition direct_graph_of (rows : list Row) : Graph :=
  let st := create_network_graph rows in
  direct_graph (taxonomy st) (posts_by_cluster st) (cluster_stats st).

(** The graph of a file, or the null graph when [build_graph] raises. *)
Definition graph_of (rows : list Row) : Graph :=
  match analyse rows with
  | Ok G => G
  | Raise _ => empty_graph
  end.

(** ** Vocabulary for the degrees *)

(** The ends at [v] of the edges with a key in [keys], among the nodes [l];
    and the ends at all the nodes. *)
Definition ends (l : list Z) (keys : gset (Z * Z)) (v : Z) : nat :=
  length (filter (λ w, edge_key v w ∈ keys) l).

Definition end_count (l : list Z) (keys : gset (Z * Z)) : nat :=
  sum_list_with (ends l keys) l.

(** A graph whose edges join two different nodes. *)
Definition simple (G : Graph) : Prop :=
  NoDup (node_list G)
  ∧ ∀ k, is_Some (adj G !! k) →
      ∃ a b, a ∈ node_list G ∧ b ∈ node_list G ∧ a ≠ b ∧ k = edge_key a b.

(** ** Vocabulary for the collector *)

(** The longest prefix of a list whose elements all pass a test. *)
Fixpoint take_while {A} (keep : A → bool) (l : list A) : list A :=
  match l with
  | [] => []
  | x :: l => if keep x then x :: take_while keep l else []
  end.

(** A post that is at most [max_days] whole days old. *)
Definition recent (current_date max_days : Z) (post : Instadata.IgPost) : bool :=
  bool_decide (Instadata.days (current_date - Instadata.ig_date post) ≤ max_days).

(** The posts the collector keeps: of the posts with a caption, those before
    the first that is too old, and of these at most [num_posts], but one in
    any case. *)
Definition selected (current_date num_posts max_days : Z) (posts : list Instadata.IgPost)
  : list Instadata.IgPost :=
  take (Z.to_nat (Z.max 1 num_posts))
    (take_while (recent current_date max_days)
       (filter (λ post, is_Some (Instadata.ig_caption post)) posts)).

(** The row and the picture of the post at position [i] of the kept posts,
    counting from [first + 1]. *)
Definition entry_at (first : Z) (i : nat) (post : Instadata.IgPost) : Instadata.Entry :=
  (first + Z.of_nat i + 1, default "" (Instadata.ig_caption post),
   "instagram.com/p/" +:+ Instadata.ig_shortcode post).

Definition picture_at (query : string) (first : Z) (i : nat) (post : Instadata.IgPost)
  : string * string :=
  (query +:+ "_" +:+ py_str (first + Z.of_nat i + 1) +:+ ".jpg", Instadata.ig_url post).

(** A world in which the function gets as far as the posts. *)
Definition logged_in (posts : list Instadata.IgPost) (current_date : Z) : Instadata.World :=
  {| Instadata.env_username := Some "user"; Instadata.session_file := true;
     Instadata.hashtag_posts := Some posts; Instadata.now := current_date |}.

(** A post that is [age] whole days old on day 100. *)
Definition sample_post (caption : option string) (age : Z) (shortcode : string)
  : Instadata.IgPost :=
  {| Instadata.ig_caption := caption;
     Instadata.ig_date := (100 - age) * 86400000000;
     Instadata.ig_shortcode := shortcode;
     Instadata.ig_url := "https://cdn/" +:+ shortcode |}.

(** Four posts: with a caption, without one and old, with one, and too
    old. *)
Definition sample_posts : list Instadata.IgPost :=
  [sample_post (Some "first") 0 "a"; sample_post None 9 "b";
   sample_post (Some "second") 5 "c"; sample_post (Some "old") 6 "d";
   sample_post (Some "late") 1 "e"].

(** * Properties *)

(** ** Strings *)

Lemma int_one_char (c : ascii) : PyStr.int (String c "") = PyStr.digit c.
Proof.
  destruct c as [[] [] [] [] [] [] [] []]; reflexivity.
Qed.

(** ** Dictionaries *)

Section DictFacts.
Context {K V : Type} `{EqDecision K}.
Implicit Types (d : dict K V) (k : K) (v : V).

Lemma dict_get_set_eq d k v : dict_get k (dict_set k v d) = Some v.
Proof.
  induction d as [|[k' v'] d IH]; simpl.
  - by rewrite decide_True.
  - destruct (decide (k = k')) as [->|Hne]; simpl.
    + by rewrite decide_True.
    + by rewrite decide_False.
Qed.

Lemma dict_get_set_ne d k k' v : k ≠ k' → dict_get k' (dict_set k v d) = dict_get k' d.
Proof.
  intros Hne. induction d as [|[k0 v0] d IH]; simpl.
  - by rewrite decide_False.
  - destruct (decide (k = k0)) as [->|Hne0]; simpl.
    + by rewrite !decide_False.
    + by rewrite IH.
Qed.

Lemma dict_get_set d k k' v :
  dict_get k' (dict_set k v d) = if decide (k = k') then Some v else dict_get k' d.
Proof.
  destruct (decide (k = k')) as [->|Hne];
    [apply dict_get_set_eq | by apply dict_get_set_ne].
Qed.

Lemma dict_get_Some_keys d k : is_Some (dict_get k d) ↔ k ∈ dict_keys d.
Proof.
  induction d as [|[k' v'] d IH]; simpl.
  - split; [intros [? [=]] | intros ?%elem_of_nil; done].
  - rewrite elem_of_cons. destruct (decide (k = k')) as [->|Hne].
    + split; eauto.
    + rewrite IH. split; [by right | by intros [?|?]].
Qed.

Lemma dict_get_None_keys d k : dict_get k d = None ↔ k ∉ dict_keys d.
Proof. rewrite <-dict_get_Some_keys, eq_None_not_Some. done. Qed.

Lemma dict_keys_set d k v :
  dict_keys (dict_set k v d)
  = if decide (k ∈ dict_keys d) then dict_keys d else dict_keys d ++ [k].
Proof.
  unfold dict_keys. induction d as [|[k' v'] d IH].
  - rewrite decide_False; [done | apply not_elem_of_nil].
  - cbn [dict_set]. destruct (decide (k = k')) as [->|Hne]; cbn [map fst].
    + rewrite decide_True; [done | apply elem_of_cons; by left].
    + rewrite IH. destruct (decide (k ∈ map fst d)) as [Hin|Hnin].
      * rewrite decide_True; [done | apply elem_of_cons; by right].
      * rewrite decide_False; [done |].
        intros [?|?]%elem_of_cons; done.
Qed.

Lemma dict_keys_set_elem d k k' v :
  k' ∈ dict_keys (dict_set k v d) ↔ k' = k ∨ k' ∈ dict_keys d.
Proof.
  rewrite dict_keys_set. case_decide; [naive_solver |].
  rewrite elem_of_app, list_elem_of_singleton. naive_solver.
Qed.

Lemma dict_keys_set_NoDup d k v : NoDup (dict_keys d) → NoDup (dict_keys (dict_set k v d)).
Proof.
  intros Hnd. rewrite dict_keys_set. case_decide; [done |].
  apply NoDup_app. split_and!; [done | | apply NoDup_singleton].
  intros x Hx ->%list_elem_of_singleton. done.
Qed.

End DictFacts.

(** ** The taxonomy parser *)

Lemma taxonomy_line_entry (output : dict Z string) (printed : list Event) (raw : string) :
  taxonomy_line (output, printed) raw
  = (match entry_of raw with
     | Some (number, name) => dict_set number name output
     | None => output
     end,
     printed ++ (if warned raw then [WarnLine (PyStr.strip raw)] else [])).
Proof.
  unfold taxonomy_line, entry_of, warned.
  destruct (PyStr.strip raw) as [|c line] eqn:Hline; cbn [String.eqb negb andb].
  { by rewrite app_nil_r. }
  cbn [PyStr.first mbind option_bind].
  destruct (4 <? Z.of_nat (String.length (String c line))); cbn [andb].
  - rewrite int_one_char. destruct (PyStr.digit c) as [number|]; cbn [fmap option_fmap option_map].
    + rewrite bool_decide_eq_false_2 by done. by rewrite app_nil_r.
    + by rewrite bool_decide_eq_true_2.
  - by rewrite app_nil_r.
Qed.

Lemma fold_taxonomy_line (raws : list string) (output : dict Z string) (printed : list Event) :
  fold_left taxonomy_line raws (output, printed)
  = (fold_left (λ d e, dict_set e.1 e.2 d) (omap entry_of raws) output,
     printed ++ ((WarnLine ∘ PyStr.strip) <$> filter (λ raw, warned raw = true) raws)).
Proof.
  revert output printed. induction raws as [|raw raws IH]; intros output printed.
  { by rewrite app_nil_r. }
  cbn [fold_left omap list_omap]. rewrite taxonomy_line_entry, IH. f_equal.
  - destruct (entry_of raw) as [[number name]|]; done.
  - rewrite <-app_assoc. f_equal. rewrite filter_cons.
    destruct (warned raw); [by rewrite decide_True | by rewrite decide_False].
Qed.

Lemma fold_dict_set_get {V} (es : list (Z * V)) (d : dict Z V) (k : Z) :
  dict_get k (fold_left (λ d e, dict_set e.1 e.2 d) es d)
  = match last (filter (λ e, e.1 = k) es) with
    | Some e => Some e.2
    | None => dict_get k d
    end.
Proof.
  revert d. induction es as [|[k' v] es IH]; intros d; [done |].
  cbn [fold_left]. rewrite IH, filter_cons. cbn [fst snd].
  destruct (decide (k' = k)) as [->|Hne].
  - destruct (filter _ es) as [|e es'] eqn:Hes.
    + cbn. apply dict_get_set_eq.
    + rewrite last_cons_cons.
      destruct (last (e :: es')) eqn:Hlast; [done | by apply last_None in Hlast].
  - destruct (last (filter _ es)); [done | by apply dict_get_set_ne].
Qed.

Lemma fold_dict_set_keys {V} (es : list (Z * V)) (d : dict Z V) (k : Z) :
  k ∈ dict_keys (fold_left (λ d e, dict_set e.1 e.2 d) es d)
  ↔ k ∈ es.*1 ∨ k ∈ dict_keys d.
Proof.
  revert d. induction es as [|[k' v] es IH]; intros d; cbn [fold_left fmap list_fmap].
  - rewrite elem_of_nil. tauto.
  - rewrite IH, dict_keys_set_elem, elem_of_cons. cbn. tauto.
Qed.

Lemma fold_dict_set_NoDup {V} (es : list (Z * V)) (d : dict Z V) :
  NoDup (dict_keys d) → NoDup (dict_keys (fold_left (λ d e, dict_set e.1 e.2 d) es d)).
Proof.
  revert d. induction es as [|[k' v] es IH]; intros d Hd; [done |].
  cbn [fold_left]. by apply IH, dict_keys_set_NoDup.
Qed.

Lemma digit_range (c : ascii) (number : Z) : PyStr.digit c = Some number → 0 ≤ number ≤ 9.
Proof.
  unfold PyStr.digit. destruct (_ && _) eqn:Hc; [|done]. intros [= <-]. lia.
Qed.

Lemma entry_of_range (raw : string) (number : Z) (name : string) :
  entry_of raw = Some (number, name) → 0 ≤ number ≤ 9.
Proof.
  unfold entry_of. destruct (PyStr.strip raw) as [|c line]; [done |].
  destruct (4 <? _); [|done].
  destruct (PyStr.digit c) as [d|] eqn:Hd; [|done].
  intros [= <- _]. by eapply digit_range.
Qed.

(** On a line whose fifth character is white space, as in the pattern
    [". - "] after the digit, the name is the trimmed text behind that
    character. *)
Lemma entry_of_separator (raw : string) (c s1 s2 s3 s4 : ascii) (name : string) :
  PyStr.strip raw = String c (String s1 (String s2 (String s3 (String s4 name)))) →
  PyStr.isspace s4 = true →
  entry_of raw = (λ number, (number, PyStr.strip name)) <$> PyStr.digit c.
Proof.
  intros Hraw Hsp. unfold entry_of. rewrite Hraw.
  replace (4 <? Z.of_nat (String.length _)) with true.
  - cbn [PyStr.drop]. unfold PyStr.strip. cbn [PyStr.lstrip]. by rewrite Hsp.
  - symmetry. apply Z.ltb_lt. cbn [String.length]. lia.
Qed.

(** C3, as stated, fails: the name stored for a line is what follows its
    first FOUR characters (the digit and three more), trimmed, not what
    follows the digit and four separator characters; a line of four
    characters or fewer is dropped without any warning; and a later line with
    the same digit replaces the entry of an earlier one. *)
Lemma create_taxonomy_counterexample :
  taxonomy_lines "3::::Skirts" = ["3::::Skirts"]
  ∧ PyStr.strip "3::::Skirts" = "3" +:+ "::::" +:+ "Skirts"
  ∧ dict_get 3 (create_taxonomy "3::::Skirts") = Some ":Skirts"
  ∧ dict_get 3 (create_taxonomy "3::::Skirts") ≠ Some "Skirts"
  ∧ create_taxonomy_io "2. -" = ([], [])
  ∧ create_taxonomy ("1. - Tops" +:+ String newline "1. - Skirts") = [(1, "Skirts")].
Proof. by vm_compute. Qed.

(** C3 (amended): for every taxonomy text, with [entries] the contributions
    of its lines in order (a line that, trimmed, has more than 4 characters
    and starts with a decimal digit contributes that digit with the trimmed
    text from its fifth character on; every other line contributes nothing):
    the parser maps a number to the name of the LAST entry for that number,
    and to nothing when there is none; its keys are digits 0..9, each once;
    it warns exactly about the lines longer than 4 characters whose first
    character is no digit, in order (shorter lines are dropped silently); and
    on a line whose fifth character is white space the name is the trimmed
    text behind the digit and the four characters after it. *)
Theorem create_taxonomy_entries (taxonomy_str : string) :
  let entries := omap entry_of (taxonomy_lines taxonomy_str) in
  (∀ number : Z,
     dict_get number (create_taxonomy taxonomy_str)
     = snd <$> last (filter (λ e, e.1 = number) entries))
  ∧ (∀ number : Z, number ∈ dict_keys (create_taxonomy taxonomy_str) → 0 ≤ number ≤ 9)
  ∧ NoDup (dict_keys (create_taxonomy taxonomy_str))
  ∧ (create_taxonomy_io taxonomy_str).2
    = (WarnLine ∘ PyStr.strip) <$> filter (λ raw, warned raw = true) (taxonomy_lines taxonomy_str)
  ∧ (∀ raw c s1 s2 s3 s4 name,
       PyStr.strip raw = String c (String s1 (String s2 (String s3 (String s4 name)))) →
       PyStr.isspace s4 = true →
       entry_of raw = (λ number, (number, PyStr.strip name)) <$> PyStr.digit c).
Proof.
  unfold create_taxonomy, create_taxonomy_io. rewrite fold_taxonomy_line. cbn [fst snd].
  split_and!.
  - intros number. rewrite fold_dict_set_get.
    by destruct (last _).
  - intros number [Hin|Hin]%fold_dict_set_keys; [|by apply elem_of_nil in Hin].
    apply list_elem_of_fmap in Hin as [[k name] [-> Hin]].
    apply list_elem_of_omap in Hin as [raw [_ Hraw]].
    by eapply entry_of_range.
  - apply fold_dict_set_NoDup, NoDup_nil_2.
  - done.
  - apply entry_of_separator.
Qed.

(** ** The row loop *)

Lemma append_all_lookup {A} (x : A) (clusters : list Z) (m : gmap Z (list A)) (c : Z) :
  default [] (append_all x clusters m !! c)
  = default [] (m !! c) ++ replicate (length (filter (λ y, y = c) clusters)) x.
Proof.
  unfold append_all. revert m. induction clusters as [|c' cs IH]; intros m.
  { by rewrite app_nil_r. }
  cbn [fold_left]. rewrite IH, filter_cons. destruct (decide (c' = c)) as [->|Hne].
  - rewrite lookup_insert_eq. cbn [default from_option id length replicate].
    by rewrite <-app_assoc.
  - by rewrite lookup_insert_ne.
Qed.

Lemma append_all_is_Some {A} (x : A) (clusters : list Z) (m : gmap Z (list A)) (c : Z) :
  is_Some (append_all x clusters m !! c) ↔ c ∈ clusters ∨ is_Some (m !! c).
Proof.
  unfold append_all. revert m. induction clusters as [|c' cs IH]; intros m.
  { rewrite elem_of_nil. tauto. }
  cbn [fold_left]. rewrite IH, elem_of_cons, lookup_insert.
  destruct (decide (c' = c)) as [->|Hne]; [|naive_solver].
  split; [auto | intros _; right; eauto].
Qed.

Lemma append_all_nonempty {A} (x : A) (clusters : list Z) (m : gmap Z (list A)) :
  (∀ c l, m !! c = Some l → l ≠ []) →
  ∀ c l, append_all x clusters m !! c = Some l → l ≠ [].
Proof.
  unfold append_all. revert m. induction clusters as [|c' cs IH]; intros m Hm; [done |].
  cbn [fold_left]. apply IH. intros c l. rewrite lookup_insert.
  destruct (decide (c' = c)) as [->|Hne]; [|apply Hm].
  intros [= <-]. by destruct (default [] (m !! c)).
Qed.

Lemma taxonomy_events_app (l1 l2 : list Event) :
  taxonomy_events (l1 ++ l2) = taxonomy_events l1 ++ taxonomy_events l2.
Proof. apply omap_app. Qed.

Lemma parse_parts_clusters (post_num : Z) (parts : list string) :
  (parse_parts post_num parts).1 = omap (λ part, PyStr.int (PyStr.strip part)) parts.
Proof.
  induction parts as [|part parts IH]; [done |].
  cbn [parse_parts omap list_omap]. destruct (parse_parts post_num parts) as [cs ws].
  cbn [fst] in IH. subst cs. by destruct (PyStr.int (PyStr.strip part)).
Qed.

Lemma parse_parts_events (post_num : Z) (parts : list string) :
  taxonomy_events (parse_parts post_num parts).2 = [].
Proof.
  induction parts as [|part parts IH]; [done |].
  cbn [parse_parts]. destruct (parse_parts post_num parts) as [cs ws].
  by destruct (PyStr.int (PyStr.strip part)).
Qed.

Lemma create_taxonomy_io_events (taxonomy_str : string) :
  taxonomy_events (create_taxonomy_io taxonomy_str).2 = [].
Proof.
  unfold create_taxonomy_io. rewrite fold_taxonomy_line. cbn [snd app].
  unfold taxonomy_events. induction (filter _ _) as [|raw raws IH]; done.
Qed.

#[local] Arguments taxonomy_events : simpl never.

(** A branch of the row that stores nothing. *)
Local Ltac nothing_stored :=
  cbn; split_and!; try done; try (intros ?);
  rewrite ?taxonomy_events_app, ?app_nil_r; done.

(** The state after printing a list of warnings. *)
Lemma fold_say (events : list Event) (st : Ingest) :
  fold_left (λ s w, say w s) events st
  = {| taxonomy := taxonomy st; posts_by_cluster := posts_by_cluster st;
       cluster_stats := cluster_stats st; post_data := post_data st;
       row_count := row_count st; last_post_num := last_post_num st;
       printed := printed st ++ events |}.
Proof.
  revert st. induction events as [|e events IH]; intros st.
  - cbn [fold_left]. rewrite app_nil_r. by destruct st.
  - cbn [fold_left]. rewrite IH. cbn. by rewrite <-app_assoc.
Qed.

(** The state after [for cluster in clusters]. *)
Lemma fold_add_to_cluster (post_num likes hashtags_count : Z) (clusters : list Z) (st : Ingest) :
  let st' := fold_left (add_to_cluster post_num likes hashtags_count) clusters st in
  let n c := length (filter (λ x, x = c) clusters) in
  taxonomy st' = taxonomy st ∧ post_data st' = post_data st ∧ printed st' = printed st
  ∧ posts_by_cluster st' = append_all post_num clusters (posts_by_cluster st)
  ∧ (∀ c, stats_likes (default empty_stats (cluster_stats st' !! c))
          = stats_likes (default empty_stats (cluster_stats st !! c)) ++ replicate (n c) likes)
  ∧ (∀ c, stats_hashtags (default empty_stats (cluster_stats st' !! c))
          = stats_hashtags (default empty_stats (cluster_stats st !! c))
            ++ replicate (n c) hashtags_count)
  ∧ (∀ c, stats_posts (default empty_stats (cluster_stats st' !! c))
          = stats_posts (default empty_stats (cluster_stats st !! c)) ++ replicate (n c) post_num).
Proof.
  revert st. induction clusters as [|c' cs IH]; intros st.
  { cbn. split_and!; try done; intros c; by rewrite app_nil_r. }
  cbn [fold_left]. cbn zeta in IH |- *.
  destruct (IH (add_to_cluster post_num likes hashtags_count st c'))
    as (-> & -> & -> & -> & Hl & Hh & Hp).
  split_and!; try done.
  all: intros c; rewrite ?Hl, ?Hh, ?Hp, filter_cons; cbn [add_to_cluster cluster_stats].
  all: destruct (decide (c' = c)) as [->|Hne];
    [rewrite lookup_insert_eq; cbn; by rewrite <-app_assoc | by rewrite lookup_insert_ne].
Qed.

(** What [record_clusters] leaves behind. *)
Lemma record_clusters_effect (post_num likes hashtags_count : Z) (clusters : list Z)
    (st : Ingest) :
  let st' := record_clusters post_num likes hashtags_count clusters st in
  let n c := length (filter (λ x, x = c) clusters) in
  taxonomy st' = taxonomy st
  ∧ printed st' = printed st
  ∧ post_data st'
    = alter (λ p, {| post_caption := post_caption p; post_url := post_url p;
                     post_likes := post_likes p; post_hashtags := post_hashtags p;
                     post_clusters := clusters |}) post_num (post_data st)
  ∧ posts_by_cluster st' = append_all post_num clusters (posts_by_cluster st)
  ∧ (∀ c, stats_likes (default empty_stats (cluster_stats st' !! c))
          = stats_likes (default empty_stats (cluster_stats st !! c)) ++ replicate (n c) likes)
  ∧ (∀ c, stats_hashtags (default empty_stats (cluster_stats st' !! c))
          = stats_hashtags (default empty_stats (cluster_stats st !! c))
            ++ replicate (n c) hashtags_count)
  ∧ (∀ c, stats_posts (default empty_stats (cluster_stats st' !! c))
          = stats_posts (default empty_stats (cluster_stats st !! c)) ++ replicate (n c) post_num).
Proof.
  unfold record_clusters. cbn zeta.
  match goal with |- context [fold_left _ _ ?s] =>
    destruct (fold_add_to_cluster post_num likes hashtags_count clusters s)
      as (-> & -> & -> & -> & Hl & Hh & Hp) end.
  split_and!; done.
Qed.

(** What [store_post] leaves behind. *)
Lemma store_post_effect (row : Row) (post_num likes hashtags_count : Z) (st : Ingest) :
  let st' := store_post row post_num likes hashtags_count st in
  taxonomy st' = (if post_num =? 1 then create_taxonomy (row_taxonomy row) else taxonomy st)
  ∧ taxonomy_events (printed st')
    = taxonomy_events (printed st)
      ++ (if post_num =? 1 then [create_taxonomy (row_taxonomy row)] else [])
  ∧ post_data st'
    = <[post_num := {| post_caption := row_caption row; post_url := row_url row;
                       post_likes := likes; post_hashtags := hashtags_count;
                       post_clusters := [] |}]> (post_data st)
  ∧ posts_by_cluster st' = posts_by_cluster st
  ∧ cluster_stats st' = cluster_stats st.
Proof.
  unfold store_post, create_taxonomy. cbn zeta.
  pose proof (create_taxonomy_io_events (row_taxonomy row)) as Hev.
  destruct (post_num =? 1).
  - destruct (create_taxonomy_io (row_taxonomy row)) as [tax warnings]. cbn in *.
    split_and!; try done.
    by rewrite !taxonomy_events_app, Hev.
  - cbn. by rewrite app_nil_r.
Qed.

(** The effect of one row on the containers. *)
Lemma ingest_row_effect (st : Ingest) (row : Row) :
  let st' := ingest_row st row in
  taxonomy st'
  = (if parses_taxonomy row then create_taxonomy (row_taxonomy row) else taxonomy st)
  ∧ taxonomy_events (printed st')
    = taxonomy_events (printed st)
      ++ (if parses_taxonomy row then [create_taxonomy (row_taxonomy row)] else [])
  ∧ post_data st'
    = match stored_post row with
      | Some (post_num, post) => <[post_num := post]> (post_data st)
      | None => post_data st
      end
  ∧ posts_by_cluster st'
    = match row_numbers row, row_clusters row with
      | Some (post_num, _, _), Some clusters =>
          append_all post_num clusters (posts_by_cluster st)
      | _, _ => posts_by_cluster st
      end
  ∧ (∀ c, stats_likes (default empty_stats (cluster_stats st' !! c))
          = stats_likes (default empty_stats (cluster_stats st !! c))
            ++ appended the_likes c row)
  ∧ (∀ c, stats_hashtags (default empty_stats (cluster_stats st' !! c))
          = stats_hashtags (default empty_stats (cluster_stats st !! c))
            ++ appended the_hashtags c row)
  ∧ (∀ c, stats_posts (default empty_stats (cluster_stats st' !! c))
          = stats_posts (default empty_stats (cluster_stats st !! c))
            ++ appended the_post c row).
Proof.
  unfold ingest_row, parses_taxonomy, stored_post, appended, row_numbers, row_clusters.
  cbn zeta.
  destruct (PyStr.int (row_post_number row)) as [post_num|]; cbn [mbind option_bind].
  2: { nothing_stored. }
  destruct (PyStr.int (row_likes row)) as [likes|]; cbn [mbind option_bind].
  2: { nothing_stored. }
  destruct (PyStr.int (row_number_of_hashtags row)) as [hashtags_count|];
    cbn [mbind option_bind].
  2: { nothing_stored. }
  match goal with |- context [store_post row post_num likes hashtags_count ?s] =>
    set (st0 := s);
    destruct (store_post_effect row post_num likes hashtags_count st0)
      as (Htax & Hev & Hpd & Hpbc & Hstats) end.
  cbn zeta in Htax, Hev, Hpd, Hpbc, Hstats.
  set (st1 := store_post row post_num likes hashtags_count st0) in *.
  assert (taxonomy_events (printed st0) = taxonomy_events (printed st)) as Hev0.
  { subst st0. cbn. by rewrite taxonomy_events_app, app_nil_r. }
  rewrite Hev0 in Hev. clear Hev0.
  change (taxonomy st0) with (taxonomy st) in Htax.
  change (post_data st0) with (post_data st) in Hpd.
  change (posts_by_cluster st0) with (posts_by_cluster st) in Hpbc.
  change (cluster_stats st0) with (cluster_stats st) in Hstats.
  clearbody st0 st1.
  destruct (PyStr.contains "," (PyStr.strip (row_types_of_patterns row))).
  - pose proof (parse_parts_clusters post_num
                  (PyStr.split "," (PyStr.strip (row_types_of_patterns row)))) as Hcs.
    pose proof (parse_parts_events post_num
                  (PyStr.split "," (PyStr.strip (row_types_of_patterns row)))) as Hws.
    destruct (parse_parts _ _) as [clusters warnings]. cbn [fst snd] in Hcs, Hws.
    rewrite <-Hcs. rewrite fold_say.
    match goal with |- context [record_clusters _ _ _ _ ?s] =>
      destruct (record_clusters_effect post_num likes hashtags_count clusters s)
        as (-> & -> & -> & -> & Hl & Hh & Hp) end.
    cbn [taxonomy printed post_data posts_by_cluster cluster_stats default from_option id].
    split_and!.
    + done.
    + by rewrite taxonomy_events_app, Hws, app_nil_r.
    + by rewrite Hpd, alter_insert_eq.
    + by rewrite Hpbc.
    + intros c. rewrite Hl. cbn. by rewrite Hstats.
    + intros c. rewrite Hh. cbn. by rewrite Hstats.
    + intros c. rewrite Hp. cbn. by rewrite Hstats.
  - destruct (PyStr.int (PyStr.strip (row_types_of_patterns row))) as [c0|];
      cbn [fmap option_fmap option_map].
    + match goal with |- context [record_clusters _ _ _ _ ?s] =>
        destruct (record_clusters_effect post_num likes hashtags_count [c0] s)
          as (-> & -> & -> & -> & Hl & Hh & Hp) end.
      cbn [default from_option id].
      split_and!.
      * done.
      * done.
      * by rewrite Hpd, alter_insert_eq.
      * by rewrite Hpbc.
      * intros c. by rewrite Hl, Hstats.
      * intros c. by rewrite Hh, Hstats.
      * intros c. by rewrite Hp, Hstats.
    + cbn [say taxonomy printed post_data posts_by_cluster cluster_stats default from_option id].
      rewrite Hpd, Hpbc, Hstats.
      split_and!; try done.
      * by rewrite taxonomy_events_app, app_nil_r.
      * intros c. by rewrite app_nil_r.
      * intros c. by rewrite app_nil_r.
      * intros c. by rewrite app_nil_r.
Qed.

Lemma ingest_row_posts (st : Ingest) (row : Row) (c : Z) :
  default [] (posts_by_cluster (ingest_row st row) !! c)
  = default [] (posts_by_cluster st !! c) ++ appended the_post c row.
Proof.
  destruct (ingest_row_effect st row) as (_ & _ & _ & -> & _).
  unfold appended.
  destruct (row_numbers row) as [[[post_num likes] hashtags_count]|];
    [|by rewrite app_nil_r].
  destruct (row_clusters row) as [clusters|]; [|by rewrite app_nil_r].
  apply append_all_lookup.
Qed.

Lemma ingest_row_nonempty (st : Ingest) (row : Row) :
  (∀ c l, posts_by_cluster st !! c = Some l → l ≠ []) →
  ∀ c l, posts_by_cluster (ingest_row st row) !! c = Some l → l ≠ [].
Proof.
  intros Hst. destruct (ingest_row_effect st row) as (_ & _ & _ & -> & _).
  destruct (row_numbers row) as [[[post_num likes] hashtags_count]|]; [|done].
  destruct (row_clusters row) as [clusters|]; [|done].
  by apply append_all_nonempty.
Qed.

(** The containers after a run of the loop from any state. *)
Lemma rows_taxonomy (rows : list Row) (st : Ingest) :
  taxonomy (fold_left ingest_row rows st)
  = from_option (λ row, create_taxonomy (row_taxonomy row)) (taxonomy st)
      (last (filter (λ row, parses_taxonomy row = true) rows)).
Proof.
  revert st. induction rows as [|row rows IH]; intros st; [done |].
  cbn [fold_left]. rewrite IH, filter_cons.
  destruct (ingest_row_effect st row) as (-> & _).
  destruct (parses_taxonomy row) eqn:Hrow.
  - rewrite decide_True by done.
    destruct (filter _ rows) as [|row' rows'] eqn:Hrows; [done |].
    rewrite last_cons_cons.
    destruct (last (row' :: rows')) eqn:Hlast; [done | by apply last_None in Hlast].
  - by rewrite decide_False.
Qed.

Lemma rows_taxonomy_events (rows : list Row) (st : Ingest) :
  taxonomy_events (printed (fold_left ingest_row rows st))
  = taxonomy_events (printed st)
    ++ ((λ row, create_taxonomy (row_taxonomy row))
          <$> filter (λ row, parses_taxonomy row = true) rows).
Proof.
  revert st. induction rows as [|row rows IH]; intros st.
  { by rewrite app_nil_r. }
  cbn [fold_left]. rewrite IH, filter_cons.
  destruct (ingest_row_effect st row) as (_ & -> & _).
  destruct (parses_taxonomy row) eqn:Hrow.
  - rewrite decide_True by done. by rewrite <-app_assoc.
  - rewrite decide_False by done. by rewrite app_nil_r.
Qed.

Lemma rows_post_data (rows : list Row) (st : Ingest) (post_num : Z) :
  post_data (fold_left ingest_row rows st) !! post_num
  = match last (filter (λ e, e.1 = post_num) (omap stored_post rows)) with
    | Some e => Some e.2
    | None => post_data st !! post_num
    end.
Proof.
  revert st. induction rows as [|row rows IH]; intros st; [done |].
  cbn [fold_left omap list_omap]. rewrite IH.
  destruct (ingest_row_effect st row) as (_ & _ & -> & _).
  destruct (stored_post row) as [[p post]|]; [|done].
  rewrite filter_cons. cbn [fst]. destruct (decide (p = post_num)) as [->|Hne].
  - destruct (filter _ (omap stored_post rows)) as [|e es] eqn:Hes.
    + cbn. apply lookup_insert_eq.
    + rewrite last_cons_cons.
      destruct (last (e :: es)) eqn:Hlast; [done | by apply last_None in Hlast].
  - destruct (last _); [done | by apply lookup_insert_ne].
Qed.

Lemma rows_posts (rows : list Row) (st : Ingest) (c : Z) :
  default [] (posts_by_cluster (fold_left ingest_row rows st) !! c)
  = default [] (posts_by_cluster st !! c) ++ flat_map (appended the_post c) rows.
Proof.
  revert st. induction rows as [|row rows IH]; intros st.
  { by rewrite app_nil_r. }
  cbn [fold_left flat_map]. by rewrite IH, ingest_row_posts, <-app_assoc.
Qed.

Lemma rows_nonempty (rows : list Row) (st : Ingest) :
  (∀ c l, posts_by_cluster st !! c = Some l → l ≠ []) →
  ∀ c l, posts_by_cluster (fold_left ingest_row rows st) !! c = Some l → l ≠ [].
Proof.
  revert st. induction rows as [|row rows IH]; intros st Hst; [done |].
  cbn [fold_left]. by apply IH, ingest_row_nonempty.
Qed.

Lemma rows_stats (rows : list Row) (st : Ingest) (c : Z) :
  let stats' := default empty_stats (cluster_stats (fold_left ingest_row rows st) !! c) in
  let stats := default empty_stats (cluster_stats st !! c) in
  stats_likes stats' = stats_likes stats ++ flat_map (appended the_likes c) rows
  ∧ stats_hashtags stats' = stats_hashtags stats ++ flat_map (appended the_hashtags c) rows
  ∧ stats_posts stats' = stats_posts stats ++ flat_map (appended the_post c) rows.
Proof.
  cbn zeta. revert st. induction rows as [|row rows IH]; intros st.
  { cbn. by rewrite !app_nil_r. }
  cbn [fold_left flat_map]. destruct (IH (ingest_row st row)) as (-> & -> & ->).
  destruct (ingest_row_effect st row) as (_ & _ & _ & _ & Hl & Hh & Hp).
  by rewrite Hl, Hh, Hp, <-!app_assoc.
Qed.

(** C2, as stated, fails: a row whose category field has no comma and is
    not an integer, but whose integer fields parse, IS stored in the
    post-record map (with an empty category list). *)
Lemma malformed_single_counterexample :
  PyStr.contains "," (PyStr.strip (row_types_of_patterns malformed_single)) = false
  ∧ PyStr.int (PyStr.strip (row_types_of_patterns malformed_single)) = None
  ∧ post_data (create_network_graph [malformed_single]) !! 5
    = Some {| post_caption := "caption 5"; post_url := "https://example.org/p/5";
              post_likes := 10; post_hashtags := 2; post_clusters := [] |}.
Proof. by vm_compute. Qed.

(** C2 (amended): a row whose category field has no comma and does not
    parse as an integer adds nothing to any category accumulator. When its
    post number, likes and hashtag count parse, the post is nevertheless
    stored in the post-record map, with an empty category list, and the
    taxonomy is parsed from the row if its post number is 1; when one of the
    three does not parse, the post-record map and the taxonomy are unchanged
    too. *)
Theorem malformed_single_category (st : Ingest) (row : Row) :
  PyStr.contains "," (PyStr.strip (row_types_of_patterns row)) = false →
  PyStr.int (PyStr.strip (row_types_of_patterns row)) = None →
  let st' := ingest_row st row in
  posts_by_cluster st' = posts_by_cluster st
  ∧ cluster_stats st' = cluster_stats st
  ∧ match row_numbers row with
    | Some (post_num, likes, hashtags_count) =>
        post_data st'
        = <[post_num := {| post_caption := row_caption row; post_url := row_url row;
                           post_likes := likes; post_hashtags := hashtags_count;
                           post_clusters := [] |}]> (post_data st)
        ∧ taxonomy st'
          = (if post_num =? 1 then create_taxonomy (row_taxonomy row) else taxonomy st)
    | None => post_data st' = post_data st ∧ taxonomy st' = taxonomy st
    end.
Proof.
  intros Hcomma Hint st'.
  destruct (ingest_row_effect st row) as (Htax & _ & Hpd & Hpbc & Hl & Hh & Hp).
  fold st' in Htax, Hpd, Hpbc, Hl, Hh, Hp.
  assert (row_clusters row = None) as Hcs.
  { unfold row_clusters. cbn zeta. by rewrite Hcomma, Hint. }
  unfold appended, stored_post, parses_taxonomy in *. rewrite Hcs in *.
  split_and!.
  - rewrite Hpbc. by destruct (row_numbers row) as [[[? ?] ?]|].
  - clear -Hcomma Hint. unfold st', ingest_row. cbn zeta.
    destruct (PyStr.int (row_post_number row)) as [post_num|]; [|done].
    destruct (PyStr.int (row_likes row)) as [likes|]; [|done].
    destruct (PyStr.int (row_number_of_hashtags row)) as [hashtags_count|]; [|done].
    rewrite Hcomma, Hint. cbn [say cluster_stats].
    match goal with |- context [store_post row post_num likes hashtags_count ?s] =>
      by destruct (store_post_effect row post_num likes hashtags_count s)
        as (_ & _ & _ & _ & ->) end.
  - destruct (row_numbers row) as [[[post_num likes] hashtags_count]|]; cbn in *; done.
Qed.

(** The amended C2 at the row [malformed_single], from the empty containers. *)
Lemma malformed_single_category_witness :
  let st' := ingest_row ingest_init malformed_single in
  posts_by_cluster st' = ∅
  ∧ cluster_stats st' = ∅
  ∧ post_data st'
    = <[5 := {| post_caption := "caption 5"; post_url := "https://example.org/p/5";
                post_likes := 10; post_hashtags := 2; post_clusters := [] |}]> ∅
    ∧ taxonomy st' = [].
Proof. exact (malformed_single_category ingest_init malformed_single eq_refl eq_refl). Defined.

(** C9, as stated, fails: with two rows of post number 1 the taxonomy is
    parsed twice, and the taxonomy that is kept comes from the second of
    them, not from the first. *)
Lemma taxonomy_parsed_twice_counterexample :
  taxonomy_events (printed (create_network_graph two_first_posts))
  = [[(1, "Tops")]; [(1, "Skirts")]]
  ∧ taxonomy (create_network_graph two_first_posts) = [(1, "Skirts")]
  ∧ (create_taxonomy ∘ row_taxonomy) <$> head two_first_posts = Some [(1, "Tops")].
Proof. by vm_compute. Qed.

(** C9 (amended): the taxonomy is parsed once for each row whose post
    number, likes and hashtag count parse and whose post number is 1, in row
    order, and for no other row; the taxonomy handed to the graph builder is
    the one parsed from the LAST such row, and is empty when there is none.
    In particular, when exactly one row qualifies, the taxonomy is parsed
    once, from that row. *)
Theorem taxonomy_parsed_on_post_one (rows : list Row) :
  let st := create_network_graph rows in
  let parsing := filter (λ row, parses_taxonomy row = true) rows in
  taxonomy_events (printed st) = (λ row, create_taxonomy (row_taxonomy row)) <$> parsing
  ∧ taxonomy st = from_option (λ row, create_taxonomy (row_taxonomy row)) [] (last parsing)
  ∧ analyse rows = build_graph (taxonomy st) (posts_by_cluster st) (cluster_stats st)
  ∧ (∀ row, parsing = [row] →
       taxonomy_events (printed st) = [create_taxonomy (row_taxonomy row)]
       ∧ taxonomy st = create_taxonomy (row_taxonomy row)).
Proof.
  cbn zeta.
  assert (taxonomy_events (printed (create_network_graph rows))
          = (λ row, create_taxonomy (row_taxonomy row))
              <$> filter (λ row, parses_taxonomy row = true) rows) as Hev.
  { unfold create_network_graph. by rewrite rows_taxonomy_events. }
  assert (taxonomy (create_network_graph rows)
          = from_option (λ row, create_taxonomy (row_taxonomy row)) []
              (last (filter (λ row, parses_taxonomy row = true) rows))) as Htax.
  { unfold create_network_graph. by rewrite rows_taxonomy. }
  split_and!; [done | done | done |].
  intros row Hrow. rewrite Hev, Htax, Hrow. done.
Qed.

(** ** The pair loop *)

Lemma edge_key_sym (u v : Z) : edge_key u v = edge_key v u.
Proof. unfold edge_key. by rewrite Z.min_comm, Z.max_comm. Qed.

Lemma edge_key_inj (a b c d : Z) :
  edge_key a b = edge_key c d → (a = c ∧ b = d) ∨ (a = d ∧ b = c).
Proof. unfold edge_key. intros [= Hmin Hmax]. lia. Qed.

Lemma has_edge_sym (G : Graph) (u v : Z) : has_edge G u v = has_edge G v u.
Proof. unfold has_edge. by rewrite edge_key_sym. Qed.

Section PairLoop.
(** A loop body that keeps the nodes and touches the edge of its pair
    only, where it stores [upd] of what was there. *)
Variable body : Z → Z → Graph → Graph.
Variable upd : dict Z NodeAttr → Z → Z → option EdgeAttr → option EdgeAttr.
Hypothesis body_nodes : ∀ c1 c2 G, nodes (body c1 c2 G) = nodes G.
Hypothesis body_frame :
  ∀ c1 c2 G k, k ≠ edge_key c1 c2 → adj (body c1 c2 G) !! k = adj G !! k.
Hypothesis body_hit :
  ∀ c1 c2 G,
    adj (body c1 c2 G) !! edge_key c1 c2 = upd (nodes G) c1 c2 (adj G !! edge_key c1 c2).

Lemma inner_nodes (c1 : Z) (rest : list Z) (G : Graph) :
  nodes (fold_left (λ G c2, body c1 c2 G) rest G) = nodes G.
Proof.
  revert G. induction rest as [|c2 rest IH]; intros G; [done |].
  cbn [fold_left]. by rewrite IH.
Qed.

Lemma for_pairs_nodes (l : list Z) (G : Graph) : nodes (for_pairs body l G) = nodes G.
Proof.
  revert G. induction l as [|c1 rest IH]; intros G; [done |].
  cbn [for_pairs]. by rewrite IH, inner_nodes.
Qed.

Lemma inner_frame (c1 : Z) (rest : list Z) (G : Graph) (k : Z * Z) :
  (∀ c2, c2 ∈ rest → k ≠ edge_key c1 c2) →
  adj (fold_left (λ G c2, body c1 c2 G) rest G) !! k = adj G !! k.
Proof.
  revert G. induction rest as [|c2 rest IH]; intros G Hk; [done |].
  cbn [fold_left]. rewrite IH.
  - apply body_frame, Hk. by left.
  - intros c Hc. apply Hk. by right.
Qed.

Lemma inner_hit (c1 c2 : Z) (rest : list Z) (G : Graph) :
  NoDup rest → c2 ∈ rest →
  adj (fold_left (λ G c2, body c1 c2 G) rest G) !! edge_key c1 c2
  = upd (nodes G) c1 c2 (adj G !! edge_key c1 c2).
Proof.
  revert G. induction rest as [|c rest IH]; intros G Hnd Hin.
  { by apply elem_of_nil in Hin. }
  apply NoDup_cons in Hnd as [Hc Hnd]. cbn [fold_left].
  apply elem_of_cons in Hin as [->|Hin].
  - rewrite inner_frame; [apply body_hit |].
    intros c2 Hc2 [[_ ->]|[-> ->]]%edge_key_inj; done.
  - rewrite IH, body_nodes by done. f_equal. apply body_frame.
    intros [[_ ->]|[-> ->]]%edge_key_inj; done.
Qed.

(** Every edge key after the loop: either the key of one pair of the list,
    updated once from its old value, or a key the loop did not touch. *)
Lemma for_pairs_lookup (l : list Z) (G : Graph) (k : Z * Z) :
  NoDup l →
  (∃ u v, before l u v ∧ k = edge_key u v
          ∧ adj (for_pairs body l G) !! k = upd (nodes G) u v (adj G !! k))
  ∨ ((∀ u v, u ∈ l → v ∈ l → u ≠ v → k ≠ edge_key u v)
     ∧ adj (for_pairs body l G) !! k = adj G !! k).
Proof.
  revert G. induction l as [|c1 rest IH]; intros G Hnd.
  { right. split; [|done]. intros u v Hu. by apply elem_of_nil in Hu. }
  apply NoDup_cons in Hnd as [Hc1 Hnd]. cbn [for_pairs].
  set (G1 := fold_left (λ G c2, body c1 c2 G) rest G).
  destruct (IH G1 Hnd) as [(u & v & (l1 & l2 & -> & Hv) & -> & Hlook)|[Hframe Hlook]].
  - left. exists u, v. split_and!; [by exists (c1 :: l1), l2 | done |].
    rewrite Hlook. unfold G1. rewrite inner_nodes, inner_frame; [done |].
    intros c2 Hc2 Heq. apply Hc1.
    apply edge_key_inj in Heq as [[-> _]|[_ ->]].
    + apply elem_of_app; right; by left.
    + apply elem_of_app; right; by right.
  - destruct (decide (Exists (λ c2, k = edge_key c1 c2) rest)) as [Hex|Hnex].
    + apply Exists_exists in Hex as (c2 & Hc2 & ->).
      left. exists c1, c2. split_and!; [by exists [], rest | done |].
      rewrite Hlook. by apply inner_hit.
    + right. split.
      * intros u v [->|Hu]%elem_of_cons [->|Hv]%elem_of_cons Hne; [done | | | by apply Hframe].
        -- intros ->. apply Hnex, Exists_exists. eauto.
        -- rewrite edge_key_sym. intros ->. apply Hnex, Exists_exists. eauto.
      * rewrite Hlook. apply inner_frame.
        intros c2 Hc2 ->. apply Hnex, Exists_exists. eauto.
Qed.

End PairLoop.

Lemma before_elem (l : list Z) (u v : Z) : before l u v → u ∈ l ∧ v ∈ l.
Proof.
  intros (l1 & l2 & -> & Hv). split; apply elem_of_app; right; [by left | by right].
Qed.

Lemma before_ne (l : list Z) (u v : Z) : NoDup l → before l u v → u ≠ v.
Proof.
  intros Hnd (l1 & l2 & -> & Hv) ->.
  apply NoDup_app in Hnd as (_ & _ & Hnd). apply NoDup_cons in Hnd as [Hv' _]. done.
Qed.

Lemma before_total (l : list Z) (u v : Z) :
  u ∈ l → v ∈ l → u ≠ v → before l u v ∨ before l v u.
Proof.
  intros Hu Hv Hne. apply list_elem_of_split in Hu as (l1 & l2 & ->).
  apply elem_of_app in Hv as [Hv|Hv].
  - right. apply list_elem_of_split in Hv as (l3 & l4 & ->).
    exists l3, (l4 ++ u :: l2). split; [by rewrite <-app_assoc |].
    apply elem_of_app; right; by left.
  - apply elem_of_cons in Hv as [->|Hv]; [done |]. left. by exists l1, l2.
Qed.

(** ** The loops of [build_graph] *)

Lemma attr_update_no_attr (e : EdgeAttr) : attr_update no_attr e = e.
Proof.
  destruct e as [w sp sim ty]. unfold attr_update. cbn.
  by destruct w, sp, sim, ty.
Qed.

Lemma average_cases (values : list Z) :
  average values = Ok (average_value values) ∨ average values = Raise OverflowError.
Proof.
  unfold average_value. destruct (average values) as [x|e] eqn:Havg; [by left | right].
  unfold average in Havg. destruct values as [|v values]; [done |].
  unfold Binary64.true_div in Havg.
  assert ((len (v :: values) =? 0) = false) as Hlen by (apply Z.eqb_neq; unfold len; cbn; lia).
  rewrite Hlen in Havg.
  destruct (Binary64.div _ _); (done || by injection Havg as <-).
Qed.

Section BuildGraphFacts.
Variable taxonomy : dict Z string.
Variable posts_by_cluster : gmap Z (list Z).
Variable cluster_stats : gmap Z Stats.

Let G0 := node_graph taxonomy posts_by_cluster cluster_stats.

(** *** Nodes *)

Let node_entry := taxonomy_node posts_by_cluster cluster_stats.

Let loop := fold_left (λ G entry, G ← G; node_step posts_by_cluster cluster_stats G entry).

Lemma fold_node_step_raise (entries : list (Z * string)) (e : exn) :
  loop entries (Raise e) = Raise e.
Proof. induction entries as [|entry entries IH]; [done | apply IH]. Qed.

(** A round of the node loop adds the node of the entry, or raises
    [OverflowError] when one of its averages is no double. *)
Lemma node_step_cases (G : Graph) (entry : Z * string) :
  (node_step posts_by_cluster cluster_stats G entry
   = Ok {| nodes := from_option (λ e, dict_set e.1 e.2 (nodes G)) (nodes G) (node_entry entry);
           adj := adj G |}
   ∧ (is_Some (posts_by_cluster !! entry.1) → representable cluster_stats entry.1))
  ∨ (node_step posts_by_cluster cluster_stats G entry = Raise OverflowError
     ∧ is_Some (posts_by_cluster !! entry.1) ∧ ¬ representable cluster_stats entry.1).
Proof.
  destruct entry as [c name]. unfold node_step, node_entry, taxonomy_node, representable.
  cbn [fst snd]. case_bool_decide as Hposts; [|left; split; [by destruct G | done]].
  change (match stats_likes (stats_of cluster_stats c) with
          | [] => Ok Binary64.zero
          | _ => Binary64.true_div (sum (stats_likes (stats_of cluster_stats c)))
                   (len (stats_likes (stats_of cluster_stats c)))
          end) with (average (stats_likes (stats_of cluster_stats c))).
  change (match stats_hashtags (stats_of cluster_stats c) with
          | [] => Ok Binary64.zero
          | _ => Binary64.true_div (sum (stats_hashtags (stats_of cluster_stats c)))
                   (len (stats_hashtags (stats_of cluster_stats c)))
          end) with (average (stats_hashtags (stats_of cluster_stats c))).
  destruct (average_cases (stats_likes (stats_of cluster_stats c))) as [Hlikes|Hlikes];
    rewrite Hlikes; cbn [mbind Result_bind].
  - destruct (average_cases (stats_hashtags (stats_of cluster_stats c))) as [Htags|Htags];
      rewrite Htags; cbn [mbind Result_bind].
    + left. split; [done | eauto].
    + right. split_and!; [done | done |]. by intros [_ [x [=]]].
  - right. split_and!; [done | done |]. by intros [[x [=]] _].
Qed.

Lemma fold_node_step (entries : list (Z * string)) (G : Graph) :
  (loop entries (Ok G)
   = Ok {| nodes := fold_left (λ d e, dict_set e.1 e.2 d) (omap node_entry entries) (nodes G);
           adj := adj G |}
   ∧ ∀ c, c ∈ dict_keys entries → is_Some (posts_by_cluster !! c) →
          representable cluster_stats c)
  ∨ (loop entries (Ok G) = Raise OverflowError
     ∧ ∃ c, c ∈ dict_keys entries ∧ is_Some (posts_by_cluster !! c)
            ∧ ¬ representable cluster_stats c).
Proof.
  revert G. induction entries as [|entry entries IH]; intros G.
  { left. split; [by destruct G |]. by intros c ?%elem_of_nil. }
  unfold loop. cbn [fold_left mbind Result_bind]. fold loop.
  destruct (node_step_cases G entry) as [[-> Hentry]|(-> & Hposts & Hbad)].
  - destruct (IH {| nodes := from_option (λ e, dict_set e.1 e.2 (nodes G)) (nodes G)
                               (node_entry entry);
                    adj := adj G |}) as [[-> Hrest]|(-> & c & Hc & Hposts & Hbad)].
    + left. cbn [nodes adj omap list_omap]. split.
      * by destruct (node_entry entry).
      * intros c [->|Hc]%elem_of_cons; [done | by apply Hrest].
    + right. split; [done |]. exists c. split_and!; [by right | done | done].
  - rewrite fold_node_step_raise. right. split; [done |].
    exists entry.1. split_and!; [by left | done | done].
Qed.

(** The node loop returns [node_graph], or raises [OverflowError] when an
    average of a category with posts is no double. *)
Lemma add_nodes_cases :
  (add_nodes taxonomy posts_by_cluster cluster_stats = Ok G0
   ∧ ∀ c, c ∈ dict_keys taxonomy → is_Some (posts_by_cluster !! c) →
          representable cluster_stats c)
  ∨ (add_nodes taxonomy posts_by_cluster cluster_stats = Raise OverflowError
     ∧ ∃ c, c ∈ dict_keys taxonomy ∧ is_Some (posts_by_cluster !! c)
            ∧ ¬ representable cluster_stats c).
Proof. apply (fold_node_step taxonomy empty_graph). Qed.

Lemma add_nodes_adj : adj G0 = ∅.
Proof. done. Qed.

Lemma add_nodes_NoDup : NoDup (node_list G0).
Proof. unfold G0, node_graph, node_list. cbn [nodes]. apply fold_dict_set_NoDup, NoDup_nil_2. Qed.

Lemma node_entry_keys (entries : list (Z * string)) (c : Z) :
  c ∈ (omap node_entry entries).*1
  ↔ c ∈ dict_keys entries ∧ is_Some (posts_by_cluster !! c).
Proof.
  rewrite list_elem_of_fmap. unfold dict_keys. split.
  - intros [[c' attr] [-> Hin]]. apply list_elem_of_omap in Hin as [[c name] [Hin Hentry]].
    unfold node_entry, taxonomy_node in Hentry. cbn [fst snd] in *. case_bool_decide; [|done].
    injection Hentry as <- _. split; [|done].
    apply list_elem_of_In, in_map_iff. exists (c, name). split; [done | by apply list_elem_of_In].
  - intros [Hin Hposts]. apply list_elem_of_In, in_map_iff in Hin as [[c' name] [Hc Hin]].
    cbn in Hc. subst c'.
    exists (c, node_attr posts_by_cluster cluster_stats c name). split; [done |].
    apply list_elem_of_omap. exists (c, name). split; [by apply list_elem_of_In |].
    unfold node_entry, taxonomy_node. cbn [fst snd]. by rewrite bool_decide_eq_true_2.
Qed.

(** A category gets a node iff it is a key of the taxonomy and of the
    accumulator. *)
Lemma add_nodes_elem (c : Z) :
  c ∈ node_list G0 ↔ c ∈ dict_keys taxonomy ∧ is_Some (posts_by_cluster !! c).
Proof.
  unfold G0, node_graph, node_list. cbn [nodes]. fold node_entry.
  rewrite fold_dict_set_keys, node_entry_keys. cbn. rewrite elem_of_nil. tauto.
Qed.

(** The attributes of a node are those computed from its category; only
    the label depends on the taxonomy. *)
Lemma add_nodes_attr (c : Z) (n : NodeAttr) :
  dict_get c (nodes G0) = Some n →
  ∃ name, (c, name) ∈ taxonomy ∧ n = node_attr posts_by_cluster cluster_stats c name.
Proof.
  unfold G0, node_graph. cbn [nodes]. fold node_entry.
  rewrite fold_dict_set_get.
  destruct (last (filter _ _)) as [[c' attr]|] eqn:Hlast; [|done].
  intros [= <-]. apply last_Some_elem_of, list_elem_of_filter in Hlast as [Hc Hin].
  cbn in Hc. subst c'. apply list_elem_of_omap in Hin as [[c0 name] [Hin Hentry]].
  unfold node_entry, taxonomy_node in Hentry. cbn [fst snd] in Hentry. case_bool_decide; [|done].
  injection Hentry as -> <-. by exists name.
Qed.

End BuildGraphFacts.

(** *** The two loop bodies *)

Lemma shared_step_nodes (pbc : gmap Z (list Z)) (c1 c2 : Z) (G : Graph) :
  nodes (shared_step pbc c1 c2 G) = nodes G.
Proof. unfold shared_step. cbn zeta. by case_bool_decide. Qed.

Lemma shared_step_frame (pbc : gmap Z (list Z)) (c1 c2 : Z) (G : Graph) (k : Z * Z) :
  k ≠ edge_key c1 c2 → adj (shared_step pbc c1 c2 G) !! k = adj G !! k.
Proof.
  intros Hk. unfold shared_step. cbn zeta. case_bool_decide; [|done].
  cbn [add_edge adj]. by rewrite lookup_insert_ne.
Qed.

Lemma shared_step_hit (pbc : gmap Z (list Z)) (c1 c2 : Z) (G : Graph) :
  adj (shared_step pbc c1 c2 G) !! edge_key c1 c2
  = shared_upd pbc (nodes G) c1 c2 (adj G !! edge_key c1 c2).
Proof.
  unfold shared_step, shared_upd, shared_of. cbn zeta. case_bool_decide; [|done].
  cbn [add_edge adj]. by rewrite lookup_insert_eq.
Qed.

Lemma similarity_step_nodes (c1 c2 : Z) (G : Graph) :
  nodes (similarity_step c1 c2 G) = nodes G.
Proof.
  unfold similarity_step. cbn zeta.
  destruct (negb _); [|done]. by destruct (Binary64.gtb _ _).
Qed.

Lemma similarity_step_frame (c1 c2 : Z) (G : Graph) (k : Z * Z) :
  k ≠ edge_key c1 c2 → adj (similarity_step c1 c2 G) !! k = adj G !! k.
Proof.
  intros Hk. unfold similarity_step. cbn zeta.
  destruct (negb _); [|done]. destruct (Binary64.gtb _ _); [|done].
  cbn [add_edge adj]. by rewrite lookup_insert_ne.
Qed.

Lemma similarity_step_hit (c1 c2 : Z) (G : Graph) :
  adj (similarity_step c1 c2 G) !! edge_key c1 c2
  = similarity_upd (nodes G) c1 c2 (adj G !! edge_key c1 c2).
Proof.
  unfold similarity_step, similarity_upd, has_edge, node_avg_likes, avg_of. cbn zeta.
  destruct (adj G !! edge_key c1 c2) as [e|] eqn:Hold.
  - rewrite bool_decide_eq_true_2 by eauto. done.
  - rewrite bool_decide_eq_false_2 by (by intros [? ?]). cbn [negb].
    destruct (Binary64.gtb _ _); [|done].
    cbn [add_edge adj]. rewrite lookup_insert_eq, Hold. cbn [default from_option id].
    by rewrite attr_update_no_attr.
Qed.

Lemma shared_of_sym (pbc : gmap Z (list Z)) (u v : Z) : shared_of pbc u v = shared_of pbc v u.
Proof. unfold shared_of. set_solver. Qed.

Lemma before_asym (l : list Z) (u v : Z) : NoDup l → before l u v → ¬ before l v u.
Proof.
  intros Hnd (l1 & l2 & -> & Hv) (l3 & l4 & Heq & Hu).
  apply NoDup_app in Hnd as (Hl1 & Hdisj & Hnd). apply NoDup_cons in Hnd as [Hu2 Hnd].
  assert (v ∈ l1 ++ u :: l2) as Hv' by (apply elem_of_app; right; by right).
  assert (∀ a b c d : list Z, ∀ x, a ++ x :: b = c ++ x :: d → x ∉ a → x ∉ c → a = c ∧ b = d)
    as Hsplit.
  { intros a. induction a as [|y a IH]; intros b c d x Hx Ha Hc.
    - destruct c as [|z c]; [by injection Hx as -> | ].
      injection Hx as -> _. exfalso. apply Hc. by left.
    - destruct c as [|z c].
      + injection Hx as -> _. exfalso. apply Ha. by left.
      + injection Hx as -> Hx. destruct (IH b c d x Hx) as [-> ->]; [| |done].
        * intros ?. apply Ha. by right.
        * intros ?. apply Hc. by right. }
  (* v sits in l2, so the split at v puts u before it *)
  apply list_elem_of_split in Hv as (l5 & l6 & ->).
  assert (v ∉ l1) as Hv1.
  { intros Hin. eapply Hdisj; [done |]. right. apply elem_of_app. right. by left. }
  assert (v ≠ u) as Hne by (intros ->; apply Hu2, elem_of_app; right; by left).
  assert (v ∉ l5) as Hv5.
  { intros Hin. apply NoDup_app in Hnd as (_ & Hd & _). eapply Hd; [done | by left]. }
  replace (l1 ++ u :: l5 ++ v :: l6) with ((l1 ++ u :: l5) ++ v :: l6) in Heq
    by (by rewrite <-app_assoc).
  assert (v ∉ l3) as Hv3.
  { intros Hin.
    assert (NoDup (l3 ++ v :: l4)) as Hnd'.
    { rewrite <-Heq, <-app_assoc. apply NoDup_app. split_and!; [done | | ].
      - intros x Hx1 Hx2. eapply Hdisj; [done |]. done.
      - apply NoDup_cons. split; [done |]. done. }
    apply NoDup_app in Hnd' as (_ & Hd & _). eapply Hd; [done | by left]. }
  destruct (Hsplit (l1 ++ u :: l5) l6 l3 l4 v Heq) as [<- <-]; [| done |].
  - intros [?|[?|?]%elem_of_cons]%elem_of_app; done.
  - (* u would occur in l6 as well as before v *)
    apply Hu2. apply elem_of_app. right. by right.
Qed.

(** *** The graph after the loop for shared posts *)

Section DirectGraphFacts.
Variable taxonomy : dict Z string.
Variable posts_by_cluster : gmap Z (list Z).
Variable cluster_stats : gmap Z Stats.

Let G0 := node_graph taxonomy posts_by_cluster cluster_stats.
Let D := direct_graph taxonomy posts_by_cluster cluster_stats.
Let P := for_pairs (shared_step posts_by_cluster) (node_list G0) G0.

(** The graph of the first two loops, or the null graph when the node loop
    raised. *)
Lemma direct_graph_cases :
  (add_nodes taxonomy posts_by_cluster cluster_stats = Ok G0 ∧ D = P)
  ∨ (add_nodes taxonomy posts_by_cluster cluster_stats = Raise OverflowError
     ∧ D = empty_graph).
Proof.
  unfold D, direct_graph.
  destruct (add_nodes_cases taxonomy posts_by_cluster cluster_stats) as [[-> _]|[-> _]];
    [by left | by right].
Qed.

Lemma shared_pass_nodes : nodes P = nodes G0.
Proof. apply (for_pairs_nodes _ (shared_step_nodes posts_by_cluster)). Qed.

Lemma shared_pass_node_list : node_list P = node_list G0.
Proof. change (dict_keys (nodes P) = dict_keys (nodes G0)). by rewrite shared_pass_nodes. Qed.

Lemma direct_graph_nodes : node_list D ≠ [] → nodes D = nodes G0.
Proof.
  destruct direct_graph_cases as [[_ ->]|[_ ->]]; [intros _; apply shared_pass_nodes | done].
Qed.

Lemma direct_graph_NoDup : NoDup (node_list D).
Proof.
  destruct direct_graph_cases as [[_ ->]|[_ ->]]; [|apply NoDup_nil_2].
  unfold node_list. rewrite shared_pass_nodes. apply add_nodes_NoDup.
Qed.

(** Every edge after the first loop joins two nodes that share posts, and
    carries the shared posts. *)
Lemma direct_graph_edge (k : Z * Z) (e : EdgeAttr) :
  adj D !! k = Some e →
  ∃ u v, before (node_list D) u v ∧ k = edge_key u v
         ∧ shared_of posts_by_cluster u v ≠ ∅
         ∧ e = shared_attr (shared_of posts_by_cluster u v).
Proof.
  destruct direct_graph_cases as [[_ ->]|[_ ->]]; [|done].
  assert (node_list P = node_list G0) as HD by (unfold node_list; by rewrite shared_pass_nodes).
  rewrite HD. unfold P. intros He.
  destruct (for_pairs_lookup _ _ (shared_step_nodes posts_by_cluster)
              (shared_step_frame posts_by_cluster) (shared_step_hit posts_by_cluster)
              (node_list G0) G0 k (add_nodes_NoDup _ _ _))
    as [(u & v & Hbefore & -> & Hlook)|[_ Hlook]].
  - rewrite Hlook in He. unfold G0 in He. rewrite add_nodes_adj, lookup_empty in He.
    unfold shared_upd in He. cbn zeta in He. case_bool_decide; [|done].
    cbn [default from_option id] in He. rewrite attr_update_no_attr in He.
    injection He as <-. by exists u, v.
  - rewrite Hlook in He. unfold G0 in He. by rewrite add_nodes_adj, lookup_empty in He.
Qed.

(** For two distinct nodes, the edge of the pair after the first loop. *)
Lemma direct_graph_pair (u v : Z) :
  u ∈ node_list D → v ∈ node_list D → u ≠ v →
  adj D !! edge_key u v
  = if bool_decide (shared_of posts_by_cluster u v ≠ ∅)
    then Some (shared_attr (shared_of posts_by_cluster u v))
    else None.
Proof.
  destruct direct_graph_cases as [[_ ->]|[_ ->]]; [|by intros ?%elem_of_nil].
  intros Hu Hv Hne.
  assert (node_list P = node_list G0) as HD by (unfold node_list; by rewrite shared_pass_nodes).
  rewrite HD in Hu, Hv.
  unfold P.
  destruct (for_pairs_lookup _ _ (shared_step_nodes posts_by_cluster)
              (shared_step_frame posts_by_cluster) (shared_step_hit posts_by_cluster)
              (node_list G0) G0 (edge_key u v) (add_nodes_NoDup _ _ _))
    as [(u' & v' & Hbefore & Hkey & Hlook)|[Hframe _]].
  - rewrite Hlook. unfold G0. rewrite add_nodes_adj, lookup_empty.
    unfold shared_upd. cbn zeta. cbn [default from_option id].
    rewrite attr_update_no_attr.
    apply edge_key_inj in Hkey as [[-> ->]|[-> ->]]; [done |].
    by rewrite (shared_of_sym _ v' u').
  - exfalso. by apply (Hframe u v).
Qed.

End DirectGraphFacts.

(** *** The repair pass *)

Section SimilarityPassFacts.
Variable G : Graph.
Hypothesis G_NoDup : NoDup (node_list G).

Let R := similarity_pass (node_list G) G.

Lemma similarity_pass_nodes : nodes R = nodes G.
Proof. apply (for_pairs_nodes _ similarity_step_nodes). Qed.

Lemma similarity_pass_node_list : node_list R = node_list G.
Proof.
  change (dict_keys (nodes R) = dict_keys (nodes G)). by rewrite similarity_pass_nodes.
Qed.

(** The pass keeps every edge it finds. *)
Lemma similarity_pass_keeps (k : Z * Z) (e : EdgeAttr) :
  adj G !! k = Some e → adj R !! k = Some e.
Proof.
  unfold R, similarity_pass. intros He.
  destruct (for_pairs_lookup _ _ similarity_step_nodes similarity_step_frame
              similarity_step_hit (node_list G) G k G_NoDup)
    as [(u & v & _ & _ & Hlook)|[_ Hlook]]; rewrite Hlook, He; done.
Qed.

(** A new edge joins two nodes that had none, and is a similarity edge. *)
Lemma similarity_pass_new (k : Z * Z) (e : EdgeAttr) :
  adj G !! k = None → adj R !! k = Some e →
  ∃ u v, before (node_list G) u v ∧ k = edge_key u v
         ∧ Binary64.gtb (Binary64.similarity (avg_of (nodes G) u) (avg_of (nodes G) v))
             Binary64.threshold = true
         ∧ e = similarity_attr (Binary64.similarity (avg_of (nodes G) u) (avg_of (nodes G) v)).
Proof.
  unfold R, similarity_pass. intros Hold He.
  destruct (for_pairs_lookup _ _ similarity_step_nodes similarity_step_frame
              similarity_step_hit (node_list G) G k G_NoDup)
    as [(u & v & Hbefore & Hk & Hlook)|[_ Hlook]];
    rewrite Hlook, Hold in He; [|done].
  unfold similarity_upd in He. cbn zeta in He.
  destruct (Binary64.gtb _ _) eqn:Hgt; [|done]. injection He as <-. by exists u, v.
Qed.

(** For a node [u] before a node [v], the edge of the pair after the pass. *)
Lemma similarity_pass_pair (u v : Z) :
  before (node_list G) u v →
  adj R !! edge_key u v
  = similarity_upd (nodes G) u v (adj G !! edge_key u v).
Proof.
  unfold R, similarity_pass. intros Hbefore.
  destruct (for_pairs_lookup _ _ similarity_step_nodes similarity_step_frame
              similarity_step_hit (node_list G) G (edge_key u v) G_NoDup)
    as [(u' & v' & Hbefore' & Hkey & Hlook)|[Hframe _]].
  - apply edge_key_inj in Hkey as [[-> ->]|[-> ->]]; [done |].
    by destruct (before_asym _ _ _ G_NoDup Hbefore).
  - exfalso. destruct (before_elem _ _ _ Hbefore) as [Hu Hv].
    by apply (Hframe u v Hu Hv (before_ne _ _ _ G_NoDup Hbefore)).
Qed.

End SimilarityPassFacts.

(** ** Connectivity *)

Section Connectivity.
Variable G : Graph.

Lemma elem_of_neighbors (v w : Z) :
  w ∈ neighbors G v ↔ w ∈ node_list G ∧ has_edge G v w = true.
Proof. unfold neighbors. rewrite list_elem_of_filter. tauto. Qed.

Lemma elem_of_expand (seen : gset Z) (w : Z) :
  w ∈ expand G seen ↔ w ∈ seen ∨ ∃ v, v ∈ seen ∧ w ∈ neighbors G v.
Proof.
  unfold expand. rewrite elem_of_union, elem_of_list_to_set.
  rewrite list_elem_of_In, in_flat_map. setoid_rewrite <-list_elem_of_In.
  setoid_rewrite elem_of_elements. tauto.
Qed.

Lemma expand_subseteq (seen : gset Z) : seen ⊆ expand G seen.
Proof. intros x Hx. apply elem_of_expand. by left. Qed.

Lemma expand_nodes (seen : gset Z) : seen ⊆ node_set G → expand G seen ⊆ node_set G.
Proof.
  intros Hseen w [Hw|(v & _ & Hw)]%elem_of_expand; [by apply Hseen |].
  apply elem_of_neighbors in Hw as [Hw _]. by apply elem_of_list_to_set.
Qed.

Lemma reach_fixed (rounds : nat) (seen : gset Z) :
  expand G seen = seen → reach G rounds seen = seen.
Proof.
  intros Hfix. induction rounds as [|r IH]; [done |].
  cbn [reach]. by rewrite Hfix.
Qed.

Lemma reach_subseteq (rounds : nat) (seen : gset Z) : seen ⊆ reach G rounds seen.
Proof.
  revert seen. induction rounds as [|r IH]; intros seen; [done |].
  cbn [reach]. etrans; [apply expand_subseteq | apply IH].
Qed.

Lemma reach_nodes (rounds : nat) (seen : gset Z) : seen ⊆ node_set G → reach G rounds seen ⊆ node_set G.
Proof.
  revert seen. induction rounds as [|r IH]; intros seen Hseen; [done |].
  cbn [reach]. by apply IH, expand_nodes.
Qed.

(** With as many rounds as there may be nodes left, the search ends on a
    set that is closed under taking neighbours. *)
Lemma reach_closed (rounds : nat) (seen : gset Z) :
  seen ⊆ node_set G → (size (node_set G) < size seen + rounds)%nat →
  expand G (reach G rounds seen) = reach G rounds seen.
Proof.
  revert seen. induction rounds as [|r IH]; intros seen Hseen Hsize.
  { apply subseteq_size in Hseen. lia. }
  cbn [reach]. destruct (decide (expand G seen = seen)) as [Hfix|Hgrow].
  - rewrite Hfix. by rewrite reach_fixed.
  - apply IH; [by apply expand_nodes |].
    assert (seen ⊂ expand G seen) as Hsub.
    { split; [apply expand_subseteq |]. intros Hback. apply Hgrow.
      apply set_eq. intros x. split; [apply Hback | apply expand_subseteq]. }
    apply subset_size in Hsub. lia.
Qed.

(** Everything the search reaches is linked to the start set. *)
Lemma reach_sound (source : Z) (rounds : nat) (seen : gset Z) :
  (∀ x, x ∈ seen → x ∈ node_list G ∧ rtc (edge_rel G) source x) →
  ∀ x, x ∈ reach G rounds seen → rtc (edge_rel G) source x.
Proof.
  revert seen. induction rounds as [|r IH]; intros seen Hseen x Hx.
  { by apply Hseen. }
  cbn [reach] in Hx. apply (IH (expand G seen)); [|done].
  intros y [Hy|(v & Hv & Hy)]%elem_of_expand; [by apply Hseen |].
  apply elem_of_neighbors in Hy as [Hy Hedge]. split; [done |].
  destruct (Hseen v Hv) as [Hvn Hpath]. eapply rtc_r; [done |]. by split_and!.
Qed.

(** A closed set holds everything linked to one of its elements. *)
Lemma closed_complete (seen : gset Z) (source x : Z) :
  expand G seen = seen → source ∈ seen → rtc (edge_rel G) source x → x ∈ seen.
Proof.
  intros Hclosed Hsource Hpath. induction Hpath as [|u v w (Hu & Hv & Hedge) _ IH]; [done |].
  apply IH. rewrite <-Hclosed. apply elem_of_expand. right. exists u. split; [done |].
  by apply elem_of_neighbors.
Qed.

Lemma edge_rel_sym (u v : Z) : edge_rel G u v → edge_rel G v u.
Proof. intros (Hu & Hv & Hedge). split_and!; [done | done | by rewrite has_edge_sym]. Qed.

Lemma edge_path_sym (u v : Z) : rtc (edge_rel G) u v → rtc (edge_rel G) v u.
Proof.
  induction 1 as [|u v w Hedge _ IH]; [done |].
  eapply rtc_r; [done | by apply edge_rel_sym].
Qed.

(** [nx.is_connected] decides connectedness of a graph that has nodes. *)
Lemma is_connected_spec :
  NoDup (node_list G) → node_list G ≠ [] →
  ∃ b, is_connected G = Ok b ∧ (b = true ↔ connected G).
Proof.
  intros Hnd Hne. unfold is_connected.
  destruct (node_list G) as [|source rest] eqn:Hnodes; [done |].
  eexists. split; [done |].
  assert (number_of_nodes G = size (node_set G)) as Hn.
  { unfold node_set, number_of_nodes. rewrite Hnodes, size_list_to_set by done.
    rewrite <-Hnodes. unfold node_list, dict_keys. by rewrite length_map. }
  assert (source ∈ node_set G) as Hsource.
  { unfold node_set. rewrite Hnodes. apply elem_of_list_to_set. by left. }
  assert (({[source]} : gset Z) ⊆ node_set G) as Hstart by set_solver.
  set (S := reach G (number_of_nodes G) {[source]}).
  assert (S ⊆ node_set G) as HS by (by apply reach_nodes).
  assert (expand G S = S) as Hclosed.
  { apply reach_closed; [done |]. rewrite size_singleton. lia. }
  assert (source ∈ S) as HsourceS by (apply reach_subseteq; set_solver).
  assert (∀ x, x ∈ S → rtc (edge_rel G) source x) as Hsound.
  { apply (reach_sound source _ {[source]}).
    intros x ->%elem_of_singleton. split; [|done].
    rewrite Hnodes. by left. }
  rewrite bool_decide_eq_true. rewrite Hn. split.
  - intros Hsize u v Hu Hv.
    assert (S = node_set G) as HSV by (apply set_subseteq_size_eq; [done | lia]).
    assert (∀ x, x ∈ source :: rest → rtc (edge_rel G) source x) as Hall.
    { intros x Hx. apply Hsound. rewrite HSV. unfold node_set. rewrite Hnodes.
      by apply elem_of_list_to_set. }
    rewrite Hnodes in Hu, Hv.
    etrans; [apply edge_path_sym, Hall, Hu | apply Hall, Hv].
  - intros Hconn. f_equal. apply set_eq. intros x. split; [apply HS |].
    intros Hx. apply (closed_complete S source x Hclosed HsourceS).
    unfold node_set in Hx. apply elem_of_list_to_set in Hx. rewrite Hnodes in Hx.
    apply Hconn; rewrite Hnodes; [by left | done].
Qed.

End Connectivity.

(** ** [build_graph] as a whole *)

Lemma is_connected_null (G : Graph) :
  node_list G = [] → is_connected G = Raise NetworkXPointlessConcept.
Proof. unfold is_connected. by intros ->. Qed.

Lemma is_connected_Ok (G : Graph) : node_list G ≠ [] → ∃ b, is_connected G = Ok b.
Proof. unfold is_connected. destruct (node_list G); [done | eauto]. Qed.

Section BuildGraphCases.
Variable taxonomy : dict Z string.
Variable posts_by_cluster : gmap Z (list Z).
Variable cluster_stats : gmap Z Stats.

Let G0 := node_graph taxonomy posts_by_cluster cluster_stats.
Let D := direct_graph taxonomy posts_by_cluster cluster_stats.

Lemma direct_graph_node_list : node_list D ≠ [] → node_list D = node_list G0.
Proof.
  intros Hnodes. unfold node_list. f_equal. by apply direct_graph_nodes.
Qed.

(** When the node loop raises, so does [build_graph]. *)
Lemma build_graph_overflow :
  add_nodes taxonomy posts_by_cluster cluster_stats = Raise OverflowError →
  build_graph taxonomy posts_by_cluster cluster_stats = Raise OverflowError
  ∧ D = empty_graph.
Proof. intros Hraise. unfold D, direct_graph, build_graph. by rewrite Hraise. Qed.

(** When it returns, the rest of [build_graph] works on [D]. *)
Lemma build_graph_unfold :
  add_nodes taxonomy posts_by_cluster cluster_stats = Ok G0 →
  build_graph taxonomy posts_by_cluster cluster_stats
  = match needs_repair D with
    | Raise e => Raise e
    | Ok repair =>
        let G := if repair then similarity_pass (node_list D) D else D in
        match is_connected G with
        | Raise e => Raise e
        | Ok _ => Ok G
        end
    end
  ∧ node_list D = node_list G0.
Proof.
  intros Hpass. unfold D, direct_graph, build_graph, link_nodes. rewrite Hpass.
  cbn [mbind Result_bind]. cbn zeta. split; [|apply shared_pass_node_list].
  unfold G0. by rewrite (shared_pass_node_list taxonomy posts_by_cluster cluster_stats).
Qed.

(** Without nodes the connectivity test of line 182 raises. *)
Lemma build_graph_null :
  add_nodes taxonomy posts_by_cluster cluster_stats = Ok G0 →
  node_list D = [] →
  build_graph taxonomy posts_by_cluster cluster_stats = Raise NetworkXPointlessConcept.
Proof.
  intros Hpass Hnull. rewrite (proj1 (build_graph_unfold Hpass)). unfold needs_repair.
  by rewrite (is_connected_null D Hnull).
Qed.

(** With nodes, [build_graph] returns: the graph of the first loop when that
    one is connected or has a single node, else the result of one repair
    pass over it. *)
Lemma build_graph_returns :
  node_list D ≠ [] →
  ∃ b, is_connected D = Ok b ∧ (b = true ↔ connected D)
       ∧ needs_repair D = Ok (negb b && (1 <? len (node_list D)))
       ∧ build_graph taxonomy posts_by_cluster cluster_stats
         = Ok (if negb b && (1 <? len (node_list D))
               then similarity_pass (node_list D) D else D).
Proof.
  intros Hnodes.
  destruct (is_connected_spec D (direct_graph_NoDup _ _ _) Hnodes) as (b & Hb & Hconn).
  exists b. split_and!; [done | done | |].
  - unfold needs_repair. by rewrite Hb.
  - destruct (direct_graph_cases taxonomy posts_by_cluster cluster_stats)
      as [[Hpass _]|[_ Hnull]]; [|fold D in Hnull; by rewrite Hnull in Hnodes].
    rewrite (proj1 (build_graph_unfold Hpass)). unfold needs_repair. rewrite Hb.
    cbn zeta.
    set (G := if negb b && _ then _ else _).
    assert (node_list G ≠ []) as HG.
    { unfold G. destruct (negb b && _); [|done].
      by rewrite similarity_pass_node_list. }
    by destruct (is_connected_Ok G HG) as [b' ->].
Qed.

(** A graph is returned only when the node loop returned and added a
    node. *)
Lemma build_graph_Ok (G : Graph) :
  build_graph taxonomy posts_by_cluster cluster_stats = Ok G →
  add_nodes taxonomy posts_by_cluster cluster_stats = Ok G0 ∧ node_list D ≠ [].
Proof.
  intros HG.
  destruct (direct_graph_cases taxonomy posts_by_cluster cluster_stats)
    as [[Hpass _]|[Hraise _]].
  - split; [done |]. intros Hnull. by rewrite (build_graph_null Hpass Hnull) in HG.
  - by rewrite (proj1 (build_graph_overflow Hraise)) in HG.
Qed.

(** It is returned as soon as the node loop returned and added a node. *)
Lemma build_graph_passes :
  add_nodes taxonomy posts_by_cluster cluster_stats = Ok G0 → node_list G0 ≠ [] →
  ∃ G, build_graph taxonomy posts_by_cluster cluster_stats = Ok G.
Proof.
  intros Hpass Hnodes. destruct (build_graph_unfold Hpass) as [_ Hlist].
  destruct build_graph_returns as (b & _ & _ & _ & Hret); [by rewrite Hlist | eauto].
Qed.

Lemma build_graph_direct_nodes (G : Graph) :
  build_graph taxonomy posts_by_cluster cluster_stats = Ok G →
  node_list D = node_list G0.
Proof. intros HG. apply direct_graph_node_list. by destruct (build_graph_Ok G HG). Qed.

(** The nodes of a returned graph are those of the node loop. *)
Lemma build_graph_nodes (G : Graph) :
  build_graph taxonomy posts_by_cluster cluster_stats = Ok G →
  nodes G = nodes G0 ∧ node_list G ≠ [] ∧ NoDup (node_list G).
Proof.
  intros HG. destruct (build_graph_Ok G HG) as [_ Hnodes].
  destruct (build_graph_returns Hnodes) as (b & _ & _ & _ & Hret).
  rewrite Hret in HG. injection HG as <-.
  assert (nodes (if negb b && (1 <? len (node_list D))
                 then similarity_pass (node_list D) D else D) = nodes D) as Heq.
  { destruct (negb b && _); [apply similarity_pass_nodes | done]. }
  assert (node_list (if negb b && (1 <? len (node_list D))
                     then similarity_pass (node_list D) D else D) = node_list D) as Heq'.
  { destruct (negb b && _); [apply similarity_pass_node_list | done]. }
  rewrite Heq, Heq'. split_and!; [by apply direct_graph_nodes | done |].
  apply direct_graph_NoDup.
Qed.

(** The edges of a returned graph: the edges of the first loop, kept as
    they are, and similarity edges between nodes that had none. *)
Lemma build_graph_edges (G : Graph) (k : Z * Z) (e : EdgeAttr) :
  build_graph taxonomy posts_by_cluster cluster_stats = Ok G →
  adj G !! k = Some e →
  (adj D !! k = Some e)
  ∨ (adj D !! k = None
     ∧ ∃ u v, before (node_list D) u v ∧ k = edge_key u v
              ∧ e = similarity_attr
                      (Binary64.similarity (avg_of (nodes D) u) (avg_of (nodes D) v))).
Proof.
  intros HG He. destruct (build_graph_Ok G HG) as [_ Hnodes].
  destruct (build_graph_returns Hnodes) as (b & _ & _ & _ & Hret).
  rewrite Hret in HG. injection HG as <-.
  destruct (negb b && _); [|by left].
  destruct (adj D !! k) as [e'|] eqn:Hold.
  - left. by rewrite (similarity_pass_keeps D (direct_graph_NoDup _ _ _) k e' Hold) in He.
  - right. split; [done |].
    destruct (similarity_pass_new D (direct_graph_NoDup _ _ _) k e Hold He)
      as (u & v & Hbefore & -> & _ & ->).
    by exists u, v.
Qed.

Lemma build_graph_keeps (G : Graph) (k : Z * Z) (e : EdgeAttr) :
  build_graph taxonomy posts_by_cluster cluster_stats = Ok G →
  adj D !! k = Some e → adj G !! k = Some e.
Proof.
  intros HG He. destruct (build_graph_Ok G HG) as [_ Hnodes].
  destruct (build_graph_returns Hnodes) as (b & _ & _ & _ & Hret).
  rewrite Hret in HG. injection HG as <-.
  destruct (negb b && _); [|done].
  by apply similarity_pass_keeps; [apply direct_graph_NoDup |].
Qed.

End BuildGraphCases.

(** ** Doubles *)

Section Doubles.

Let prec := Binary64.prec.
Let emax := Binary64.emax.

Lemma shr_1_nonneg (mrs : shr_record) : 0 ≤ shr_m mrs → 0 ≤ shr_m (shr_1 mrs).
Proof.
  destruct mrs as [m r s]. destruct m as [|p|p]; cbn; [done | | lia].
  intros _. destruct p; cbn; lia.
Qed.

Lemma iter_pos_invariant {A} (P : A → Prop) (f : A → A) (n : positive) (x : A) :
  (∀ y, P y → P (f y)) → P x → P (SpecFloat.iter_pos f n x).
Proof.
  intros Hf. revert x. induction n as [n IH|n IH|]; intros x Hx; cbn; auto.
Qed.

Lemma shr_fexp_nonneg (m e : Z) (l : location) :
  0 ≤ m → 0 ≤ shr_m (shr_fexp prec emax m e l).1.
Proof.
  intros Hm. unfold shr_fexp, shr.
  assert (0 ≤ shr_m (shr_record_of_loc m l)) as Hstart by (by destruct l as [|[]]).
  destruct (fexp prec emax (Zdigits2 m + e) - e) as [|n|n]; cbn [fst]; [done | | done].
  by apply iter_pos_invariant; [apply shr_1_nonneg |].
Qed.

Lemma round_nearest_even_nonneg (m : Z) (l : location) :
  0 ≤ m → 0 ≤ round_nearest_even m l.
Proof. intros Hm. destruct l as [|[]]; cbn; [done | | done | lia]. destruct (Z.even m); lia. Qed.

Lemma binary_round_aux_not_nan (sx : bool) (mx ex : Z) (lx : location) :
  0 ≤ mx → binary_round_aux prec emax sx mx ex lx ≠ S754_nan.
Proof.
  intros Hm. unfold binary_round_aux.
  pose proof (shr_fexp_nonneg mx ex lx Hm) as H1.
  destruct (shr_fexp prec emax mx ex lx) as [mrs' e']. cbn [fst] in H1.
  pose proof (shr_fexp_nonneg (round_nearest_even (shr_m mrs') (loc_of_shr_record mrs')) e'
                loc_Exact (round_nearest_even_nonneg _ _ H1)) as H2.
  destruct (shr_fexp prec emax _ e' loc_Exact) as [mrs'' e'']. cbn [fst] in H2.
  destruct (shr_m mrs'') as [|m|m]; [done | by destruct (_ <=? _) | lia].
Qed.

(** The sign of a rounded number is the one given. *)
Lemma binary_round_aux_abs (sx sy : bool) (mx ex : Z) (lx : location) :
  SFabs (binary_round_aux prec emax sx mx ex lx)
  = SFabs (binary_round_aux prec emax sy mx ex lx).
Proof.
  unfold binary_round_aux.
  destruct (shr_fexp prec emax mx ex lx) as [mrs' e'].
  destruct (shr_fexp prec emax _ e' loc_Exact) as [mrs'' e''].
  destruct (shr_m mrs'') as [|m|m]; [done | by destruct (_ <=? _) | done].
Qed.

Lemma binary_normalize_abs (m e : Z) :
  SFabs (binary_normalize prec emax m e false)
  = SFabs (binary_normalize prec emax (- m) e false).
Proof.
  destruct m as [|p|p]; [done | |].
  - change (- Z.pos p) with (Z.neg p). unfold binary_normalize, binary_round.
    destruct (shl_align _ _ _). apply binary_round_aux_abs.
  - change (- Z.neg p) with (Z.pos p). unfold binary_normalize, binary_round.
    destruct (shl_align _ _ _). apply binary_round_aux_abs.
Qed.

(** [abs(x - y)] is [abs(y - x)]. *)
Lemma abs_sub_sym (x y : spec_float) :
  SFabs (Binary64.sub x y) = SFabs (Binary64.sub y x).
Proof.
  unfold Binary64.sub, SFsub.
  destruct x as [sx|sx| |sx mx ex], y as [sy|sy| |sy my ey]; try done;
    try (by destruct sx, sy).
  rewrite (Z.min_comm ey ex). fold prec emax. rewrite binary_normalize_abs.
  f_equal. f_equal. lia.
Qed.

Lemma SFcompare_antisym (x y : spec_float) :
  SFcompare y x = CompOpp <$> SFcompare x y.
Proof.
  destruct x as [sx|sx| |sx mx ex], y as [sy|sy| |sy my ey]; try done;
    try (by destruct sx); try (by destruct sy); try (by destruct sx, sy).
  cbn [SFcompare fmap option_fmap option_map]. f_equal.
  rewrite (Z.compare_antisym ex ey).
  pose proof (Pos.compare_cont_antisym mx my Eq) as Hm. cbn [CompOpp] in Hm.
  destruct sx, sy; try done; destruct (ex ?= ey); cbn [CompOpp]; try done;
    by rewrite <-Hm, ?CompOpp_involutive.
Qed.

(** Two numbers that compare equal are the same, up to the sign of zero. *)
Lemma SFcompare_Eq (x y : spec_float) :
  SFcompare x y = Some Eq → x = y ∨ ∃ sx sy, x = S754_zero sx ∧ y = S754_zero sy.
Proof.
  destruct x as [sx|sx| |sx mx ex], y as [sy|sy| |sy my ey]; try done;
    try (by destruct sx); try (by destruct sy).
  - right. eauto.
  - destruct sx, sy; try done; by left.
  - cbn. destruct sx, sy; try done; destruct (ex ?= ey) eqn:He; try done;
      apply Z.compare_eq in He as ->; intros [= Hm]; left; f_equal.
    + apply Pos.compare_eq. fold (Pos.compare mx my) in Hm. by destruct (mx ?= my)%positive.
    + by apply Pos.compare_eq.
Qed.

(** [max(a, b, 1)] is [max(b, a, 1)] when neither is a NaN. *)
Lemma max_of_three_sym (a b : spec_float) :
  a ≠ S754_nan → b ≠ S754_nan →
  Binary64.max_of_three a b (Binary64.of_int 1)
  = Binary64.max_of_three b a (Binary64.of_int 1).
Proof.
  intros Ha Hb. unfold Binary64.max_of_three, Binary64.gtb, SFltb.
  rewrite (SFcompare_antisym a b).
  destruct (SFcompare a b) as [[| |]|] eqn:Hab; cbn [fmap option_fmap option_map CompOpp];
    try done.
  - apply SFcompare_Eq in Hab as [->|(sx & sy & -> & ->)]; [done |].
    by destruct sx, sy.
  - by destruct a, b.
Qed.

Lemma similarity_sym (a b : spec_float) :
  a ≠ S754_nan → b ≠ S754_nan → Binary64.similarity a b = Binary64.similarity b a.
Proof.
  intros Ha Hb. unfold Binary64.similarity. cbn zeta.
  by rewrite abs_sub_sym, max_of_three_sym.
Qed.

Lemma div_finite_not_nan (sx sy : bool) (mx my : positive) (ex ey : Z) :
  Binary64.div (S754_finite sx mx ex) (S754_finite sy my ey) ≠ S754_nan.
Proof.
  unfold Binary64.div, SFdiv, SFdiv_core_binary. cbn zeta.
  set (shift := ex - ey - _).
  set (m' := match shift with Z.pos _ => Z.shiftl (Z.pos mx) shift | 0 => Z.pos mx | _ => 0 end).
  assert (0 ≤ m') as Hm.
  { unfold m'. destruct shift; [done | by apply Z.shiftl_nonneg | done]. }
  pose proof (Z.div_pos m' (Z.pos my) Hm) as Hq. unfold Z.div in Hq.
  destruct (Z.div_eucl m' (Z.pos my)) as [q r]. cbn [fst] in Hq.
  apply binary_round_aux_not_nan, Hq. done.
Qed.

(** A quotient of integers is a double or raises: it is no NaN and no
    infinity. *)
Lemma true_div_finite (a b : Z) (q : spec_float) :
  Binary64.true_div a b = Ok q →
  q ≠ S754_nan ∧ ∀ s, q ≠ S754_infinity s.
Proof.
  unfold Binary64.true_div. destruct (b =? 0) eqn:Hb; [done |].
  apply Z.eqb_neq in Hb.
  assert (Binary64.div (Binary64.exact a) (Binary64.exact b) ≠ S754_nan) as Hnan.
  { destruct a as [|ma|ma], b as [|mb|mb]; try done; apply div_finite_not_nan. }
  destruct (Binary64.div _ _) as [s|s| |s m e]; intros [= <-]; done.
Qed.

End Doubles.


(** ** Numbers *)

Lemma Qc_gtb_lt (x y : Qc) : Qc_gtb x y = true ↔ (y < x)%Qc.
Proof.
  unfold Qc_gtb. rewrite (Qcgt_alt x y).
  destruct (x ?= y)%Qc; split; congruence.
Qed.

Lemma Qc_gtb_nlt (x y : Qc) : Qc_gtb x y = false ↔ ¬ (y < x)%Qc.
Proof. rewrite <-Qc_gtb_lt. by destruct (Qc_gtb x y). Qed.

(** [Qc_abs] is the absolute value and [max3] the largest of three. *)
Lemma Qc_abs_spec (x : Qc) :
  ((x < 0 → Qc_abs x = - x) ∧ (0 ≤ x → Qc_abs x = x) ∧ 0 ≤ Qc_abs x)%Qc.
Proof.
  unfold Qc_abs. destruct (Qc_gtb 0 x) eqn:Hx.
  - apply Qc_gtb_lt in Hx. split_and!; [done | |].
    + intros Hle. by apply Qcle_not_lt in Hle.
    + apply Qclt_minus_iff in Hx. rewrite Qcplus_0_l in Hx. by apply Qclt_le_weak.
  - apply Qc_gtb_nlt, Qcnot_lt_le in Hx. split_and!; [|done | done].
    intros Hlt. by apply Qcle_not_lt in Hx.
Qed.

Lemma max3_spec (a b c : Qc) :
  (a ≤ max3 a b c ∧ b ≤ max3 a b c ∧ c ≤ max3 a b c
   ∧ (max3 a b c = a ∨ max3 a b c = b ∨ max3 a b c = c))%Qc.
Proof.
  unfold max3. cbn zeta.
  destruct (Qc_gtb b a) eqn:Hba;
    [apply Qc_gtb_lt in Hba | apply Qc_gtb_nlt, Qcnot_lt_le in Hba].
  - destruct (Qc_gtb c b) eqn:Hcb;
      [apply Qc_gtb_lt in Hcb | apply Qc_gtb_nlt, Qcnot_lt_le in Hcb].
    + split_and!; [| by apply Qclt_le_weak | apply Qcle_refl | auto].
      apply Qclt_le_weak. by eapply Qclt_trans.
    + split_and!; [by apply Qclt_le_weak | apply Qcle_refl | done | auto].
  - destruct (Qc_gtb c a) eqn:Hca;
      [apply Qc_gtb_lt in Hca | apply Qc_gtb_nlt, Qcnot_lt_le in Hca].
    + split_and!; [by apply Qclt_le_weak | | apply Qcle_refl | auto].
      eapply Qcle_trans; [done | by apply Qclt_le_weak].
    + split_and!; [apply Qcle_refl | done | done | auto].
Qed.

Lemma Qc_abs_minus_sym (a b : Qc) : Qc_abs (a - b) = Qc_abs (b - a).
Proof.
  destruct (Qc_abs_spec (a - b)) as (Hneg & Hpos & _).
  destruct (Qc_abs_spec (b - a)) as (Hneg' & Hpos' & _).
  destruct (Qclt_le_dec (a - b) 0) as [Hlt|Hle].
  - rewrite (Hneg Hlt). rewrite Hpos'; [ring |].
    apply Qclt_le_weak. apply Qclt_minus_iff in Hlt.
    by replace (0 + - (a - b))%Qc with (b - a)%Qc in Hlt by ring.
  - rewrite (Hpos Hle). destruct (Qclt_le_dec (b - a) 0) as [Hlt'|Hle'].
    + rewrite (Hneg' Hlt'). ring.
    + rewrite (Hpos' Hle').
      apply (Qcle_minus_iff a b) in Hle'. apply (Qcle_minus_iff b a) in Hle.
      by rewrite (Qcle_antisym a b Hle' Hle).
Qed.

Lemma max3_sym (a b c : Qc) : max3 a b c = max3 b a c.
Proof.
  unfold max3. cbn zeta.
  destruct (Qc_gtb b a) eqn:Hba, (Qc_gtb a b) eqn:Hab; try done.
  - apply Qc_gtb_lt in Hba, Hab. by destruct (Qclt_not_eq a a (Qclt_trans _ _ _ Hba Hab)).
  - apply Qc_gtb_nlt, Qcnot_lt_le in Hba, Hab.
    by rewrite (Qcle_antisym a b Hab Hba).
Qed.

Lemma similarity_of_sym (a b : Qc) : similarity_of a b = similarity_of b a.
Proof. unfold similarity_of. cbn zeta. by rewrite Qc_abs_minus_sym, max3_sym. Qed.

(** ** The claims about [build_graph] *)

(** C1: the claim holds in the specification but not in the code. With no
    category that qualifies for a node, the connectivity test of line 182 is
    evaluated before the guard on the number of nodes and raises
    [NetworkXPointlessConcept]: [build_graph] does not return the empty
    graph. This is so for the empty taxonomy, for a file without rows, and
    for a taxonomy none of whose categories has posts. *)
Theorem build_graph_raises_on_null_graph :
  build_graph [] ∅ ∅ = Raise NetworkXPointlessConcept
  ∧ analyse [] = Raise NetworkXPointlessConcept
  ∧ build_graph [(1, "Tops"); (2, "Skirts")] ∅ ∅ = Raise NetworkXPointlessConcept
  ∧ (∀ taxonomy posts_by_cluster cluster_stats,
       (∀ c, c ∈ dict_keys taxonomy → posts_by_cluster !! c = None) →
       build_graph taxonomy posts_by_cluster cluster_stats = Raise NetworkXPointlessConcept).
Proof.
  assert (∀ taxonomy posts_by_cluster cluster_stats,
            (∀ c, c ∈ dict_keys taxonomy → posts_by_cluster !! c = None) →
            build_graph taxonomy posts_by_cluster cluster_stats
            = Raise NetworkXPointlessConcept) as Hnull.
  { intros taxonomy posts_by_cluster cluster_stats Hnone.
    destruct (add_nodes_cases taxonomy posts_by_cluster cluster_stats)
      as [[Hpass _]|(_ & c & Hc & [l Hl] & _)]; [|by rewrite (Hnone c Hc) in Hl].
    apply (build_graph_null _ _ _ Hpass).
    destruct (node_list (direct_graph taxonomy posts_by_cluster cluster_stats))
      as [|c l] eqn:Hl; [done |].
    rewrite direct_graph_node_list in Hl by (by rewrite Hl).
    assert (c ∈ node_list (node_graph taxonomy posts_by_cluster cluster_stats)) as Hc
      by (rewrite Hl; by left).
    apply add_nodes_elem in Hc as [Hc [l' Hposts]]. by rewrite (Hnone c Hc) in Hposts. }
  split_and!; [by vm_compute | by vm_compute | by vm_compute | done].
Qed.

(** C7, as stated, fails. A category of the taxonomy with a post of 10^400
    likes gets no node, because no graph is built: the division of line 144
    raises [OverflowError]. And when no category of the taxonomy has posts,
    the categories are not omitted "without error": [build_graph] raises (the
    defect of C1). *)
Lemma nodes_are_categories_counterexample :
  (1 ∈ dict_keys (taxonomy (create_network_graph overflow_rows))
   ∧ posts_of (posts_by_cluster (create_network_graph overflow_rows)) 1 = [1]
   ∧ analyse overflow_rows = Raise OverflowError)
  ∧ (dict_keys (taxonomy (create_network_graph no_category_rows)) = [1; 2; 3]
     ∧ posts_by_cluster (create_network_graph no_category_rows) = ∅
     ∧ analyse no_category_rows = Raise NetworkXPointlessConcept).
Proof.
  split_and!; try (by vm_compute).
  apply (bool_decide_unpack (1 ∈ dict_keys (taxonomy (create_network_graph overflow_rows)))).
  by vm_compute.
Qed.


(** C4: in a built graph, two distinct nodes whose member-post sets meet
    are joined by one edge (the same under both orders of the pair) whose
    weight is the size of the intersection and whose shared-post list holds
    exactly the posts of the intersection, each once; two nodes whose sets do
    not meet have no edge with a shared-post payload. *)
Theorem shared_post_edges (taxonomy : dict Z string) (posts_by_cluster : gmap Z (list Z))
    (cluster_stats : gmap Z Stats) (G : Graph) (u v : Z) (nu nv : NodeAttr) :
  build_graph taxonomy posts_by_cluster cluster_stats = Ok G →
  dict_get u (nodes G) = Some nu → dict_get v (nodes G) = Some nv → u ≠ v →
  let shared : gset Z := list_to_set (posts nu) ∩ list_to_set (posts nv) in
  (shared ≠ ∅ →
     adj G !! edge_key u v
     = Some {| weight := Some (Qc_of_Z (Z.of_nat (size shared)));
               shared_posts := Some (elements shared);
               similarity := None; edge_type := None |}
     ∧ adj G !! edge_key v u = adj G !! edge_key u v
     ∧ list_to_set (elements shared) = shared
     ∧ NoDup (elements shared)
     ∧ length (elements shared) = size shared)
  ∧ (shared = ∅ → ∀ e, adj G !! edge_key u v = Some e → shared_posts e = None).
Proof.
  intros HG Hu Hv Hne shared.
  destruct (build_graph_nodes _ _ _ G HG) as (Hnodes & _ & _).
  assert (u ∈ node_list (direct_graph taxonomy posts_by_cluster cluster_stats)) as Hun.
  { rewrite (build_graph_direct_nodes _ _ _ G HG).
    apply dict_get_Some_keys. rewrite <-Hnodes. eauto. }
  assert (v ∈ node_list (direct_graph taxonomy posts_by_cluster cluster_stats)) as Hvn.
  { rewrite (build_graph_direct_nodes _ _ _ G HG).
    apply dict_get_Some_keys. rewrite <-Hnodes. eauto. }
  rewrite Hnodes in Hu, Hv.
  apply add_nodes_attr in Hu as (name_u & _ & ->).
  apply add_nodes_attr in Hv as (name_v & _ & ->).
  cbn [posts node_attr] in shared.
  change shared with (shared_of posts_by_cluster u v).
  pose proof (direct_graph_pair taxonomy posts_by_cluster cluster_stats u v Hun Hvn Hne)
    as Hpair.
  split.
  - intros Hshared. rewrite bool_decide_eq_true_2 in Hpair by done.
    split_and!.
    + by apply (build_graph_keeps _ _ _ G _ _ HG).
    + by rewrite (edge_key_sym v u).
    + apply list_to_set_elements_L.
    + apply NoDup_elements.
    + done.
  - intros Hempty e He. rewrite bool_decide_eq_false_2 in Hpair by (by intros ?).
    destruct (build_graph_edges _ _ _ G _ e HG He) as [Hold|(_ & u' & v' & _ & _ & ->)].
    + by rewrite Hpair in Hold.
    + done.
Qed.

(** C4 at the categories 1 and 2 of the scenario, which share post 1. *)
Lemma shared_post_edges_witness :
  let shared : gset Z :=
    list_to_set (posts (scenario_node 1 "A")) ∩ list_to_set (posts (scenario_node 2 "B")) in
  (shared ≠ ∅ →
     adj (graph_of scenario_rows) !! edge_key 1 2
     = Some {| weight := Some (Qc_of_Z (Z.of_nat (size shared)));
               shared_posts := Some (elements shared);
               similarity := None; edge_type := None |}
     ∧ adj (graph_of scenario_rows) !! edge_key 2 1
       = adj (graph_of scenario_rows) !! edge_key 1 2
     ∧ list_to_set (elements shared) = shared
     ∧ NoDup (elements shared)
     ∧ length (elements shared) = size shared)
  ∧ (shared = ∅ →
     ∀ e, adj (graph_of scenario_rows) !! edge_key 1 2 = Some e → shared_posts e = None).
Proof.
  apply (shared_post_edges (taxonomy scenario_state) (posts_by_cluster scenario_state)
           (cluster_stats scenario_state) (graph_of scenario_rows) 1 2).
  - vm_compute. reflexivity.
  - vm_compute. reflexivity.
  - vm_compute. reflexivity.
  - lia.
Defined.

(** C8: in a built graph every edge joins two distinct nodes, the two
    orders of a pair name the same edge (so a pair has at most one), and an
    edge is either a shared-post edge, with no similarity score and no type
    tag, or a similarity edge, with no shared posts; never both. *)
Theorem edge_kinds_exclusive (taxonomy : dict Z string) (posts_by_cluster : gmap Z (list Z))
    (cluster_stats : gmap Z Stats) (G : Graph) (k : Z * Z) (e : EdgeAttr) :
  build_graph taxonomy posts_by_cluster cluster_stats = Ok G →
  adj G !! k = Some e →
  (∃ u v, u ∈ node_list G ∧ v ∈ node_list G ∧ u ≠ v
          ∧ k = edge_key u v ∧ adj G !! edge_key v u = Some e)
  ∧ ((shared_edge e ∧ ¬ similarity_edge e) ∨ (similarity_edge e ∧ ¬ shared_edge e)).
Proof.
  intros HG He.
  destruct (build_graph_nodes _ _ _ G HG) as (Hnodes & _ & _).
  assert (node_list G = node_list (direct_graph taxonomy posts_by_cluster cluster_stats))
    as Hlist
    by (rewrite (build_graph_direct_nodes _ _ _ G HG); unfold node_list; by rewrite Hnodes).
  assert (∀ u v, before (node_list G) u v → k = edge_key u v →
            ∃ u v, u ∈ node_list G ∧ v ∈ node_list G ∧ u ≠ v
                   ∧ k = edge_key u v ∧ adj G !! edge_key v u = Some e) as Hpair.
  { intros u v Hbefore ->. exists u, v.
    destruct (before_elem _ _ _ Hbefore) as [Hu Hv].
    split_and!; [done | done | | done | by rewrite (edge_key_sym v u)].
    eapply before_ne; [|done]. rewrite Hlist. apply direct_graph_NoDup. }
  destruct (build_graph_edges _ _ _ G k e HG He)
    as [Hold|(_ & u & v & Hbefore & Hk & ->)].
  - apply direct_graph_edge in Hold as (u & v & Hbefore & Hk & _ & ->).
    split; [apply (Hpair u v); [by rewrite Hlist | done] |].
    left. split; [by split_and!; cbn; eauto |]. by intros ([=] & _).
  - split; [apply (Hpair u v); [by rewrite Hlist | done] |].
    right. split; [by split_and!; cbn; eauto |]. by intros ([? [=]] & _).
Qed.

(** C8 at the edge between the categories 1 and 2 of the scenario. *)
Lemma edge_kinds_exclusive_witness :
  let e := shared_attr (shared_of (posts_by_cluster scenario_state) 1 2) in
  (∃ u v, u ∈ node_list (graph_of scenario_rows) ∧ v ∈ node_list (graph_of scenario_rows)
          ∧ u ≠ v ∧ (1, 2) = edge_key u v
          ∧ adj (graph_of scenario_rows) !! edge_key v u = Some e)
  ∧ ((shared_edge e ∧ ¬ similarity_edge e) ∨ (similarity_edge e ∧ ¬ shared_edge e)).
Proof.
  apply (edge_kinds_exclusive (taxonomy scenario_state) (posts_by_cluster scenario_state)
           (cluster_stats scenario_state) (graph_of scenario_rows) (1, 2)).
  - vm_compute. reflexivity.
  - vm_compute. reflexivity.
Defined.

(** The averages of the nodes are doubles. *)
Lemma average_value_finite (values : list Z) :
  average_value values ≠ S754_nan ∧ ∀ s, average_value values ≠ S754_infinity s.
Proof.
  unfold average_value. destruct (average values) as [q|e] eqn:Hq; [|done].
  unfold average in Hq. destruct values as [|v values].
  - by injection Hq as <-.
  - by apply true_div_finite in Hq.
Qed.

Lemma direct_graph_avg (taxonomy : dict Z string) (posts_by_cluster : gmap Z (list Z))
    (cluster_stats : gmap Z Stats) (c : Z) (n : NodeAttr) :
  dict_get c (nodes (direct_graph taxonomy posts_by_cluster cluster_stats)) = Some n →
  avg_likes n = average_value (stats_likes (stats_of cluster_stats c))
  ∧ avg_likes n ≠ S754_nan.
Proof.
  intros Hn. rewrite direct_graph_nodes in Hn.
  - apply add_nodes_attr in Hn as (name & _ & ->). cbn [avg_likes node_attr].
    split; [done | apply average_value_finite].
  - intros Hnull. unfold node_list in Hnull.
    destruct (nodes (direct_graph _ _ _)); [done | discriminate Hnull].
Qed.

(** C5, as stated, fails: the program computes in double precision. The
    categories of [boundary_rows] have no common post and average likes 77/3
    and 110/3, for which the formula without rounding gives exactly 7/10, which
    is not above 7/10; the program finds 0.7000000000000001, which is above the
    double 0.7, and adds the edge. And for averages 100 and 1000 it finds
    0.09999999999999998, which is not the double 0.1. *)
Lemma similarity_edges_counterexample :
  similarity_of (true_div 77 3) (true_div 110 3) = similarity_threshold
  ∧ Qc_gtb (similarity_of (true_div 77 3) (true_div 110 3)) similarity_threshold = false
  ∧ (∃ nu nv, dict_get 1 (nodes (direct_graph_of boundary_rows)) = Some nu
              ∧ dict_get 2 (nodes (direct_graph_of boundary_rows)) = Some nv
              ∧ total_likes nu = 77 ∧ posts_count nu = 3
              ∧ total_likes nv = 110 ∧ posts_count nv = 3)
  ∧ has_edge (direct_graph_of boundary_rows) 1 2 = false
  ∧ needs_repair (direct_graph_of boundary_rows) = Ok true
  ∧ (∃ e, adj (graph_of boundary_rows) !! edge_key 1 2 = Some e
          ∧ similarity e = Some (S754_finite false 6305039478318695 (-53))
          ∧ Binary64.threshold = S754_finite false 6305039478318694 (-53))
  ∧ Binary64.similarity (Binary64.of_int 100) (Binary64.of_int 1000)
    ≠ Binary64.div (Binary64.of_int 1) (Binary64.of_int 10).
Proof.
  split_and!.
  - by apply Qc_is_canon.
  - by vm_compute.
  - eexists _, _. split_and!; [vm_compute; reflexivity | vm_compute; reflexivity | ..];
      by vm_compute.
  - by vm_compute.
  - by vm_compute.
  - eexists. split; [vm_compute; reflexivity |]. split; by vm_compute.
  - by vm_compute.
Qed.



(** The repair pass does add an edge between similar categories: averages
    100 and 90 give similarity 0.9. *)
Example similar_rows_edge :
  ∃ e, adj (graph_of similar_rows) !! edge_key 1 2 = Some e
       ∧ similarity e = Some (S754_finite false 8106479329266893 (-53))
       ∧ weight e = Some (Q2Qc (1 # 2))
       ∧ shared_posts e = None ∧ edge_type e = Some "similarity".
Proof.
  eexists. split; [vm_compute; reflexivity |]. cbn.
  split_and!; try done; f_equal; by apply Qc_is_canon.
Qed.

(** The scenario of the specification: the repair pass runs and the
    returned graph is still disconnected. *)
Lemma scenario_still_disconnected :
  analyse scenario_rows = Ok (graph_of scenario_rows)
  ∧ needs_repair (direct_graph_of scenario_rows) = Ok true
  ∧ ¬ connected (graph_of scenario_rows).
Proof.
  assert (build_graph (taxonomy scenario_state) (posts_by_cluster scenario_state)
            (cluster_stats scenario_state) = Ok (graph_of scenario_rows)) as HG
    by (vm_compute; reflexivity).
  split_and!; [exact HG | vm_compute; reflexivity |].
  intros Hc.
  destruct (build_graph_nodes (taxonomy scenario_state) (posts_by_cluster scenario_state)
              (cluster_stats scenario_state) (graph_of scenario_rows) HG)
    as (_ & Hne & Hnd).
  destruct (is_connected_spec (graph_of scenario_rows) Hnd Hne) as (b & Hb & Hconn).
  assert (is_connected (graph_of scenario_rows) = Ok false) as Hfalse
    by (vm_compute; reflexivity).
  apply Hconn in Hc. subst b. rewrite Hfalse in Hb. discriminate Hb.
Qed.

(** C6: the repair pass runs iff the graph of the first loop has more than
    one node and is not connected. [build_graph] then returns the result of
    ONE pass over that graph, with no further test on it; otherwise it returns
    the graph of the first loop unchanged, so a graph that is connected after
    the first loop gets no similarity edge. The returned graph may still be
    disconnected, as it is for the scenario of the specification. *)
Theorem repair_runs_once (taxonomy : dict Z string) (posts_by_cluster : gmap Z (list Z))
    (cluster_stats : gmap Z Stats) :
  let D := direct_graph taxonomy posts_by_cluster cluster_stats in
  (needs_repair D = Ok true ↔ (1 < number_of_nodes D)%nat ∧ ¬ connected D)
  ∧ (needs_repair D = Ok true →
     build_graph taxonomy posts_by_cluster cluster_stats
     = Ok (similarity_pass (node_list D) D))
  ∧ (needs_repair D = Ok false →
     build_graph taxonomy posts_by_cluster cluster_stats = Ok D)
  ∧ (node_list D ≠ [] → connected D →
     build_graph taxonomy posts_by_cluster cluster_stats = Ok D
     ∧ ∀ k e, adj D !! k = Some e → shared_edge e)
  ∧ (∃ rows G,
       analyse rows = Ok G
       ∧ needs_repair (direct_graph_of rows) = Ok true
       ∧ ¬ connected G).
Proof.
  intros D.
  assert (len (node_list D) = Z.of_nat (number_of_nodes D)) as Hlen.
  { unfold len, number_of_nodes, node_list, dict_keys. by rewrite length_map. }
  assert (node_list D = [] → number_of_nodes D = 0%nat) as Hzero.
  { intros Hnull. rewrite Hnull in Hlen. unfold len in Hlen. cbn [length] in Hlen. lia. }
  assert (node_list D ≠ [] →
          ∃ b, (b = true ↔ connected D)
               ∧ needs_repair D = Ok (negb b && (1 <? Z.of_nat (number_of_nodes D)))
               ∧ build_graph taxonomy posts_by_cluster cluster_stats
                 = Ok (if negb b && (1 <? Z.of_nat (number_of_nodes D))
                       then similarity_pass (node_list D) D else D)) as Hret.
  { intros Hnodes.
    destruct (build_graph_returns taxonomy posts_by_cluster cluster_stats Hnodes)
      as (b & _ & Hconn & Hneeds & Hret).
    fold D in Hconn, Hneeds, Hret. rewrite Hlen in Hneeds, Hret. by exists b. }
  split_and!.
  - destruct (decide (node_list D = [])) as [Hnull|Hnodes].
    + unfold needs_repair. rewrite (is_connected_null D Hnull), (Hzero Hnull).
      split; [done | intros [? _]; lia].
    + destruct (Hret Hnodes) as (b & Hconn & -> & _). split.
      * intros [= [Hb Hn]%andb_prop]. split; [apply Z.ltb_lt in Hn; lia |].
        intros Hc. apply Hconn in Hc. by subst b.
      * intros [Hn Hc]. f_equal. apply andb_true_intro. split.
        -- destruct b; [|done]. destruct Hc. by apply Hconn.
        -- apply Z.ltb_lt. lia.
  - intros Hneeds. destruct (decide (node_list D = [])) as [Hnull|Hnodes].
    + unfold needs_repair in Hneeds. by rewrite (is_connected_null D Hnull) in Hneeds.
    + destruct (Hret Hnodes) as (b & _ & Hneeds' & ->).
      rewrite Hneeds' in Hneeds. injection Hneeds as ->. done.
  - intros Hneeds. destruct (decide (node_list D = [])) as [Hnull|Hnodes].
    + unfold needs_repair in Hneeds. by rewrite (is_connected_null D Hnull) in Hneeds.
    + destruct (Hret Hnodes) as (b & _ & Hneeds' & ->).
      rewrite Hneeds' in Hneeds. injection Hneeds as ->. done.
  - intros Hnodes Hc. destruct (Hret Hnodes) as (b & Hconn & _ & ->).
    apply Hconn in Hc. subst b. split; [done |].
    intros k e He. apply direct_graph_edge in He as (u & v & _ & _ & _ & ->).
    split_and!; cbn; eauto.
  - exists scenario_rows, (graph_of scenario_rows). apply scenario_still_disconnected.
Qed.

(** ** Repeated post numbers *)

Lemma filter_eq_once (c : Z) (l : list Z) :
  NoDup l → c ∈ l → filter (λ x, x = c) l = [c].
Proof.
  induction l as [|x l IH]; intros Hnd Hin; [by apply elem_of_nil in Hin |].
  apply NoDup_cons in Hnd as [Hx Hnd]. rewrite filter_cons.
  destruct (decide (x = c)) as [->|Hne].
  - f_equal. clear IH Hin Hnd. induction l as [|y l IH]; [done |].
    rewrite filter_cons. rewrite decide_False.
    + apply IH. intros Hc. apply Hx. by right.
    + intros ->. apply Hx. by left.
  - apply elem_of_cons in Hin as [->|Hin]; [done | by apply IH].
Qed.

(** C10, as stated, fails: the row loop appends once for each occurrence
    of the category in the category list of a row, not once per row. In
    [doubled_rows] post 7 is on two parsed rows of category 2, the first of
    which reads "2,2": the accumulator of category 2 gets post 7 three times,
    and the node counts 3 posts and 70 likes for these two rows. *)
Lemma repeated_posts_accumulate_counterexample :
  omap row_numbers doubled_rows = [(1, 10, 1); (7, 20, 2); (7, 30, 3)]
  ∧ omap row_clusters doubled_rows = [[1]; [2; 2]; [2]]
  ∧ posts_of (posts_by_cluster (create_network_graph doubled_rows)) 2 = [7; 7; 7]
  ∧ stats_likes (stats_of (cluster_stats (create_network_graph doubled_rows)) 2)
    = [20; 20; 30]
  ∧ (∃ G n, analyse doubled_rows = Ok G ∧ dict_get 2 (nodes G) = Some n
            ∧ posts_count n = 3 ∧ total_likes n = 70 ∧ total_hashtags n = 7)
  ∧ post_likes <$> post_data (create_network_graph doubled_rows) !! 7 = Some 30.
Proof.
  split_and!; [by vm_compute | by vm_compute | by vm_compute | by vm_compute | |
               by vm_compute].
  eexists _, _. split; [vm_compute; reflexivity |]. split; [vm_compute; reflexivity |].
  by vm_compute.
Qed.


(** Post 7 on two rows of category 2: the node counts three rows and sums
    the likes of all of them, the post-record map keeps the second row of
    post 7. *)
Example repeated_post_example :
  posts_of (posts_by_cluster (create_network_graph repeated_rows)) 2 = [1; 7; 7]
  ∧ (∃ n, dict_get 2 (nodes (graph_of repeated_rows)) = Some n
          ∧ posts_count n = 3 ∧ total_likes n = 60 ∧ total_hashtags n = 6)
  ∧ post_likes <$> post_data (create_network_graph repeated_rows) !! 7 = Some 30.
Proof.
  split_and!; [by vm_compute | | by vm_compute].
  eexists. split; [vm_compute; reflexivity | done].
Qed.

(** ** The boundary cases in binary64

    With rounding, two averages 0 give similarity exactly 1, above the
    threshold; averages 100 and 1000 give the double just below 1/10
    (0.09999999999999998, printed as 0.10), below the threshold: the same
    decisions as with exact numbers. *)
Example binary64_boundaries :
  Binary64.similarity (Binary64.of_int 0) (Binary64.of_int 0) = Binary64.of_int 1
  ∧ Binary64.gtb (Binary64.similarity (Binary64.of_int 0) (Binary64.of_int 0))
      Binary64.threshold = true
  ∧ Binary64.similarity (Binary64.of_int 100) (Binary64.of_int 1000)
    = S754_finite false 7205759403792792 (-56)
  ∧ Binary64.gtb (Binary64.similarity (Binary64.of_int 100) (Binary64.of_int 1000))
      Binary64.threshold = false.
Proof. by vm_compute. Qed.

(** * Further properties of the row loop *)

Lemma fold_add_to_cluster_stats (post_num likes hashtags_count : Z) (clusters : list Z)
    (st : Ingest) :
  cluster_stats (fold_left (add_to_cluster post_num likes hashtags_count) clusters st)
  = append_stats post_num likes hashtags_count clusters (cluster_stats st).
Proof.
  unfold append_stats. revert st. induction clusters as [|c cs IH]; intros st; [done |].
  cbn [fold_left]. by rewrite IH.
Qed.

Lemma ingest_row_stats (st : Ingest) (row : Row) :
  cluster_stats (ingest_row st row)
  = match row_numbers row, row_clusters row with
    | Some (post_num, likes, hashtags_count), Some clusters =>
        append_stats post_num likes hashtags_count clusters (cluster_stats st)
    | _, _ => cluster_stats st
    end.
Proof.
  unfold ingest_row, row_numbers, row_clusters. cbn zeta.
  destruct (PyStr.int (row_post_number row)) as [post_num|]; cbn [mbind option_bind]; [|done].
  destruct (PyStr.int (row_likes row)) as [likes|]; cbn [mbind option_bind]; [|done].
  destruct (PyStr.int (row_number_of_hashtags row)) as [hashtags_count|];
    cbn [mbind option_bind]; [|done].
  match goal with |- context [store_post row post_num likes hashtags_count ?s] =>
    destruct (store_post_effect row post_num likes hashtags_count s)
      as (_ & _ & _ & _ & Hstats);
    set (st1 := store_post row post_num likes hashtags_count s) in * end.
  cbn [say cluster_stats] in Hstats.
  destruct (PyStr.contains "," (PyStr.strip (row_types_of_patterns row))).
  - pose proof (parse_parts_clusters post_num
                  (PyStr.split "," (PyStr.strip (row_types_of_patterns row)))) as Hcs.
    destruct (parse_parts _ _) as [clusters warnings]. cbn [fst] in Hcs. rewrite <-Hcs.
    rewrite fold_say. unfold record_clusters. cbn zeta.
    rewrite fold_add_to_cluster_stats. cbn [cluster_stats]. by rewrite Hstats.
  - destruct (PyStr.int (PyStr.strip (row_types_of_patterns row))) as [c0|];
      cbn [fmap option_fmap option_map].
    + unfold record_clusters. cbn zeta.
      rewrite fold_add_to_cluster_stats. cbn [cluster_stats]. by rewrite Hstats.
    + cbn [say cluster_stats]. by rewrite Hstats.
Qed.

(** The containers after a row are a function of the containers before it
    and of the row: nothing of what the loop counts or prints enters them. *)
Lemma ingest_row_containers (st : Ingest) (row : Row) :
  containers (ingest_row st row) = store_row (containers st) row.
Proof.
  unfold containers, store_row.
  destruct (ingest_row_effect st row) as (Htax & _ & Hpd & Hpbc & _).
  rewrite Htax, Hpd, Hpbc, ingest_row_stats.
  unfold parses_taxonomy, stored_post.
  destruct (row_numbers row) as [[[post_num likes] hashtags_count]|]; [|done].
  cbn [mbind option_bind]. by destruct (row_clusters row).
Qed.

Lemma rows_containers (rows : list Row) (st : Ingest) :
  containers (fold_left ingest_row rows st) = fold_left store_row rows (containers st).
Proof.
  revert st. induction rows as [|row rows IH]; intros st; [done |].
  cbn [fold_left]. by rewrite IH, ingest_row_containers.
Qed.

Lemma store_row_skip (cs : Containers) (row : Row) :
  row_numbers row = None → store_row cs row = cs.
Proof. intros Hrow. unfold store_row. destruct cs as [[[? ?] ?] ?]. by rewrite Hrow. Qed.

Lemma complete_rows_same (rows : list Row) :
  let kept := filter (λ row, is_Some (row_numbers row)) rows in
  containers (create_network_graph rows) = containers (create_network_graph kept)
  ∧ analyse rows = analyse kept.
Proof.
  cbn zeta.
  assert (containers (create_network_graph rows)
          = containers (create_network_graph
                          (filter (λ row, is_Some (row_numbers row)) rows))) as Hsame.
  { unfold create_network_graph. rewrite !rows_containers.
    generalize (containers ingest_init).
    induction rows as [|row rows IH]; intros cs; [done |].
    rewrite filter_cons. destruct (decide (is_Some (row_numbers row))) as [Hrow|Hrow].
    - cbn [fold_left]. apply IH.
    - cbn [fold_left]. rewrite store_row_skip; [apply IH |].
      by apply eq_None_not_Some. }
  split; [done |]. unfold analyse. cbn zeta.
  unfold containers in Hsame. injection Hsame as -> -> -> _. done.
Qed.

(** ** Rows that are not complete *)

Lemma read_row_handled (cs : RawContainers) (raw : RawRow) :
  handled raw = true → read_row cs raw = Ok cs.
Proof.
  unfold handled, read_row. destruct cs as [[[tax pbc] stats] pd].
  by destruct (row_fields raw).
Qed.

Lemma read_row_short (cs : RawContainers) (raw : RawRow) :
  short raw = true → ∃ e, read_row cs raw = Raise e.
Proof.
  unfold short, read_row. destruct cs as [[[tax pbc] stats] pd].
  destruct (row_fields raw) as [fields| |e]; [done | done |]. eauto.
Qed.

Lemma read_rows_raise (raws : list RawRow) (e : exn) :
  fold_left (λ acc raw, cs ← acc; read_row cs raw) raws (Raise e) = Raise e.
Proof. by induction raws. Qed.

Lemma read_rows_kept (raws : list RawRow) (acc : Result RawContainers) :
  fold_left (λ acc raw, cs ← acc; read_row cs raw) raws acc
  = fold_left (λ acc raw, cs ← acc; read_row cs raw)
      (filter (λ raw, handled raw = false) raws) acc.
Proof.
  revert acc. induction raws as [|raw raws IH]; intros acc; [done |].
  rewrite filter_cons. destruct (decide (handled raw = false)) as [Hraw|Hraw].
  - cbn [fold_left]. apply IH.
  - cbn [fold_left]. rewrite <-IH. f_equal.
    destruct acc as [cs|e]; [|done]. cbn [mbind Result_bind].
    apply read_row_handled. by destruct (handled raw).
Qed.

Lemma read_rows_short (raws : list RawRow) (acc : Result RawContainers) :
  Exists (λ raw, short raw = true) raws →
  ∃ e, fold_left (λ acc raw, cs ← acc; read_row cs raw) raws acc = Raise e.
Proof.
  intros Hshort. revert acc.
  induction Hshort as [raw raws Hraw|raw raws _ IH]; intros acc; [|apply IH].
  cbn [fold_left]. destruct acc as [cs|e]; cbn [mbind Result_bind].
  - destruct (read_row_short cs raw Hraw) as [e ->]. exists e. apply read_rows_raise.
  - exists e. apply read_rows_raise.
Qed.

(** On a complete row the loop does what [store_row] does. *)
Lemma read_row_complete (cs : Containers) (row : Row) :
  read_row (raw_containers cs) (raw_of row) = Ok (raw_containers (store_row cs row)).
Proof.
  destruct cs as [[[tax pbc] stats] pd].
  unfold read_row, raw_containers, store_row, row_fields, row_numbers, row_clusters,
    parse_clusters, raw_of.
  cbn [cell_post_number cell_caption cell_url cell_likes cell_number_of_hashtags
       cell_types_of_patterns cell_taxonomy cell_int cell_text cell_value].
  destruct (PyStr.int (row_post_number row)) as [post_num|];
    cbn [mbind Step_bind option_bind]; [|done].
  destruct (PyStr.int (row_likes row)) as [likes|];
    cbn [mbind Step_bind option_bind]; [|done].
  destruct (PyStr.int (row_number_of_hashtags row)) as [hashtags_count|];
    cbn [mbind Step_bind option_bind]; [|done].
  cbn zeta.
  assert ((if post_num =? 1
           then Value (create_taxonomy (row_taxonomy row)) else Value tax)
          = Value (if post_num =? 1 then create_taxonomy (row_taxonomy row) else tax))
    as -> by (by destruct (post_num =? 1)).
  rewrite parse_parts_clusters.
  destruct (PyStr.contains "," (PyStr.strip (row_types_of_patterns row))).
  - cbn [default from_option id]. by rewrite insert_insert_eq, fmap_insert.
  - destruct (PyStr.int (PyStr.strip (row_types_of_patterns row))) as [c|];
      cbn [fmap option_fmap option_map default from_option id].
    + by rewrite insert_insert_eq, fmap_insert.
    + by rewrite fmap_insert.
Qed.

Lemma read_rows_complete (rows : list Row) (cs : Containers) :
  fold_left (λ acc raw, cs ← acc; read_row cs raw) (raw_of <$> rows) (Ok (raw_containers cs))
  = Ok (raw_containers (fold_left store_row rows cs)).
Proof.
  revert cs. induction rows as [|row rows IH]; intros cs; [done |].
  cbn [fmap list_fmap fold_left mbind Result_bind]. rewrite read_row_complete. apply IH.
Qed.


Lemma append_in_step (post_num likes hashtags_count : Z) (clusters : list Z)
    (pbc : gmap Z (list Z)) (stats : gmap Z Stats) :
  (∀ c, in_step pbc stats c) →
  ∀ c, in_step (append_all post_num clusters pbc)
               (append_stats post_num likes hashtags_count clusters stats) c.
Proof.
  unfold append_all, append_stats. revert pbc stats.
  induction clusters as [|c' cs IH]; intros pbc stats Hin; [done |].
  cbn [fold_left]. apply IH. intros c. unfold in_step.
  destruct (decide (c' = c)) as [->|Hne].
  - rewrite !lookup_insert_eq. specialize (Hin c). unfold in_step in Hin.
    destruct (pbc !! c) as [l|], (stats !! c) as [s|]; try done; cbn.
    destruct Hin as (Hne & Hp & Hl & Hh). rewrite !length_app, Hp, Hl, Hh.
    split_and!; [by destruct l | done | done | done].
  - rewrite !lookup_insert_ne by done. apply Hin.
Qed.

Lemma rows_in_step (rows : list Row) (cs : Containers) :
  (∀ c, in_step cs.1.1.2 cs.1.2 c) →
  ∀ c, in_step (fold_left store_row rows cs).1.1.2 (fold_left store_row rows cs).1.2 c.
Proof.
  revert cs. induction rows as [|row rows IH]; intros cs Hin; [done |].
  cbn [fold_left]. apply IH. destruct cs as [[[tax pbc] stats] pd]. unfold store_row.
  destruct (row_numbers row) as [[[post_num likes] hashtags_count]|]; [|done].
  destruct (row_clusters row) as [clusters|]; [|done].
  cbn [fst snd] in *. by apply append_in_step.
Qed.

Lemma file_in_step (rows : list Row) (c : Z) :
  let st := create_network_graph rows in
  (is_Some (posts_by_cluster st !! c) ↔ is_Some (cluster_stats st !! c))
  ∧ (∀ l, posts_by_cluster st !! c = Some l →
       l ≠ []
       ∧ ∃ stats, cluster_stats st !! c = Some stats
                  ∧ stats_posts stats = l
                  ∧ length (stats_likes stats) = length l
                  ∧ length (stats_hashtags stats) = length l).
Proof.
  cbn zeta.
  pose proof (rows_in_step rows (containers ingest_init)) as Hin.
  unfold create_network_graph. rewrite <-rows_containers in Hin. cbn [containers fst snd] in Hin.
  specialize (Hin (λ c, I) c). unfold in_step in Hin.
  destruct (posts_by_cluster _ !! c) as [l|], (cluster_stats _ !! c) as [s|]; try done.
  split; [done |]. intros ? [= <-]. destruct Hin as (? & ? & ? & ?). eauto 10.
Qed.

(** X2: after any file the accumulators are in step. For every category,
    [posts_by_cluster] and [cluster_stats] have the key or both lack it; the
    post list is not empty and is the post list of the statistics; and the
    lists of likes and of hashtag counts have its length. *)
Theorem accumulators_in_step (rows : list Row) (c : Z) :
  let st := create_network_graph rows in
  (is_Some (posts_by_cluster st !! c) ↔ is_Some (cluster_stats st !! c))
  ∧ (∀ l, posts_by_cluster st !! c = Some l →
       l ≠ []
       ∧ ∃ stats, cluster_stats st !! c = Some stats
                  ∧ stats_posts stats = l
                  ∧ length (stats_likes stats) = length l
                  ∧ length (stats_hashtags stats) = length l).
Proof. exact (file_in_step rows c). Qed.

Lemma average_division (values : list Z) (q : spec_float) :
  values ≠ [] → average values = Ok q →
  Binary64.true_div (sum values) (len values) = Ok (average_value values).
Proof.
  intros Hne Hq. unfold average_value. rewrite Hq. by destruct values.
Qed.

Lemma file_node_averages (rows : list Row) (G : Graph) (c : Z) (n : NodeAttr) :
  analyse rows = Ok G → dict_get c (nodes G) = Some n →
  0 < posts_count n
  ∧ posts_count n = len (posts n)
  ∧ Binary64.true_div (total_likes n) (posts_count n) = Ok (avg_likes n)
  ∧ Binary64.true_div (total_hashtags n) (posts_count n) = Ok (avg_hashtags n).
Proof.
  unfold analyse. cbn zeta. intros HG Hn.
  destruct (build_graph_nodes _ _ _ G HG) as (Hnodes & _).
  destruct (build_graph_Ok _ _ _ G HG) as [Hpass _].
  assert (c ∈ node_list (node_graph (taxonomy (create_network_graph rows))
                           (posts_by_cluster (create_network_graph rows))
                           (cluster_stats (create_network_graph rows)))) as Hc.
  { apply dict_get_Some_keys. rewrite <-Hnodes. eauto. }
  apply add_nodes_elem in Hc as [Hkey [l Hl]].
  destruct (add_nodes_cases (taxonomy (create_network_graph rows))
              (posts_by_cluster (create_network_graph rows))
              (cluster_stats (create_network_graph rows)))
    as [[_ Hrep]|[Hraise _]]; [|by rewrite Hraise in Hpass].
  destruct (Hrep c Hkey (ex_intro _ l Hl)) as [[x Hx] [y Hy]].
  rewrite Hnodes in Hn. apply add_nodes_attr in Hn as (name & _ & ->).
  destruct (file_in_step rows c) as [_ Hstep].
  destruct (Hstep l Hl) as (Hne & stats & Hstats & Hp & Hlikes & Hhash).
  cbn [posts_count posts avg_likes avg_hashtags total_likes total_hashtags node_attr].
  unfold stats_of, posts_of in *. rewrite Hl, Hstats in *. cbn [default from_option id] in *.
  assert (0 < len l) as Hpos by (unfold len; destruct l; [done | cbn; lia]).
  split_and!; [done | done | |].
  - replace (len l) with (len (stats_likes stats)) by (unfold len; by rewrite Hlikes).
    apply (average_division _ x); [|done]. intros Hnil. rewrite Hnil in Hlikes.
    destruct l; done.
  - replace (len l) with (len (stats_hashtags stats)) by (unfold len; by rewrite Hhash).
    apply (average_division _ y); [|done]. intros Hnil. rewrite Hnil in Hhash.
    destruct l; done.
Qed.



Lemma elem_of_replicate_filter (x c : Z) (clusters : list Z) (y : Z) :
  y ∈ replicate (length (filter (λ z, z = c) clusters)) x ↔ y = x ∧ c ∈ clusters.
Proof.
  rewrite elem_of_replicate. split.
  - intros [-> Hlen]. split; [done |].
    destruct (filter _ clusters) as [|z zs] eqn:Hf; [done |].
    assert (z ∈ filter (λ z, z = c) clusters) as Hz by (rewrite Hf; by left).
    by apply list_elem_of_filter in Hz as [-> ?].
  - intros [-> Hc]. split; [done |].
    assert (c ∈ filter (λ z, z = c) clusters) as Hz by (by apply list_elem_of_filter).
    by destruct (filter _ clusters); [apply elem_of_nil in Hz |].
Qed.

Lemma store_row_agree (cs : Containers) (row : Row) :
  records_agree cs → records_agree (store_row cs row).
Proof.
  destruct cs as [[[tax pbc] stats] pd]. unfold store_row, records_agree.
  intros [Hrec Hacc].
  destruct (row_numbers row) as [[[post_num likes] hashtags_count]|]; [|done].
  destruct (row_clusters row) as [clusters|]; cbn [default from_option id].
  - split.
    + intros p r c. rewrite append_all_lookup, elem_of_app, elem_of_replicate_filter.
      rewrite lookup_insert. case_decide as Hp.
      * intros [= <-]. cbn. subst p. auto.
      * intros Hr Hc. left. by eapply Hrec.
    + intros c p. rewrite append_all_lookup, elem_of_app, elem_of_replicate_filter.
      rewrite lookup_insert. case_decide as Hp; [eauto |].
      intros [Hin|[-> _]]; [by eapply Hacc | done].
  - split.
    + intros p r c. rewrite lookup_insert. case_decide as Hp.
      * intros [= <-]. cbn. by intros ?%elem_of_nil.
      * apply Hrec.
    + intros c p Hin. rewrite lookup_insert. case_decide; [eauto | by eapply Hacc].
Qed.

(** X4: after any file, every category listed in the record of a post has
    that post in its accumulator, and every post in an accumulator has a
    record. (The converse of the first part fails when a post number
    repeats: see [moved_post_example].) *)
Theorem records_match_accumulators (rows : list Row) :
  let st := create_network_graph rows in
  (∀ p r c, post_data st !! p = Some r → c ∈ post_clusters r →
     p ∈ posts_of (posts_by_cluster st) c)
  ∧ (∀ c p, p ∈ posts_of (posts_by_cluster st) c → is_Some (post_data st !! p)).
Proof.
  cbn zeta.
  assert (records_agree (containers (create_network_graph rows))) as Hagree.
  { unfold create_network_graph. rewrite rows_containers.
    assert (records_agree (containers ingest_init)) as Hinit.
    { cbn. split; [intros p r c; by rewrite lookup_empty |].
      intros c p. rewrite lookup_empty. cbn. by intros ?%elem_of_nil. }
    revert Hinit. generalize (containers ingest_init).
    induction rows as [|row rows IH]; intros cs Hcs; [done |].
    cbn [fold_left]. by apply IH, store_row_agree. }
  exact Hagree.
Qed.

(** Post 7 moved from category 2 to category 3: the accumulator of
    category 2 keeps it, its record no longer lists category 2. *)
Example moved_post_example :
  posts_of (posts_by_cluster (create_network_graph moved_rows)) 2 = [7]
  ∧ post_clusters <$> post_data (create_network_graph moved_rows) !! 7 = Some [3].
Proof. by vm_compute. Qed.

(** *** The warning of a skipped row *)

Lemma fold_add_to_cluster_counters (post_num likes hashtags_count : Z) (clusters : list Z)
    (st : Ingest) :
  let st' := fold_left (add_to_cluster post_num likes hashtags_count) clusters st in
  row_count st' = row_count st ∧ last_post_num st' = last_post_num st.
Proof.
  cbn zeta. revert st. induction clusters as [|c cs IH]; intros st; [done |].
  cbn [fold_left]. by destruct (IH (add_to_cluster post_num likes hashtags_count st c))
    as [-> ->].
Qed.

Lemma ingest_row_counters (st : Ingest) (row : Row) :
  row_count (ingest_row st row) = row_count st + 1
  ∧ last_post_num (ingest_row st row)
    = match PyStr.int (row_post_number row) with
      | Some post_num => Some post_num
      | None => last_post_num st
      end.
Proof.
  unfold ingest_row. cbn zeta.
  destruct (PyStr.int (row_post_number row)) as [post_num|]; [|done].
  destruct (PyStr.int (row_likes row)) as [likes|]; [|done].
  destruct (PyStr.int (row_number_of_hashtags row)) as [hashtags_count|]; [|done].
  assert (∀ s, row_count (store_post row post_num likes hashtags_count s) = row_count s
               ∧ last_post_num (store_post row post_num likes hashtags_count s)
                 = last_post_num s) as Hstore.
  { intros s. unfold store_post. cbn zeta. destruct (post_num =? 1); [|done].
    by destruct (create_taxonomy_io (row_taxonomy row)). }
  destruct (PyStr.contains "," (PyStr.strip (row_types_of_patterns row))).
  - destruct (parse_parts _ _) as [clusters warnings]. rewrite fold_say.
    unfold record_clusters. cbn zeta.
    match goal with |- context [fold_left _ clusters ?s] =>
      destruct (fold_add_to_cluster_counters post_num likes hashtags_count clusters s)
        as [-> ->] end.
    cbn [row_count last_post_num].
    match goal with |- context [store_post row post_num likes hashtags_count ?s] =>
      by destruct (Hstore s) as [-> ->] end.
  - destruct (PyStr.int (PyStr.strip (row_types_of_patterns row))) as [c0|].
    + unfold record_clusters. cbn zeta.
      match goal with |- context [fold_left _ [c0] ?s] =>
        destruct (fold_add_to_cluster_counters post_num likes hashtags_count [c0] s)
          as [-> ->] end.
      cbn [row_count last_post_num].
      match goal with |- context [store_post row post_num likes hashtags_count ?s] =>
        by destruct (Hstore s) as [-> ->] end.
    + cbn [say row_count last_post_num].
      match goal with |- context [store_post row post_num likes hashtags_count ?s] =>
        by destruct (Hstore s) as [-> ->] end.
Qed.

Lemma rows_counters (rows : list Row) (st : Ingest) :
  row_count (fold_left ingest_row rows st) = row_count st + len rows
  ∧ last_post_num (fold_left ingest_row rows st)
    = match last (omap (λ row, PyStr.int (row_post_number row)) rows) with
      | Some post_num => Some post_num
      | None => last_post_num st
      end.
Proof.
  revert st. induction rows as [|row rows IH]; intros st.
  { unfold len. cbn. split; [lia | done]. }
  cbn [fold_left omap list_omap].
  destruct (IH (ingest_row st row)) as [-> ->].
  destruct (ingest_row_counters st row) as [-> ->].
  split; [unfold len; cbn [length]; lia |].
  destruct (PyStr.int (row_post_number row)) as [post_num|]; [|done].
  destruct (omap _ rows) as [|q qs] eqn:Hq; [done |].
  rewrite last_cons_cons.
  destruct (last (q :: qs)) eqn:Hlast; [done | by apply last_None in Hlast].
Qed.

Lemma skipped_row_printed (rows : list Row) (row : Row) :
  row_numbers row = None →
  let st := create_network_graph rows in
  printed (ingest_row st row)
  = printed st
    ++ [WarnRow
          match PyStr.int (row_post_number row) with
          | Some post_num => post_num
          | None =>
              default (len rows + 1)
                (last (omap (λ earlier, PyStr.int (row_post_number earlier)) rows))
          end
          (rejected_field row);
        RowData row].
Proof.
  intros Hrow st.
  destruct (rows_counters rows ingest_init) as [Hcount Hlast].
  fold (create_network_graph rows) in Hcount, Hlast. fold st in Hcount, Hlast.
  cbn [ingest_init row_count last_post_num] in Hcount, Hlast.
  unfold row_numbers in Hrow. unfold ingest_row, rejected_field. cbn zeta.
  destruct (PyStr.int (row_post_number row)) as [post_num|]; cbn [mbind option_bind] in Hrow.
  - destruct (PyStr.int (row_likes row)) as [likes|]; cbn [mbind option_bind] in Hrow.
    + destruct (PyStr.int (row_number_of_hashtags row)) as [hashtags_count|]; [done |].
      unfold row_error, say. cbn [printed row_count last_post_num default from_option id].
      by rewrite <-app_assoc.
    + unfold row_error, say. cbn [printed row_count last_post_num default from_option id].
      by rewrite <-app_assoc.
  - unfold row_error, say. cbn [printed row_count last_post_num]. rewrite Hcount, Hlast.
    rewrite <-app_assoc. by destruct (last _).
Qed.



(** * Further properties of [build_graph] *)

(** ** The similarity formula *)

Lemma max3_ge_1 (a b : Qc) : (1 ≤ max3 a b 1 ∧ 0 < max3 a b 1)%Qc.
Proof.
  destruct (max3_spec a b 1) as (_ & _ & H1 & _). split; [done |].
  eapply Qclt_le_trans; [|done]. done.
Qed.

Lemma Qc_div_mul (d m : Qc) : (0 < m → d / m * m = d)%Qc.
Proof. intros Hm. field. by apply Qclt_not_eq in Hm as ?%not_eq_sym. Qed.

Lemma Qc_abs_le_max (a b : Qc) : (0 ≤ a → 0 ≤ b → Qc_abs (a - b) ≤ max3 a b 1)%Qc.
Proof.
  intros Ha Hb. destruct (max3_spec a b 1) as (Hma & Hmb & _ & _).
  destruct (Qc_abs_spec (a - b)) as (Hneg & Hpos & _).
  destruct (Qclt_le_dec (a - b) 0) as [Hlt|Hle].
  - rewrite (Hneg Hlt). eapply Qcle_trans; [|exact Hmb].
    apply Qcle_minus_iff. by replace (b + - - (a - b))%Qc with a by ring.
  - rewrite (Hpos Hle). eapply Qcle_trans; [|exact Hma].
    apply Qcle_minus_iff. by replace (a + - (a - b))%Qc with b by ring.
Qed.

Lemma similarity_of_bounds (a b : Qc) :
  similarity_of a b = similarity_of b a
  ∧ (similarity_of a b ≤ 1)%Qc
  ∧ similarity_of a a = 1%Qc
  ∧ ((0 ≤ a)%Qc → (0 ≤ b)%Qc → (0 ≤ similarity_of a b)%Qc)
  ∧ similarity_of (Qc_of_Z (-10)) (Qc_of_Z 10) = (- 1)%Qc.
Proof.
  destruct (max3_ge_1 a b) as [_ Hm].
  destruct (Qc_abs_spec (a - b)) as (_ & _ & Habs).
  split_and!.
  - apply similarity_of_sym.
  - unfold similarity_of. cbn zeta. apply Qcle_minus_iff.
    replace (1 + - (1 - Qc_abs (a - b) / max3 a b 1))%Qc
      with (Qc_abs (a - b) / max3 a b 1)%Qc by ring.
    apply (Qcmult_le_mono_pos_r _ _ (max3 a b 1) Hm).
    by rewrite Qcmult_0_l, Qc_div_mul.
  - unfold similarity_of. cbn zeta.
    replace (a - a)%Qc with 0%Qc by ring.
    replace (Qc_abs 0) with 0%Qc by (by apply Qc_is_canon).
    unfold Qcdiv. rewrite Qcmult_0_l. ring.
  - intros Ha Hb. unfold similarity_of. cbn zeta.
    apply (Qcle_minus_iff (Qc_abs (a - b) / max3 a b 1) 1).
    apply (Qcmult_le_mono_pos_r _ _ (max3 a b 1) Hm).
    rewrite Qcmult_1_l, Qc_div_mul by done. by apply Qc_abs_le_max.
  - by apply Qc_is_canon.
Qed.


(** ** Weights and payloads *)

Lemma size_list_to_set_le (l : list Z) : (size (list_to_set l : gset Z) ≤ length l)%nat.
Proof.
  induction l as [|x l IH]; [done |]. cbn [list_to_set foldr length].
  rewrite size_union_alt, size_singleton.
  assert (size ((list_to_set l : gset Z) ∖ {[x]}) ≤ size (list_to_set l : gset Z))%nat
    by (apply subseteq_size; set_solver).
  lia.
Qed.

Lemma shared_of_size_le (pbc : gmap Z (list Z)) (u v : Z) :
  (size (shared_of pbc u v) ≤ length (posts_of pbc u))%nat
  ∧ (size (shared_of pbc u v) ≤ length (posts_of pbc v))%nat.
Proof.
  unfold shared_of. split.
  - etrans; [|apply size_list_to_set_le]. apply subseteq_size. set_solver.
  - etrans; [|apply size_list_to_set_le]. apply subseteq_size. set_solver.
Qed.

(** The similarity edges of a returned graph, with the test they passed. *)
Lemma build_graph_similarity_edge (taxonomy : dict Z string)
    (posts_by_cluster : gmap Z (list Z)) (cluster_stats : gmap Z Stats)
    (G : Graph) (k : Z * Z) (e : EdgeAttr) :
  let D := direct_graph taxonomy posts_by_cluster cluster_stats in
  build_graph taxonomy posts_by_cluster cluster_stats = Ok G →
  adj G !! k = Some e → adj D !! k = None →
  ∃ u v, before (node_list D) u v ∧ k = edge_key u v
         ∧ Binary64.gtb (Binary64.similarity (avg_of (nodes D) u) (avg_of (nodes D) v))
             Binary64.threshold = true
         ∧ e = similarity_attr
                 (Binary64.similarity (avg_of (nodes D) u) (avg_of (nodes D) v)).
Proof.
  intros D HG He Hold. destruct (build_graph_Ok _ _ _ G HG) as [_ Hnodes].
  destruct (build_graph_returns _ _ _ Hnodes) as (b & _ & _ & _ & Hret).
  rewrite Hret in HG. injection HG as <-. fold D in He.
  destruct (negb b && _).
  - by apply (similarity_pass_new D (direct_graph_NoDup _ _ _) k e Hold He).
  - by rewrite Hold in He.
Qed.

(** The node of a category in a returned graph. *)
Lemma build_graph_node (taxonomy : dict Z string) (posts_by_cluster : gmap Z (list Z))
    (cluster_stats : gmap Z Stats) (G : Graph) (u : Z) :
  let D := direct_graph taxonomy posts_by_cluster cluster_stats in
  build_graph taxonomy posts_by_cluster cluster_stats = Ok G →
  u ∈ node_list D →
  ∃ nu, dict_get u (nodes G) = Some nu ∧ dict_get u (nodes D) = Some nu
        ∧ posts nu = posts_of posts_by_cluster u
        ∧ posts_count nu = len (posts_of posts_by_cluster u)
        ∧ avg_of (nodes D) u = avg_likes nu.
Proof.
  intros D HG Hu. destruct (build_graph_nodes _ _ _ G HG) as (Hnodes & _).
  destruct (build_graph_Ok _ _ _ G HG) as [_ Hne].
  assert (nodes D = nodes G) as HD by (unfold D; by rewrite direct_graph_nodes, Hnodes).
  apply dict_get_Some_keys in Hu as [nu Hnu]. exists nu.
  unfold avg_of. rewrite Hnu, <-HD. split_and!; try done.
  - rewrite HD, Hnodes in Hnu. by apply add_nodes_attr in Hnu as (name & _ & ->).
  - rewrite HD, Hnodes in Hnu. by apply add_nodes_attr in Hnu as (name & _ & ->).
Qed.



(** ** The order of the taxonomy *)

Section DictOrder.
Context {V : Type}.
Implicit Types (d : dict Z V).

Lemma dict_set_fresh d (k : Z) (v : V) : k ∉ dict_keys d → dict_set k v d = d ++ [(k, v)].
Proof.
  unfold dict_keys. induction d as [|[k' v'] d IH]; intros Hk; [done |].
  cbn [dict_set]. rewrite decide_False.
  - cbn. f_equal. apply IH. intros Hin. apply Hk. cbn. by right.
  - intros ->. apply Hk. cbn. by left.
Qed.

Lemma fold_dict_set_fresh (es : list (Z * V)) d :
  NoDup (dict_keys d ++ es.*1) → fold_left (λ d e, dict_set e.1 e.2 d) es d = d ++ es.
Proof.
  revert d. induction es as [|[k v] es IH]; intros d Hnd.
  { by rewrite app_nil_r. }
  cbn [fold_left fst snd]. cbn [fmap list_fmap fst] in Hnd.
  rewrite dict_set_fresh.
  - rewrite IH; [by rewrite <-app_assoc |].
    unfold dict_keys. rewrite map_app. cbn. by rewrite <-app_assoc.
  - apply NoDup_app in Hnd as (_ & Hdisj & _). intros Hin.
    apply (Hdisj k Hin). by left.
Qed.

Lemma dict_get_elem d (k : Z) (v : V) :
  NoDup (dict_keys d) → dict_get k d = Some v ↔ (k, v) ∈ d.
Proof.
  unfold dict_keys. induction d as [|[k' v'] d IH]; intros Hnd.
  { cbn. split; [done | by intros ?%elem_of_nil]. }
  cbn [map fst] in Hnd. apply NoDup_cons in Hnd as [Hk' Hnd].
  cbn [dict_get]. rewrite elem_of_cons. destruct (decide (k = k')) as [->|Hne].
  - split; [intros [= ->]; by left |].
    intros [[= ->]|Hin]; [done |]. destruct Hk'.
    apply list_elem_of_In, in_map_iff. exists (k', v). split; [done | by apply list_elem_of_In].
  - rewrite (IH Hnd). split; [by right |]. intros [[= -> ->]|Hin]; done.
Qed.

Lemma dict_get_Permutation d1 d2 (k : Z) :
  NoDup (dict_keys d1) → d1 ≡ₚ d2 → dict_get k d1 = dict_get k d2.
Proof.
  intros Hnd Hperm.
  assert (NoDup (dict_keys d2)) as Hnd2.
  { unfold dict_keys in *. by rewrite <-Hperm. }
  destruct (dict_get k d1) as [v|] eqn:H1.
  - symmetry. apply dict_get_elem; [done |]. rewrite <-Hperm. by apply dict_get_elem.
  - destruct (dict_get k d2) as [v|] eqn:H2; [|done].
    apply dict_get_elem in H2; [|done]. rewrite <-Hperm in H2.
    apply dict_get_elem in H2; [|done]. congruence.
Qed.

End DictOrder.

Section PairLoopOrder.
Variable body : Z → Z → Graph → Graph.
Variable upd : dict Z NodeAttr → Z → Z → option EdgeAttr → option EdgeAttr.
Hypothesis body_nodes : ∀ c1 c2 G, nodes (body c1 c2 G) = nodes G.
Hypothesis body_frame :
  ∀ c1 c2 G k, k ≠ edge_key c1 c2 → adj (body c1 c2 G) !! k = adj G !! k.
Hypothesis body_hit :
  ∀ c1 c2 G,
    adj (body c1 c2 G) !! edge_key c1 c2 = upd (nodes G) c1 c2 (adj G !! edge_key c1 c2).

(** A pair loop whose update does not depend on the order inside the pair
    gives the same edges for every order of the nodes. *)
Lemma for_pairs_Permutation (l1 l2 : list Z) (G1 G2 : Graph) :
  NoDup l1 → l1 ≡ₚ l2 → adj G1 = adj G2 →
  (∀ u v old, upd (nodes G1) u v old = upd (nodes G2) u v old) →
  (∀ u v old, upd (nodes G2) u v old = upd (nodes G2) v u old) →
  adj (for_pairs body l1 G1) = adj (for_pairs body l2 G2).
Proof.
  intros Hnd1 Hperm Hadj Hupd Hsym.
  assert (NoDup l2) as Hnd2 by (by rewrite <-Hperm).
  apply map_eq. intros k.
  destruct (for_pairs_lookup body upd body_nodes body_frame body_hit l1 G1 k Hnd1)
    as [(u & v & Hb1 & Hk1 & Hlook1)|[Hframe1 Hlook1]];
  destruct (for_pairs_lookup body upd body_nodes body_frame body_hit l2 G2 k Hnd2)
    as [(u' & v' & Hb2 & Hk2 & Hlook2)|[Hframe2 Hlook2]];
  rewrite Hlook1, Hlook2, Hadj.
  - rewrite Hk1 in Hk2. apply edge_key_inj in Hk2 as [[<- <-]|[<- <-]].
    + apply Hupd.
    + rewrite Hupd. apply Hsym.
  - exfalso. destruct (before_elem _ _ _ Hb1) as [Hu Hv].
    apply (Hframe2 u v); [by rewrite <-Hperm | by rewrite <-Hperm | | done].
    exact (before_ne l1 u v Hnd1 Hb1).
  - exfalso. destruct (before_elem _ _ _ Hb2) as [Hu Hv].
    apply (Hframe1 u' v'); [by rewrite Hperm | by rewrite Hperm | | done].
    exact (before_ne l2 u' v' Hnd2 Hb2).
  - done.
Qed.

End PairLoopOrder.

Lemma shared_upd_sym (pbc : gmap Z (list Z)) (table : dict Z NodeAttr) (u v : Z)
    (old : option EdgeAttr) :
  shared_upd pbc table u v old = shared_upd pbc table v u old.
Proof. unfold shared_upd. cbn zeta. by rewrite (shared_of_sym pbc u v). Qed.

(** The average likes read from the node table are doubles when those of
    its nodes are. *)
Lemma avg_of_not_nan (table : dict Z NodeAttr) (u : Z) :
  (∀ c n, dict_get c table = Some n → avg_likes n ≠ S754_nan) →
  avg_of table u ≠ S754_nan.
Proof.
  intros Htable. unfold avg_of. destruct (dict_get u table) as [n|] eqn:Hn; [|done].
  cbn. by apply (Htable u).
Qed.

Lemma similarity_upd_sym (table : dict Z NodeAttr) (u v : Z) (old : option EdgeAttr) :
  (∀ c n, dict_get c table = Some n → avg_likes n ≠ S754_nan) →
  similarity_upd table u v old = similarity_upd table v u old.
Proof.
  intros Htable. unfold similarity_upd. destruct old; [done |]. cbn zeta.
  by rewrite (similarity_sym (avg_of table u) (avg_of table v))
    by (by apply avg_of_not_nan).
Qed.

(** Two graphs with the same nodes, in any order, and the same edges are
    connected together. *)
Lemma connected_same_edges (A B : Graph) :
  (∀ u, u ∈ node_list A ↔ u ∈ node_list B) → adj A = adj B →
  connected A → connected B.
Proof.
  intros Hmem Hadj Hc u v Hu Hv.
  apply (rtc_subrel (edge_rel A) (edge_rel B)); [|apply Hc; by apply Hmem].
  intros x y (Hx & Hy & Hedge). split_and!; [by apply Hmem | by apply Hmem |].
  unfold has_edge in *. by rewrite <-Hadj.
Qed.

Lemma same_edge_refl (e : EdgeAttr) : same_edge e e.
Proof.
  unfold same_edge. split_and!; [done | done | done |].
  destruct (shared_posts e); by constructor.
Qed.

Section TaxonomyOrder.
Variable t1 t2 : dict Z string.
Variable posts_by_cluster : gmap Z (list Z).
Variable cluster_stats : gmap Z Stats.
Hypothesis t1_NoDup : NoDup (dict_keys t1).
Hypothesis t1_t2 : t1 ≡ₚ t2.

Let N1 := node_graph t1 posts_by_cluster cluster_stats.
Let N2 := node_graph t2 posts_by_cluster cluster_stats.
Let D1 := direct_graph t1 posts_by_cluster cluster_stats.
Let D2 := direct_graph t2 posts_by_cluster cluster_stats.

Lemma add_nodes_fresh (t : dict Z string) :
  NoDup (dict_keys t) →
  nodes (node_graph t posts_by_cluster cluster_stats)
  = omap (taxonomy_node posts_by_cluster cluster_stats) t.
Proof.
  intros Hnd. unfold node_graph. cbn [nodes].
  rewrite fold_dict_set_fresh; [done |]. cbn [dict_keys map app].
  induction t as [|[c name] t IH]; [apply NoDup_nil_2 |].
  unfold dict_keys in Hnd. cbn [map fst] in Hnd. apply NoDup_cons in Hnd as [Hc Hnd].
  cbn [omap list_omap]. unfold taxonomy_node at 1. cbn [fst snd].
  case_bool_decide; [|by apply IH].
  cbn [fmap list_fmap fst]. apply NoDup_cons. split; [|by apply IH].
  intros Hin. apply node_entry_keys in Hin as [Hin _]. done.
Qed.

Lemma t2_NoDup : NoDup (dict_keys t2).
Proof. unfold dict_keys in *. by rewrite <-t1_t2. Qed.

Lemma order_keys (c : Z) : c ∈ dict_keys t1 ↔ c ∈ dict_keys t2.
Proof. unfold dict_keys. by rewrite t1_t2. Qed.

Lemma order_nodes : nodes N1 ≡ₚ nodes N2.
Proof.
  unfold N1, N2. rewrite !add_nodes_fresh by (done || apply t2_NoDup).
  by apply omap_Permutation.
Qed.

Lemma order_node_list : node_list N1 ≡ₚ node_list N2.
Proof. unfold node_list, dict_keys. apply Permutation_map, order_nodes. Qed.

(** The node loop passes for both orders or raises for both. *)
Lemma order_add_nodes :
  (add_nodes t1 posts_by_cluster cluster_stats = Ok N1
   ∧ add_nodes t2 posts_by_cluster cluster_stats = Ok N2)
  ∨ (add_nodes t1 posts_by_cluster cluster_stats = Raise OverflowError
     ∧ add_nodes t2 posts_by_cluster cluster_stats = Raise OverflowError).
Proof.
  destruct (add_nodes_cases t1 posts_by_cluster cluster_stats)
    as [[H1 Hrep1]|[H1 (c1 & Hc1 & Hp1 & Hno1)]];
  destruct (add_nodes_cases t2 posts_by_cluster cluster_stats)
    as [[H2 Hrep2]|[H2 (c2 & Hc2 & Hp2 & Hno2)]].
  - by left.
  - destruct Hno2. apply Hrep1; [by apply order_keys | done].
  - destruct Hno1. apply Hrep2; [by apply order_keys | done].
  - by right.
Qed.

Section BothPass.
Hypothesis pass1 : add_nodes t1 posts_by_cluster cluster_stats = Ok N1.
Hypothesis pass2 : add_nodes t2 posts_by_cluster cluster_stats = Ok N2.

Lemma order_direct_nodes : nodes D1 = nodes N1 ∧ nodes D2 = nodes N2.
Proof.
  unfold D1, D2, direct_graph. rewrite pass1, pass2.
  split; apply (for_pairs_nodes _ (shared_step_nodes posts_by_cluster)).
Qed.

Lemma order_direct_Permutation : nodes D1 ≡ₚ nodes D2.
Proof. destruct order_direct_nodes as [-> ->]. apply order_nodes. Qed.

Lemma order_direct_node_list : node_list D1 ≡ₚ node_list D2.
Proof. unfold node_list, dict_keys. apply Permutation_map, order_direct_Permutation. Qed.

Lemma order_direct_adj : adj D1 = adj D2.
Proof.
  unfold D1, D2, direct_graph. rewrite pass1, pass2.
  apply (for_pairs_Permutation _ _ (shared_step_nodes posts_by_cluster)
           (shared_step_frame posts_by_cluster) (shared_step_hit posts_by_cluster)).
  - apply add_nodes_NoDup.
  - apply order_node_list.
  - done.
  - done.
  - intros u v old. apply shared_upd_sym.
Qed.

Lemma order_repair_adj :
  adj (similarity_pass (node_list D1) D1) = adj (similarity_pass (node_list D2) D2).
Proof.
  apply (for_pairs_Permutation _ _ similarity_step_nodes similarity_step_frame
           similarity_step_hit).
  - apply direct_graph_NoDup.
  - apply order_direct_node_list.
  - apply order_direct_adj.
  - intros u v old. unfold similarity_upd, avg_of.
    rewrite !(dict_get_Permutation (nodes D1) (nodes D2));
      [done | apply direct_graph_NoDup | apply order_direct_Permutation
       | apply direct_graph_NoDup | apply order_direct_Permutation].
  - intros u v old. apply similarity_upd_sym. intros c n Hn.
    by destruct (direct_graph_avg _ _ _ c n Hn).
Qed.

Lemma order_connected : connected D1 ↔ connected D2.
Proof.
  split; apply connected_same_edges.
  - intros u. by rewrite order_direct_node_list.
  - apply order_direct_adj.
  - intros u. by rewrite order_direct_node_list.
  - symmetry. apply order_direct_adj.
Qed.

Lemma order_both_pass :
  match build_graph t1 posts_by_cluster cluster_stats,
        build_graph t2 posts_by_cluster cluster_stats with
  | Ok G1, Ok G2 => adj G1 = adj G2 ∧ nodes G1 ≡ₚ nodes G2
  | Raise e1, Raise e2 => e1 = e2
  | _, _ => False
  end.
Proof.
  destruct (decide (node_list D1 = [])) as [Hnull|Hnodes].
  - assert (node_list D2 = []) as Hnull2.
    { apply Permutation_nil_r. rewrite <-Hnull. symmetry. apply order_direct_node_list. }
    by rewrite (build_graph_null _ _ _ pass1 Hnull), (build_graph_null _ _ _ pass2 Hnull2).
  - assert (node_list D2 ≠ []) as Hnodes2.
    { intros Hnull2. apply Hnodes. apply Permutation_nil_r. rewrite <-Hnull2.
      apply order_direct_node_list. }
    destruct (build_graph_returns _ _ _ Hnodes) as (b1 & _ & Hc1 & _ & ->).
    destruct (build_graph_returns _ _ _ Hnodes2) as (b2 & _ & Hc2 & _ & ->).
    fold D1 D2 in Hc1, Hc2 |- *.
    assert (b1 = b2) as <-.
    { destruct b1, b2; try done.
      - symmetry. apply Hc2, order_connected, Hc1. done.
      - apply Hc1, order_connected, Hc2. done. }
    assert (len (node_list D1) = len (node_list D2)) as <-.
    { unfold len. by rewrite order_direct_node_list. }
    destruct (negb b1 && _).
    + split; [apply order_repair_adj |].
      rewrite !similarity_pass_nodes. apply order_direct_Permutation.
    + split; [apply order_direct_adj | apply order_direct_Permutation].
Qed.

End BothPass.

(** The two orders give the same outcome of [build_graph]. *)
Lemma order_build_graph :
  match build_graph t1 posts_by_cluster cluster_stats,
        build_graph t2 posts_by_cluster cluster_stats with
  | Ok G1, Ok G2 =>
      nodes G1 ≡ₚ nodes G2
      ∧ ∀ k, option_Forall2 same_edge (adj G1 !! k) (adj G2 !! k)
  | Raise e1, Raise e2 => e1 = e2
  | _, _ => False
  end.
Proof.
  destruct order_add_nodes as [[H1 H2]|[H1 H2]].
  - pose proof (order_both_pass H1 H2) as Hboth.
    destruct (build_graph t1 _ _) as [G1|e1], (build_graph t2 _ _) as [G2|e2]; try done.
    destruct Hboth as [Hadj Hnodes]. split; [done |]. intros k. rewrite Hadj.
    destruct (adj G2 !! k); constructor. apply same_edge_refl.
  - by rewrite (proj1 (build_graph_overflow _ _ _ H1)),
      (proj1 (build_graph_overflow _ _ _ H2)).
Qed.

End TaxonomyOrder.

(** X8: the order of the entries of the taxonomy does not matter for the
    graph. Two taxonomies with the same entries in different orders make
    [build_graph] raise the same exception or return graphs with the same
    nodes in a different order and, between the same pairs of nodes, edges
    with the same weight, score and tag that list the same shared posts (the
    order inside that list, which is the order in which a Python set is
    listed, is left open). *)
Theorem taxonomy_order_irrelevant (t1 t2 : dict Z string) (posts_by_cluster : gmap Z (list Z))
    (cluster_stats : gmap Z Stats) :
  NoDup (dict_keys t1) → t1 ≡ₚ t2 →
  match build_graph t1 posts_by_cluster cluster_stats,
        build_graph t2 posts_by_cluster cluster_stats with
  | Ok G1, Ok G2 =>
      nodes G1 ≡ₚ nodes G2
      ∧ ∀ k, option_Forall2 same_edge (adj G1 !! k) (adj G2 !! k)
  | Raise e1, Raise e2 => e1 = e2
  | _, _ => False
  end.
Proof. apply order_build_graph. Qed.

(** X8 at the taxonomy of the scenario and its reverse. *)
Lemma taxonomy_order_irrelevant_witness :
  match build_graph scenario_dict (posts_by_cluster scenario_state)
          (cluster_stats scenario_state),
        build_graph scenario_dict_reversed (posts_by_cluster scenario_state)
          (cluster_stats scenario_state) with
  | Ok G1, Ok G2 =>
      nodes G1 ≡ₚ nodes G2
      ∧ ∀ k, option_Forall2 same_edge (adj G1 !! k) (adj G2 !! k)
  | Raise e1, Raise e2 => e1 = e2
  | _, _ => False
  end.
Proof.
  apply taxonomy_order_irrelevant.
  - apply (bool_decide_unpack (NoDup (dict_keys scenario_dict))). vm_compute. exact I.
  - unfold scenario_dict, scenario_dict_reversed.
    change [(1, "A"); (2, "B"); (3, "C")] with (reverse [(3, "C"); (2, "B"); (1, "A")]).
    apply reverse_Permutation.
Defined.

(** * Properties of the visualizations *)

(** ** Clamping *)

Lemma min2_of_Z (a b : Z) : min2 (Qc_of_Z a) (Qc_of_Z b) = Qc_of_Z (Z.min a b).
Proof.
  unfold min2. destruct (Qc_gtb _ _) eqn:Hgt.
  - apply Qc_gtb_lt, Z2Qc_inj_lt in Hgt. by rewrite Z.min_r by lia.
  - apply Qc_gtb_nlt in Hgt. rewrite <-Z2Qc_inj_lt in Hgt. by rewrite Z.min_l by lia.
Qed.

Lemma max2_of_Z (a b : Z) : max2 (Qc_of_Z a) (Qc_of_Z b) = Qc_of_Z (Z.max a b).
Proof.
  unfold max2. destruct (Qc_gtb _ _) eqn:Hgt.
  - apply Qc_gtb_lt, Z2Qc_inj_lt in Hgt. by rewrite Z.max_r by lia.
  - apply Qc_gtb_nlt in Hgt. rewrite <-Z2Qc_inj_lt in Hgt. by rewrite Z.max_l by lia.
Qed.

Lemma ltb_leb (x y : spec_float) : Binary64.ltb x y = true → Binary64.leb x y = true.
Proof.
  unfold Binary64.ltb, Binary64.leb, SFltb, SFleb.
  by destruct (SFcompare x y) as [[| |]|].
Qed.

(** [max(low, min(high, x))] on doubles lies between [low] and [high],
    whatever [x] is. *)
Lemma clamp_between (low high : Z) (x : spec_float) :
  between low high (Binary64.of_int low) → between low high (Binary64.of_int high) →
  between low high
    (Binary64.max2 (Binary64.of_int low) (Binary64.min2 (Binary64.of_int high) x)).
Proof.
  intros Hlow Hhigh.
  assert (between low high (Binary64.min2 (Binary64.of_int high) x)
          ∨ Binary64.gtb (Binary64.min2 (Binary64.of_int high) x) (Binary64.of_int low)
            = false) as [Hmin|Hmin].
  { destruct (Binary64.gtb (Binary64.min2 (Binary64.of_int high) x) (Binary64.of_int low))
      eqn:Hgt; [left | by right].
    split; [by apply ltb_leb |].
    unfold Binary64.min2 in *. destruct (Binary64.ltb x (Binary64.of_int high)) eqn:Hlt.
    - by apply ltb_leb.
    - apply Hhigh. }
  - unfold Binary64.max2. by destruct (Binary64.gtb _ _).
  - unfold Binary64.max2. by rewrite Hmin.
Qed.

(** ** Loops that collect *)

Lemma for_each_cases {A B} (f : A → Result B) (l : list A) :
  match for_each f l with
  | Ok ys => Forall2 (λ x y, f x = Ok y) l ys
  | Raise e => ∃ x, x ∈ l ∧ f x = Raise e
  end.
Proof.
  induction l as [|x l IH]; [constructor |]. cbn [for_each].
  destruct (f x) as [y|e] eqn:Hx; cbn [mbind Result_bind].
  - destruct (for_each f l) as [ys|e]; cbn [mbind Result_bind].
    + by constructor.
    + destruct IH as (x' & Hin & Hraise). exists x'. split; [by right | done].
  - exists x. split; [by left | done].
Qed.

Lemma true_div_cases (a b : Z) :
  b ≠ 0 →
  (∃ quotient, Binary64.true_div a b = Ok quotient)
  ∨ Binary64.true_div a b = Raise OverflowError.
Proof.
  intros Hb. unfold Binary64.true_div. rewrite (proj2 (Z.eqb_neq b 0) Hb).
  destruct (Binary64.div _ _); eauto.
Qed.

(** ** The edges that are drawn *)

(** Every edge of a returned graph has one of the two attribute records of
    [build_graph]. *)
Lemma build_graph_edge_shape (taxonomy : dict Z string) (posts_by_cluster : gmap Z (list Z))
    (cluster_stats : gmap Z Stats) (G : Graph) (k : Z * Z) (e : EdgeAttr) :
  build_graph taxonomy posts_by_cluster cluster_stats = Ok G →
  adj G !! k = Some e →
  (∃ shared : gset Z, shared ≠ ∅ ∧ e = shared_attr shared)
  ∨ (∃ score, e = similarity_attr score).
Proof.
  intros HG He.
  destruct (build_graph_edges _ _ _ G k e HG He) as [Hold|(_ & u & v & _ & _ & ->)].
  - apply direct_graph_edge in Hold as (u & v & _ & _ & Hne & ->). left. eauto.
  - right. eauto.
Qed.

Lemma size_pos (shared : gset Z) : shared ≠ ∅ → (1 ≤ size shared)%nat.
Proof.
  intros Hne. destruct (size shared) eqn:Hsize; [|lia].
  by apply size_empty_inv, leibniz_equiv in Hsize.
Qed.

Lemma pyvis_edge_shared (shared : gset Z) :
  shared ≠ ∅ →
  pyvis_edge (shared_attr shared)
  = Some {| pv_width := Qc_of_Z (Z.min 10 (2 * Z.of_nat (size shared)));
            pv_edge_color := "darkblue" |}.
Proof.
  intros Hne%size_pos. unfold pyvis_edge. cbn [weight shared_posts shared_attr mbind option_bind].
  do 2 f_equal. rewrite <-Z2Qc_inj_mul, min2_of_Z, <-Z2Qc_inj_1, max2_of_Z.
  f_equal. lia.
Qed.

Lemma pyvis_edge_similarity (score : spec_float) :
  pyvis_edge (similarity_attr score) = Some {| pv_width := 1%Qc; pv_edge_color := "lightgray" |}.
Proof.
  unfold pyvis_edge. cbn [weight shared_posts similarity similarity_attr mbind option_bind].
  match goal with |- Some {| pv_width := ?w; pv_edge_color := _ |} = _ =>
    assert (w = 1%Qc) as -> by (apply Qc_is_canon; by vm_compute) end.
  done.
Qed.

Lemma static_edge_shared (shared : gset Z) :
  shared ≠ ∅ →
  static_edge (shared_attr shared)
  = Some (Qc_of_Z (Z.min 8 (2 * Z.of_nat (size shared))), "darkblue").
Proof.
  intros Hne%size_pos. unfold static_edge. cbn [weight shared_posts shared_attr mbind option_bind].
  do 2 f_equal. rewrite <-Z2Qc_inj_mul, min2_of_Z, <-Z2Qc_inj_1, max2_of_Z.
  f_equal. lia.
Qed.

Lemma static_edge_similarity (score : spec_float) :
  static_edge (similarity_attr score) = Some (1%Qc, "lightgray").
Proof.
  unfold static_edge. cbn [weight shared_posts similarity_attr mbind option_bind].
  match goal with |- Some (?w, _) = _ =>
    assert (w = 1%Qc) as -> by (apply Qc_is_canon; by vm_compute) end.
  done.
Qed.

Lemma build_graph_weights (taxonomy : dict Z string) (posts_by_cluster : gmap Z (list Z))
    (cluster_stats : gmap Z Stats) (G : Graph) :
  build_graph taxonomy posts_by_cluster cluster_stats = Ok G →
  map_Forall (λ _ e, is_Some (weight e)) (adj G).
Proof.
  intros HG k e He.
  destruct (build_graph_edge_shape _ _ _ G k e HG He) as [(S & _ & ->)|(score & ->)];
    cbn; eauto.
Qed.

(** X9: for a graph that [build_graph] returned, the interactive
    visualization draws every edge and no other, without failing on a missing
    weight. An edge with shared posts is dark blue and as wide as twice the
    number of shared posts, at most 10; a similarity edge is light gray and of
    width 1. The gray fallback of line 278 is never used. *)
Theorem pyvis_edges_of_built_graph (taxonomy : dict Z string)
    (posts_by_cluster : gmap Z (list Z)) (cluster_stats : gmap Z Stats) (G : Graph) :
  build_graph taxonomy posts_by_cluster cluster_stats = Ok G →
  ∃ drawn, pyvis_edges G = Some drawn
    ∧ ∀ k,
        match adj G !! k with
        | None => drawn !! k = None
        | Some e =>
            ∃ d, drawn !! k = Some d
              ∧ pv_edge_color d ≠ "gray"
              ∧ match shared_posts e with
                | Some l =>
                    pv_edge_color d = "darkblue"
                    ∧ pv_width d = Qc_of_Z (Z.min 10 (2 * len l))
                | None =>
                    is_Some (similarity e)
                    ∧ pv_edge_color d = "lightgray" ∧ pv_width d = 1%Qc
                end
        end.
Proof.
  intros HG. exists (omap pyvis_edge (adj G)). split.
  { unfold pyvis_edges. rewrite bool_decide_eq_true_2; [done |].
    by eapply build_graph_weights. }
  intros k. rewrite lookup_omap. destruct (adj G !! k) as [e|] eqn:He; [|done].
  destruct (build_graph_edge_shape _ _ _ G k e HG He) as [(S & HS & ->)|(score & ->)].
  - cbn [mbind option_bind]. rewrite (pyvis_edge_shared S HS). eexists. split; [done |].
    cbn. split_and!; done.
  - cbn [mbind option_bind]. rewrite pyvis_edge_similarity. eexists. split; [done |].
    cbn. split_and!; eauto; done.
Qed.

(** X9 at the graph of the scenario. *)
Lemma pyvis_edges_of_built_graph_witness :
  ∃ drawn, pyvis_edges (graph_of scenario_rows) = Some drawn
    ∧ ∀ k,
        match adj (graph_of scenario_rows) !! k with
        | None => drawn !! k = None
        | Some e =>
            ∃ d, drawn !! k = Some d
              ∧ pv_edge_color d ≠ "gray"
              ∧ match shared_posts e with
                | Some l =>
                    pv_edge_color d = "darkblue"
                    ∧ pv_width d = Qc_of_Z (Z.min 10 (2 * len l))
                | None =>
                    is_Some (similarity e)
                    ∧ pv_edge_color d = "lightgray" ∧ pv_width d = 1%Qc
                end
        end.
Proof.
  apply (pyvis_edges_of_built_graph (taxonomy scenario_state)
           (posts_by_cluster scenario_state) (cluster_stats scenario_state)).
  vm_compute. reflexivity.
Defined.

(** ** The palette *)

Lemma palette_up_to_ten (n : nat) :
  (n ≤ 10)%nat →
  ∃ colors, Colors.generate_colors n = Some colors
            ∧ length colors = n ∧ NoDup colors ∧ Forall hex_color colors.
Proof.
  intros Hn.
  do 11 (destruct n as [|n];
    [eexists; split; [vm_compute; reflexivity |];
     split; [reflexivity |];
     split; [apply (bool_decide_unpack _); by vm_compute |];
     repeat (apply Forall_cons; split; [by split |]); apply Forall_nil_2 |]).
  lia.
Qed.

(** X10: for up to ten colours, which is as many as a taxonomy of
    one-digit category ids can need, [generate_colors] returns the requested
    number of colours, all different, each of the form [#rrggbb]. *)
Theorem generate_colors_distinct (n : nat) :
  (n ≤ 10)%nat →
  ∃ colors, Colors.generate_colors n = Some colors
            ∧ length colors = n ∧ NoDup colors ∧ Forall hex_color colors.
Proof. apply palette_up_to_ten. Qed.

(** X10 for seven colours. *)
Lemma generate_colors_distinct_witness :
  ∃ colors, Colors.generate_colors 7 = Some colors
            ∧ length colors = 7%nat ∧ NoDup colors ∧ Forall hex_color colors.
Proof. apply (generate_colors_distinct 7). lia. Defined.

(** ** The nodes that are drawn *)

Lemma create_taxonomy_keys (taxonomy_str : string) (number : Z) :
  number ∈ dict_keys (create_taxonomy taxonomy_str) → 0 ≤ number ≤ 9.
Proof.
  unfold create_taxonomy, create_taxonomy_io. rewrite fold_taxonomy_line. cbn [fst].
  intros [Hin|Hin]%fold_dict_set_keys; [|by apply elem_of_nil in Hin].
  apply list_elem_of_fmap in Hin as [[k name] [-> Hin]].
  apply list_elem_of_omap in Hin as [raw [_ Hraw]].
  by eapply entry_of_range.
Qed.

(** The graph of a file has at most ten nodes, since its categories are
    digits. *)
Lemma file_graph_small (rows : list Row) (G : Graph) :
  analyse rows = Ok G →
  (1 ≤ number_of_nodes G ≤ 10)%nat ∧ node_list G ≠ [] ∧ NoDup (node_list G).
Proof.
  unfold analyse. cbn zeta. intros HG.
  destruct (build_graph_nodes _ _ _ G HG) as (Hnodes & Hne & Hnd).
  split_and!; [| |done | done].
  { unfold number_of_nodes. unfold node_list, dict_keys in Hne.
    destruct (nodes G); [done | cbn; lia]. }
  assert (∀ c, c ∈ node_list G → c ∈ seqZ 0 10) as Hsub.
  { intros c Hc. unfold node_list in Hc. rewrite Hnodes in Hc.
    apply add_nodes_elem in Hc as [Hc _].
    unfold create_network_graph in Hc. rewrite rows_taxonomy in Hc.
    destruct (last _) as [row|]; cbn in Hc.
    - apply create_taxonomy_keys in Hc. apply elem_of_seqZ. lia.
    - by apply elem_of_nil in Hc. }
  pose proof (submseteq_length _ _ (NoDup_submseteq _ _ Hnd Hsub)) as Hlen.
  rewrite length_seqZ in Hlen.
  unfold number_of_nodes. unfold node_list, dict_keys in Hlen. rewrite length_map in Hlen.
  lia.
Qed.

(** Line 237 to 253 for one node: the node is drawn, or the division
    raises. *)
Lemma pyvis_node_cases (colors : list string) (i : nat) (node : Z * NodeAttr) (color : string) :
  (i < length colors)%nat → colors !! i = Some color →
  match pyvis_node colors i node with
  | Ok d => fits_pyvis node.2 ∧ d = drawn_node node color
  | Raise e => ¬ fits_pyvis node.2 ∧ e = OverflowError
  end.
Proof.
  intros Hi Hcolor. unfold pyvis_node, drawn_node, fits_pyvis. destruct node as [node_id n].
  cbn [fst snd].
  destruct (true_div_cases (total_likes n) 100) as [[q Hq]|Hq]; [done | |];
    rewrite Hq; cbn [mbind Result_bind].
  - rewrite Nat.mod_small, Hcolor by done. split; [eauto | done].
  - split; [by intros [q [=]] | done].
Qed.

(** The node loop of the interactive visualization. *)
Lemma pyvis_nodes_cases (colors : list string) (table : list (Z * NodeAttr)) :
  length colors = length table →
  match for_each (λ '(i, node), pyvis_node colors i node) (imap pair table) with
  | Ok drawn =>
      drawn = zip_with drawn_node table colors ∧ Forall (λ node, fits_pyvis node.2) table
  | Raise e => e = OverflowError ∧ Exists (λ node, ¬ fits_pyvis node.2) table
  end.
Proof.
  intros Hlen.
  pose proof (for_each_cases (λ '(i, node), pyvis_node colors i node) (imap pair table))
    as Hcases.
  destruct (for_each _ _) as [drawn|e].
  - assert (length drawn = length table) as Hdrawn.
    { rewrite <-(Forall2_length _ _ _ Hcases). apply length_imap. }
    assert (∀ i node, table !! i = Some node →
              ∃ color, colors !! i = Some color
                       ∧ fits_pyvis node.2 ∧ drawn !! i = Some (drawn_node node color))
      as Hat.
    { intros i node Hnode.
      assert (i < length colors)%nat as Hi by (rewrite Hlen; by eapply lookup_lt_Some).
      destruct (lookup_lt_is_Some_2 colors i Hi) as [color Hcolor].
      assert (imap pair table !! i = Some (i, node)) as Hentry
        by (by rewrite list_lookup_imap, Hnode).
      destruct (Forall2_lookup_l _ _ _ _ _ Hcases Hentry) as (d & Hd & Hdraw).
      cbn beta in Hdraw. pose proof (pyvis_node_cases colors i node color Hi Hcolor) as Hone.
      rewrite Hdraw in Hone. destruct Hone as [Hfits ->]. eauto. }
    split.
    + apply list_eq_same_length with (length table); [| done |].
      { rewrite length_zip_with_l_eq; [done | lia]. }
      intros i x y Hi Hx Hy.
      apply lookup_zip_with_Some in Hy as (node & color & -> & Hnode & Hcolor).
      destruct (Hat i node Hnode) as (color' & Hcolor' & _ & Hd).
      rewrite Hcolor in Hcolor'. injection Hcolor' as <-. rewrite Hx in Hd. by injection Hd.
    + apply Forall_lookup. intros i node Hnode.
      by destruct (Hat i node Hnode) as (color & _ & Hfits & _).
  - destruct Hcases as ([i node] & Hin & Hraise).
    apply list_elem_of_lookup in Hin as [j Hj].
    rewrite list_lookup_imap in Hj.
    destruct (table !! j) as [node'|] eqn:Hnode; [|done]. injection Hj as <- <-.
    assert (j < length colors)%nat as Hi by (rewrite Hlen; by eapply lookup_lt_Some).
    destruct (lookup_lt_is_Some_2 colors j Hi) as [color Hcolor].
    pose proof (pyvis_node_cases colors j node' color Hi Hcolor) as Hone.
    rewrite Hraise in Hone. destruct Hone as [Hfits ->]. split; [done |].
    apply Exists_exists. exists node'. split; [by eapply list_elem_of_lookup_2 | done].
Qed.

(** The entries of the node table and its lookups. *)
Lemma nodes_Forall (G : Graph) (P : NodeAttr → Prop) :
  NoDup (node_list G) →
  Forall (λ node, P node.2) (nodes G) ↔ ∀ c n, dict_get c (nodes G) = Some n → P n.
Proof.
  intros Hnd. rewrite Forall_forall. split.
  - intros Hall c n Hn. apply (Hall (c, n)). by apply dict_get_elem.
  - intros Hall [c n] Hin. apply (Hall c). by apply dict_get_elem.
Qed.

Lemma nodes_Exists (G : Graph) (P : NodeAttr → Prop) :
  NoDup (node_list G) →
  Exists (λ node, P node.2) (nodes G) → ∃ c n, dict_get c (nodes G) = Some n ∧ P n.
Proof.
  intros Hnd ([c n] & Hin & HP)%Exists_exists. exists c, n.
  split; [by apply dict_get_elem | done].
Qed.

(** How [create_pyvis_network] ends on a graph with at most ten nodes and
    a weight on every edge. *)
Lemma create_pyvis_network_cases (show : option exn) (G : Graph) :
  (number_of_nodes G ≤ 10)%nat →
  map_Forall (λ _ e, is_Some (weight e)) (adj G) →
  match create_pyvis_network show G with
  | Raise e =>
      (e = OverflowError ∧ Exists (λ node, ¬ fits_pyvis node.2) (nodes G))
      ∨ (show = Some e ∧ Forall (λ node, fits_pyvis node.2) (nodes G))
  | Ok net =>
      show = None
      ∧ Forall (λ node, fits_pyvis node.2) (nodes G)
      ∧ ∃ colors, Colors.generate_colors (number_of_nodes G) = Some colors
          ∧ length colors = number_of_nodes G ∧ NoDup colors ∧ Forall hex_color colors
          ∧ net = {| pv_nodes := zip_with drawn_node (nodes G) colors;
                     pv_edges := omap pyvis_edge (adj G) |}
  end.
Proof.
  intros Hsmall Hweights. unfold create_pyvis_network.
  destruct (palette_up_to_ten _ Hsmall) as (colors & Hcolors & Hlen & Hnd & Hhex).
  rewrite Hcolors. cbn [mbind Result_bind].
  pose proof (pyvis_nodes_cases colors (nodes G) Hlen) as Hnodes.
  destruct (for_each _ _) as [drawn|e]; cbn [mbind Result_bind].
  - destruct Hnodes as [-> Hfits]. unfold pyvis_edges.
    rewrite bool_decide_eq_true_2 by done. cbn [mbind Result_bind].
    destruct show as [e|]; [by right |]. split_and!; [done | done |].
    exists colors. by split_and!.
  - by left.
Qed.



(** ** The static plot *)

Lemma omap_Forall2 {A B} (f : A → option B) (l : list A) :
  Forall (λ x, is_Some (f x)) l → Forall2 (λ x y, f x = Some y) l (omap f l).
Proof.
  induction 1 as [|x l [y Hy] _ IH]; [constructor |].
  cbn. rewrite Hy. by constructor.
Qed.

(** [sorted(G.nodes())] lists the nodes in increasing order. *)
Lemma sorted_nodes_spec (G : Graph) :
  sorted_nodes G ≡ₚ node_list G ∧ StronglySorted Z.le (sorted_nodes G).
Proof.
  split; [apply merge_sort_Permutation |].
  apply StronglySorted_merge_sort.
  - intros x y z. lia.
  - intros x y. lia.
Qed.

Lemma sorted_nodes_table {B} (G : Graph) (f : Z → NodeAttr → B) :
  Forall2 (λ c y, ∃ n, dict_get c (nodes G) = Some n ∧ y = f c n)
    (sorted_nodes G) (omap (λ c, f c <$> dict_get c (nodes G)) (sorted_nodes G)).
Proof.
  eapply Forall2_impl.
  - apply omap_Forall2, Forall_forall. intros c Hc.
    rewrite (proj1 (sorted_nodes_spec G)) in Hc.
    apply dict_get_Some_keys in Hc as [n Hn]. rewrite Hn. by eexists.
  - intros c y Hy. cbn beta in Hy.
    destruct (dict_get c (nodes G)) as [n|]; [|done].
    injection Hy as <-. eauto.
Qed.

(** Lines 333 to 338 for one node. *)
Lemma static_node_cases (n : NodeAttr) :
  match static_node n with
  | Ok (size, color) => fits_static n ∧ between 300 2000 size
  | Raise e => ¬ fits_static n ∧ e = OverflowError
  end.
Proof.
  unfold static_node, fits_static.
  destruct (true_div_cases (total_likes n) 5) as [[q Hq]|Hq]; [done | |];
    rewrite Hq; cbn [mbind Result_bind]; cbn zeta.
  - destruct (true_div_cases (posts_count n) 20) as [[x Hx]|Hx]; [done | |];
      rewrite Hx; cbn [mbind Result_bind].
    + split; [eauto |]. by apply clamp_between.
    + split; [|done]. by intros [_ [x [=]]].
  - split; [|done]. by intros [[q [=]] _].
Qed.

Lemma static_nodes_cases (table : dict Z NodeAttr) :
  match for_each (λ node : Z * NodeAttr, static_node node.2) table with
  | Ok drawn =>
      length drawn = length table
      ∧ Forall (λ node, fits_static node.2) table
      ∧ Forall (between 300 2000) drawn.*1
  | Raise e => e = OverflowError ∧ Exists (λ node, ¬ fits_static node.2) table
  end.
Proof.
  pose proof (for_each_cases (λ node : Z * NodeAttr, static_node node.2) table) as Hcases.
  destruct (for_each _ _) as [drawn|e].
  - split_and!.
    + symmetry. by eapply Forall2_length.
    + induction Hcases as [|node [size color] table drawn Hnode _ IH]; constructor; [|done].
      pose proof (static_node_cases node.2) as Hone. rewrite Hnode in Hone. apply Hone.
    + induction Hcases as [|node [size color] table drawn Hnode _ IH]; constructor; [|done].
      pose proof (static_node_cases node.2) as Hone. rewrite Hnode in Hone. apply Hone.
  - destruct Hcases as (node & Hin & Hraise).
    pose proof (static_node_cases node.2) as Hone. rewrite Hraise in Hone.
    destruct Hone as [Hfits ->]. split; [done |]. apply Exists_exists. eauto.
Qed.

(** How [create_matplotlib_visualization] ends on a graph with nodes and a
    weight on every edge. *)
Lemma create_matplotlib_cases (figure draw : option exn) (G : Graph) :
  node_list G ≠ [] →
  map_Forall (λ _ e, is_Some (weight e)) (adj G) →
  match create_matplotlib_visualization figure draw G with
  | Raise e =>
      figure = Some e
      ∨ (figure = None ∧ e = OverflowError ∧ Exists (λ node, ¬ fits_static node.2) (nodes G))
      ∨ (figure = None ∧ draw = Some e ∧ Forall (λ node, fits_static node.2) (nodes G))
  | Ok NoNodesToDisplay => False
  | Ok (Drawn plot) =>
      figure = None ∧ draw = None
      ∧ Forall (λ node, fits_static node.2) (nodes G)
      ∧ Forall (between 300 2000) (sp_node_sizes plot)
      ∧ length (sp_node_sizes plot) = number_of_nodes G
      ∧ length (sp_node_colors plot) = number_of_nodes G
      ∧ sp_edges plot = omap static_edge (adj G)
      ∧ sp_labels plot = static_label <$> nodes G
      ∧ sp_legend plot
        = omap (λ node_id, legend_line node_id <$> dict_get node_id (nodes G))
            (sorted_nodes G)
  end.
Proof.
  intros Hne Hweights. unfold create_matplotlib_visualization.
  destruct figure as [e|]; [by left |].
  assert ((number_of_nodes G =? 0)%nat = false) as ->.
  { apply Nat.eqb_neq. unfold number_of_nodes. unfold node_list, dict_keys in Hne.
    destruct (nodes G); [done | cbn; lia]. }
  pose proof (static_nodes_cases (nodes G)) as Hnodes.
  destruct (for_each _ _) as [drawn|e]; cbn [mbind Result_bind].
  - destruct Hnodes as (Hlen & Hfits & Hsizes).
    rewrite bool_decide_eq_true_2 by done.
    destruct draw as [e|]; [right; right; done |].
    cbn [sp_node_sizes sp_node_colors sp_edges sp_labels sp_legend].
    unfold number_of_nodes. rewrite !length_fmap. by split_and!.
  - destruct Hnodes as [-> Hno]. right. left. done.
Qed.



(** ** The whole run *)

(** How [build_graph] raises. *)
Lemma build_graph_Raise (taxonomy : dict Z string) (posts_by_cluster : gmap Z (list Z))
    (cluster_stats : gmap Z Stats) (e : exn) :
  build_graph taxonomy posts_by_cluster cluster_stats = Raise e →
  (e = OverflowError
   ∧ ∃ c, c ∈ dict_keys taxonomy ∧ is_Some (posts_by_cluster !! c)
          ∧ ¬ representable cluster_stats c)
  ∨ (e = NetworkXPointlessConcept
     ∧ ∀ c, c ∈ dict_keys taxonomy → posts_by_cluster !! c = None).
Proof.
  intros Hraise.
  destruct (add_nodes_cases taxonomy posts_by_cluster cluster_stats)
    as [[Hpass _]|[Hover Hno]].
  - right.
    destruct (decide (node_list (direct_graph taxonomy posts_by_cluster cluster_stats) = []))
      as [Hnull|Hnodes].
    + rewrite (build_graph_null _ _ _ Hpass Hnull) in Hraise. injection Hraise as <-.
      split; [done |]. intros c Hc. apply eq_None_not_Some. intros Hposts.
      assert (c ∈ node_list (node_graph taxonomy posts_by_cluster cluster_stats)) as Hin
        by (by apply add_nodes_elem).
      rewrite <-(proj2 (build_graph_unfold _ _ _ Hpass)), Hnull in Hin.
      by apply elem_of_nil in Hin.
    + destruct (build_graph_returns _ _ _ Hnodes) as (b & _ & _ & _ & Hret).
      by rewrite Hret in Hraise.
  - left. rewrite (proj1 (build_graph_overflow _ _ _ Hover)) in Hraise.
    injection Hraise as <-. done.
Qed.


(** ** The collector of [instadata.py] *)

(** The loop, from any state: it appends the rows and the pictures of the
    kept posts, numbered from the running count on. *)
Lemma collect_spec (query : string) (num_posts max_days current_date : Z)
    (posts : list Instadata.IgPost) (total : Z) (data : list Instadata.Entry)
    (pictures : list (string * string)) :
  let kept := selected current_date (num_posts - total) max_days posts in
  Instadata.collect query num_posts max_days current_date posts total data pictures
  = (data ++ imap (entry_at total) kept, pictures ++ imap (picture_at query total) kept).
Proof.
  cbn zeta. unfold selected.
  revert total data pictures.
  induction posts as [|post posts IH]; intros total data pictures.
  { cbn. rewrite take_nil. cbn. by rewrite !app_nil_r. }
  cbn [Instadata.collect].
  destruct (Instadata.ig_caption post) as [caption|] eqn:Hcaption.
  - rewrite filter_cons_True by (by rewrite Hcaption).
    cbn [take_while]. unfold recent at 1 3.
    destruct (Z.gtb_spec (Instadata.days (current_date - Instadata.ig_date post)) max_days)
      as [Hold|Hrecent].
    { rewrite bool_decide_eq_false_2 by lia. rewrite take_nil. cbn.
      by rewrite !app_nil_r. }
    rewrite bool_decide_eq_true_2 by lia.
    destruct (Z.max 1 (num_posts - total)) as [|count|] eqn:Hmax; [lia | | lia].
    destruct (Z.to_nat (Z.pos count)) as [|rest] eqn:Hcount; [lia |].
    cbn [take imap].
    assert (entry_at total 0 post
            = (total + 1, caption, "instagram.com/p/" +:+ Instadata.ig_shortcode post))
      as Hentry.
    { unfold entry_at. rewrite Hcaption. cbn [default from_option id].
      by replace (total + Z.of_nat 0 + 1) with (total + 1) by lia. }
    assert (picture_at query total 0 post
            = (query +:+ "_" +:+ py_str (total + 1) +:+ ".jpg", Instadata.ig_url post))
      as Hpicture.
    { unfold picture_at.
      by replace (total + Z.of_nat 0 + 1) with (total + 1) by lia. }
    rewrite Hentry, Hpicture.
    destruct (Z.geb_spec (total + 1) num_posts) as [Hfull|Hmore].
    + assert (rest = 0%nat) as -> by lia. by rewrite take_0.
    + rewrite IH.
      assert (Z.to_nat (Z.max 1 (num_posts - (total + 1))) = rest) as -> by lia.
      rewrite <-!(assoc_L (++)). cbn [app]. do 3 f_equal.
      * apply imap_ext. intros i p _. unfold entry_at. cbn [compose].
        by replace (total + 1 + Z.of_nat i + 1) with (total + Z.of_nat (S i) + 1) by lia.
      * apply imap_ext. intros i p _. unfold picture_at. cbn [compose].
        by replace (total + 1 + Z.of_nat i + 1) with (total + Z.of_nat (S i) + 1) by lia.
  - rewrite filter_cons_False by (rewrite Hcaption; by intros [? ?]).
    apply IH.
Qed.

Lemma take_while_Forall {A} (keep : A → bool) (l : list A) :
  Forall (λ x, keep x = true) (take_while keep l).
Proof.
  induction l as [|x l IH]; cbn; [constructor |].
  destruct (keep x) eqn:Hx; by constructor.
Qed.

Lemma take_while_sublist {A} (keep : A → bool) (l : list A) :
  take_while keep l `sublist_of` l.
Proof.
  induction l as [|x l IH]; cbn; [done |].
  destruct (keep x); [by apply sublist_skip | apply sublist_nil_l].
Qed.

(** The kept posts are posts of the hashtag, in their order, each with a
    caption and recent, and at most [max 1 num_posts] of them. *)
Lemma selected_spec (current_date num_posts max_days : Z) (posts : list Instadata.IgPost) :
  let kept := selected current_date num_posts max_days posts in
  kept `sublist_of` posts
  ∧ Forall (λ post, is_Some (Instadata.ig_caption post)
                    ∧ Instadata.days (current_date - Instadata.ig_date post) ≤ max_days)
      kept
  ∧ len kept ≤ Z.max 1 num_posts.
Proof.
  cbn zeta. unfold selected.
  set (captioned := filter _ posts).
  set (fresh := take_while _ captioned).
  split_and!.
  - etrans; [apply sublist_take |]. etrans; [apply take_while_sublist |].
    apply sublist_filter.
  - apply Forall_take. apply Forall_forall. intros post Hpost. split.
    + assert (post ∈ captioned) as Hin
        by (eapply elem_of_sublist; [done | apply take_while_sublist]).
      by apply list_elem_of_filter in Hin as [? _].
    + pose proof (take_while_Forall (recent current_date max_days) captioned) as Hall.
      rewrite Forall_forall in Hall. specialize (Hall post Hpost).
      by apply bool_decide_eq_true in Hall.
  - unfold len. rewrite length_take. lia.
Qed.

(** X14: with a user name, a session and a hashtag that Instagram knows,
    [get_hashtags_posts] returns the rows of the kept posts: of the posts
    with a caption, those before the first that is more than [max_days]
    whole days old, and of these the first [num_posts], but one in any case,
    also for [num_posts] of zero or less. The rows are numbered from 1 in
    the order of the posts. A post without a caption is passed over even when
    it is old; an old post with a caption ends the collection. *)
Theorem collected_rows (world : Instadata.World) (query : string) (num_posts max_days : Z)
    (posts : list Instadata.IgPost) :
  Instadata.falsy (Instadata.env_username world) = false →
  Instadata.session_file world = true →
  Instadata.hashtag_posts world = Some posts →
  let kept := selected (Instadata.now world) num_posts max_days posts in
  ∃ effects,
    Instadata.get_hashtags_posts world query num_posts max_days
    = inr (imap (entry_at 0) kept, effects)
    ∧ kept `sublist_of` posts
    ∧ Forall (λ post, is_Some (Instadata.ig_caption post)
                      ∧ Instadata.days (Instadata.now world - Instadata.ig_date post)
                        ≤ max_days) kept
    ∧ len kept ≤ Z.max 1 num_posts.
Proof.
  intros Huser Hsession Hposts. cbn zeta.
  unfold Instadata.get_hashtags_posts. rewrite Huser, Hsession, Hposts. cbn [negb].
  rewrite collect_spec. cbn zeta. rewrite Z.sub_0_r. cbn [app].
  eexists. split; [done |]. apply selected_spec.
Qed.

(** X14 at the five sample posts, of which the first and the third are
    kept. *)
Lemma collected_rows_witness :
  let world := logged_in sample_posts (100 * 86400000000 + 5) in
  let kept := selected (Instadata.now world) Instadata.NUM_POSTS Instadata.MAX_DAYS
                sample_posts in
  ∃ effects,
    Instadata.get_hashtags_posts world "knit" Instadata.NUM_POSTS Instadata.MAX_DAYS
    = inr (imap (entry_at 0) kept, effects)
    ∧ kept `sublist_of` sample_posts
    ∧ Forall (λ post, is_Some (Instadata.ig_caption post)
                      ∧ Instadata.days (Instadata.now world - Instadata.ig_date post)
                        ≤ Instadata.MAX_DAYS) kept
    ∧ len kept ≤ Z.max 1 Instadata.NUM_POSTS.
Proof.
  apply (collected_rows (logged_in sample_posts (100 * 86400000000 + 5)) "knit"
           Instadata.NUM_POSTS Instadata.MAX_DAYS sample_posts); reflexivity.
Defined.

(** X15: what a call of [get_hashtags_posts] leaves behind. Without a user
    name, or with an empty one, it raises [ValueError]; with a user name but
    without a session file, [RuntimeError]; in both cases whatever Instagram
    would answer. When it returns, the file holds the header and exactly the
    returned rows, and there is one picture for every row, in the order of
    the rows and named after the query and the number of the row; except that
    for a hashtag that is not found it returns no rows and writes no file,
    whereas for a hashtag without posts it writes a file with the header
    only. *)
Theorem collector_outcomes (world : Instadata.World) (query : string)
    (num_posts max_days : Z) :
  match Instadata.get_hashtags_posts world query num_posts max_days with
  | inl Instadata.ValueError =>
      Instadata.env_username world = None ∨ Instadata.env_username world = Some ""
  | inl Instadata.RuntimeError =>
      (∃ name, Instadata.env_username world = Some name ∧ name ≠ "")
      ∧ Instadata.session_file world = false
  | inr (data, effects) =>
      (∃ name, Instadata.env_username world = Some name ∧ name ≠ "")
      ∧ Instadata.session_file world = true
      ∧ match Instadata.hashtag_posts world with
        | None =>
            data = [] ∧ Instadata.csv effects = None ∧ Instadata.downloaded effects = []
        | Some posts =>
            Instadata.csv effects = Some (Instadata.header, data)
            ∧ (posts = [] → data = [] ∧ Instadata.downloaded effects = [])
            ∧ data.*1.*1 = (λ i, Z.of_nat i + 1) <$> seq 0 (length data)
            ∧ (Instadata.downloaded effects).*1
              = (λ row, query +:+ "_" +:+ py_str row.1.1 +:+ ".jpg") <$> data
        end
  end.
Proof.
  unfold Instadata.get_hashtags_posts.
  destruct (Instadata.env_username world) as [name|] eqn:Hname; cbn [Instadata.falsy];
    [|by left].
  destruct (decide (name = "")) as [->|Hne].
  { rewrite bool_decide_eq_true_2 by done. by right. }
  rewrite bool_decide_eq_false_2 by done.
  destruct (Instadata.session_file world); cbn [negb]; [|eauto].
  destruct (Instadata.hashtag_posts world) as [posts|].
  - rewrite collect_spec. cbn zeta. cbn [app Instadata.csv Instadata.downloaded].
    split_and!; [eauto | done | done | | |].
    + intros ->. unfold selected. cbn. by rewrite take_nil.
    + generalize (selected (Instadata.now world) (num_posts - 0) max_days posts).
      intros kept. rewrite length_imap, <-!list_fmap_compose, fmap_imap.
      rewrite <-imap_seq_0. apply imap_ext. intros i post _. cbn. lia.
    + generalize (selected (Instadata.now world) (num_posts - 0) max_days posts).
      intros kept. rewrite !fmap_imap. by apply imap_ext.
  - cbn. eauto 10.
Qed.

(** ** The average degree *)

Lemma fold_left_add (l : list Z) (a : Z) : fold_left Z.add l a = a + sum l.
Proof.
  unfold sum. revert a. induction l as [|x l IH]; intros a; cbn [fold_left]; [lia |].
  rewrite (IH (a + x)), (IH (0 + x)). lia.
Qed.

Lemma sum_of_nat {A} (f : A → nat) (l : list A) :
  sum ((λ x, Z.of_nat (f x)) <$> l) = Z.of_nat (sum_list_with f l).
Proof.
  induction l as [|x l IH]; [done |].
  rewrite fmap_cons. cbn [sum_list_with]. unfold sum at 1. cbn [fold_left].
  rewrite fold_left_add, IH. lia.
Qed.

Lemma sum_list_with_ext {A} (f g : A → nat) (l : list A) :
  (∀ x, f x = g x) → sum_list_with f l = sum_list_with g l.
Proof. intros Hfg. induction l as [|x l IH]; [done |]. cbn. by rewrite Hfg, IH. Qed.

Lemma sum_list_with_add {A} (f g : A → nat) (l : list A) :
  sum_list_with (λ x, f x + g x)%nat l = (sum_list_with f l + sum_list_with g l)%nat.
Proof. induction l as [|x l IH]; [done |]. cbn. rewrite IH. lia. Qed.

Lemma sum_list_with_indicator (l : list Z) (a : Z) :
  NoDup l → a ∈ l → sum_list_with (λ v, if decide (v = a) then 1 else 0)%nat l = 1%nat.
Proof.
  induction l as [|x l IH]; intros Hnd Hin; [by apply elem_of_nil in Hin |].
  apply NoDup_cons in Hnd as [Hx Hnd]. cbn [sum_list_with].
  destruct (decide (x = a)) as [->|Hne].
  - clear IH Hin Hnd. f_equal. induction l as [|y l IH]; [done |].
    apply not_elem_of_cons in Hx as [Hy Hx]. cbn [sum_list_with].
    rewrite decide_False by done. by apply IH.
  - apply elem_of_cons in Hin as [->|Hin]; [done |]. by rewrite IH.
Qed.

Lemma filter_none {A} (P : A → Prop) `{!∀ x, Decision (P x)} (l : list A) :
  (∀ x, x ∈ l → ¬ P x) → filter P l = [].
Proof.
  induction l as [|x l IH]; intros Hnone; [done |].
  rewrite filter_cons_False by (apply Hnone; left).
  apply IH. intros y Hy. apply Hnone. by right.
Qed.

Lemma ends_union (l : list Z) (k : Z * Z) (keys : gset (Z * Z)) (v : Z) :
  k ∉ keys → ends l ({[k]} ∪ keys) v = (ends l {[k]} v + ends l keys v)%nat.
Proof.
  intros Hk. unfold ends. induction l as [|w l IH]; [done |].
  rewrite !filter_cons.
  destruct (decide (edge_key v w ∈ ({[k]} ∪ keys : gset (Z * Z)))) as [Hin|Hout],
    (decide (edge_key v w ∈ ({[k]} : gset (Z * Z)))) as [Hone|Hone],
    (decide (edge_key v w ∈ keys)) as [Hkeys|Hkeys];
    cbn [length]; rewrite ?IH; try lia; exfalso; set_solver.
Qed.

Section Handshake.

Variable l : list Z.
Hypothesis Hnd : NoDup l.

Lemma ends_singleton (a b v : Z) :
  a ∈ l → b ∈ l → a ≠ b →
  ends l {[edge_key a b]} v
  = ((if decide (v = a) then 1 else 0) + (if decide (v = b) then 1 else 0))%nat.
Proof.
  intros Ha Hb Hab. unfold ends.
  destruct (decide (v = a)) as [->|Hva]; [|destruct (decide (v = b)) as [->|Hvb]].
  - rewrite decide_False by done.
    rewrite (list_filter_iff _ (λ w, w = b)), (filter_eq_once b l Hnd Hb); [done |].
    intros w. rewrite elem_of_singleton. split; [|by intros ->].
    intros [[_ ?]|[? ?]]%edge_key_inj; congruence.
  - rewrite (list_filter_iff _ (λ w, w = a)), (filter_eq_once a l Hnd Ha); [done |].
    intros w. rewrite elem_of_singleton. split; [|intros ->; apply edge_key_sym].
    intros [[? ?]|[_ ?]]%edge_key_inj; congruence.
  - rewrite filter_none; [done |].
    intros w _. rewrite elem_of_singleton.
    intros [[? ?]|[? ?]]%edge_key_inj; congruence.
Qed.

Lemma end_count_size (keys : gset (Z * Z)) :
  (∀ k, k ∈ keys → ∃ a b, a ∈ l ∧ b ∈ l ∧ a ≠ b ∧ k = edge_key a b) →
  end_count l keys = (2 * size keys)%nat.
Proof.
  unfold end_count. induction keys as [|k keys Hk IH] using set_ind_L; intros Hkeys.
  { rewrite size_empty. rewrite (sum_list_with_ext _ (λ _, 0%nat)).
    - clear. induction l; [done | by cbn].
    - intros v. unfold ends. rewrite filter_none; [done |]. set_solver. }
  rewrite (sum_list_with_ext _ (λ v, ends l {[k]} v + ends l keys v)%nat)
    by (intros v; by apply ends_union).
  rewrite sum_list_with_add, IH by (intros k' Hk'; apply Hkeys; set_solver).
  destruct (Hkeys k) as (a & b & Ha & Hb & Hab & ->); [set_solver |].
  rewrite (sum_list_with_ext _ _ l (λ v, ends_singleton a b v Ha Hb Hab)).
  rewrite sum_list_with_add, !sum_list_with_indicator by done.
  rewrite size_union, size_singleton by set_solver. lia.
Qed.

End Handshake.

(** In a simple graph the degrees add up to twice the number of edges. *)
Lemma simple_handshake (G : Graph) :
  simple G → sum (degree G <$> node_list G) = 2 * Z.of_nat (number_of_edges G).
Proof.
  intros [Hnd Hedges].
  assert (∀ v, degree G v = Z.of_nat (ends (node_list G) (dom (adj G)) v)) as Hdegree.
  { intros v. unfold degree, neighbors, ends, len.
    assert (has_edge G v v = false) as ->.
    { unfold has_edge. apply bool_decide_eq_false. intros Hloop.
      destruct (Hedges _ Hloop) as (a & b & _ & _ & Hab & Hkey).
      apply edge_key_inj in Hkey as [[? ?]|[? ?]]; congruence. }
    rewrite Z.add_0_r. do 2 f_equal. apply list_filter_iff. intros w.
    unfold has_edge. by rewrite bool_decide_eq_true, elem_of_dom. }
  rewrite (list_fmap_ext _ (λ v, Z.of_nat (ends (node_list G) (dom (adj G)) v)))
    by (intros _ v _; apply Hdegree).
  rewrite sum_of_nat. fold (end_count (node_list G) (dom (adj G))).
  rewrite (end_count_size _ Hnd).
  - unfold number_of_edges. rewrite size_dom. lia.
  - intros k Hk. apply Hedges. by apply elem_of_dom.
Qed.

(** The graphs that [build_graph] returns are simple. *)
Lemma build_graph_simple (taxonomy : dict Z string) (posts_by_cluster : gmap Z (list Z))
    (cluster_stats : gmap Z Stats) (G : Graph) :
  build_graph taxonomy posts_by_cluster cluster_stats = Ok G → simple G.
Proof.
  intros HG.
  destruct (build_graph_nodes _ _ _ G HG) as (Hnodes & _ & Hnd).
  split; [done |]. intros k [e He].
  assert (node_list G = node_list (direct_graph taxonomy posts_by_cluster cluster_stats))
    as Hlist.
  { rewrite (build_graph_direct_nodes _ _ _ G HG). unfold node_list. by rewrite Hnodes. }
  assert (∃ u v, before (node_list G) u v ∧ k = edge_key u v) as (u & v & Hbefore & ->).
  { rewrite Hlist.
    destruct (build_graph_edges _ _ _ G k e HG He) as [Hdirect|(_ & u & v & ? & ? & _)].
    - destruct (direct_graph_edge _ _ _ k e Hdirect) as (u & v & ? & ? & _). eauto.
    - eauto. }
  destruct (before_elem _ _ _ Hbefore) as [Hu Hv].
  exists u, v. split_and!; [done | done | | done].
  by eapply before_ne.
Qed.

(** X16: for a graph that [build_graph] returned, the statistics are
    printed, and the average degree they show is twice the number of edges
    divided by the number of nodes. No node has an edge to itself, and the
    degree of a node is at most the number of the other nodes. *)
Theorem average_degree_printed (taxonomy : dict Z string)
    (posts_by_cluster : gmap Z (list Z)) (cluster_stats : gmap Z Stats) (G : Graph) :
  build_graph taxonomy posts_by_cluster cluster_stats = Ok G →
  ∃ stats, print_graph_statistics G = Ok stats
    ∧ st_average_degree stats
      = Some (true_div (2 * Z.of_nat (number_of_edges G)) (Z.of_nat (number_of_nodes G)))
    ∧ ∀ v, v ∈ node_list G →
        has_edge G v v = false
        ∧ 0 ≤ degree G v ≤ Z.of_nat (number_of_nodes G) - 1.
Proof.
  intros HG. pose proof (build_graph_simple _ _ _ G HG) as Hsimple.
  destruct (build_graph_nodes _ _ _ G HG) as (_ & Hne & Hnd).
  destruct (is_connected_Ok G Hne) as [b Hb].
  assert (1 ≤ number_of_nodes G)%nat as Hpos.
  { unfold number_of_nodes. unfold node_list, dict_keys in Hne.
    destruct (nodes G); [done | cbn; lia]. }
  unfold print_graph_statistics. rewrite Hb. eexists. split; [done |].
  cbn [st_average_degree].
  assert ((0 <? number_of_nodes G)%nat = true) as -> by (apply Nat.ltb_lt; lia).
  rewrite (simple_handshake G Hsimple). split; [done |].
  intros v Hv.
  assert (has_edge G v v = false) as Hloop.
  { unfold has_edge. apply bool_decide_eq_false. intros Hloop.
    destruct (proj2 Hsimple _ Hloop) as (a & c & _ & _ & Hac & Hkey).
    apply edge_key_inj in Hkey as [[? ?]|[? ?]]; congruence. }
  split; [done |]. unfold degree, neighbors, len. rewrite Hloop.
  assert (length (filter (λ w, has_edge G v w = true) (node_list G))
          < length (node_list G))%nat as Hlt
    by (apply (length_filter_lt _ _ v); [done | by rewrite Hloop]).
  unfold number_of_nodes. unfold node_list, dict_keys in Hlt |- *.
  rewrite length_map in Hlt. lia.
Qed.

(** X16 at the graph of the scenario. *)
Lemma average_degree_printed_witness :
  ∃ stats, print_graph_statistics (graph_of scenario_rows) = Ok stats
    ∧ st_average_degree stats
      = Some (true_div (2 * Z.of_nat (number_of_edges (graph_of scenario_rows)))
                (Z.of_nat (number_of_nodes (graph_of scenario_rows))))
    ∧ ∀ v, v ∈ node_list (graph_of scenario_rows) →
        has_edge (graph_of scenario_rows) v v = false
        ∧ 0 ≤ degree (graph_of scenario_rows) v
            ≤ Z.of_nat (number_of_nodes (graph_of scenario_rows)) - 1.
Proof.
  apply (average_degree_printed (taxonomy scenario_state) (posts_by_cluster scenario_state)
           (cluster_stats scenario_state)).
  vm_compute. reflexivity.
Defined.
